(** * Streaming response accumulation: [BaseStream] and [GroqStream]

    A shallow embedding of

    - [mirascope/core/base/stream.py]: [BaseStream.__init__] and the generator
      [BaseStream.__iter__];
    - [mirascope/core/groq/stream.py]: the [GroqStream.cost] property,
      [GroqStream._construct_message_param] and
      [GroqStream.construct_call_response].

    [GroqStream] is a subclass of the [BaseStream] of [base/_stream.py], which
    is not among the sources: it is not the class of [base/stream.py], and
    nothing below runs the [__iter__] of [base/stream.py] on a [GroqStream].

    Python objects are records of attributes, dicts are [gmap string value],
    a generator is a finite script of yields that ends by exhaustion or by
    raising, and a call that may raise returns [exn + _]. *)

From Stdlib Require Import ZArith Floats.
From stdpp Require Import base option list strings gmap.

Open Scope string_scope.

(** ** Python values *)

(** The exceptions that are raised: those of Python, the [ValidationError] of
    the library [pydantic], and the error of the transport under the stream
    of chunks. *)
Inductive exn :=
  | AttributeError (attr : string)
  | ValueError (msg : string)
  | KeyError (key : string)
  | ValidationError (msg : string)
  | TransportError (msg : string).

(** [type(e).__name__] *)
Definition class_name (e : exn) : string :=
  match e with
  | AttributeError _ => "AttributeError"
  | ValueError _ => "ValueError"
  | KeyError _ => "KeyError"
  | ValidationError _ => "ValidationError"
  | TransportError _ => "TransportError"
  end.

(** [ChatCompletionMessageToolCallParam]: a finished tool call. *)
Module ToolCall.
Record t := mk { id : string; name : string; arguments : string }.
End ToolCall.

(** The values that are stored in the dicts and attributes handled below. *)
Inductive value :=
  | VNone
  | VStr (s : string)
  | VToolCalls (l : list ToolCall.t)
  | VObj (repr : string).

(** A message param ([TypedDict]) is a dict from keys to values. *)
Abbreviation param := (gmap string value).

(** Truthiness of a string: only the empty string is falsy. *)
Definition truthy (s : string) : bool :=
  match s with "" => false | _ => true end.

(** An attribute that a class only annotates (as [message_param] in
    [BaseStream]) has no value until it is assigned, and reading it raises
    [AttributeError]; once assigned it holds [None] or an object. *)
Inductive attribute (A : Type) :=
  | Unassigned
  | IsNone
  | Holds (a : A).
Arguments Unassigned {A}.
Arguments IsNone {A}.
Arguments Holds {A} a.

(** A generator over [A]: each [next] either yields an item, or finds the
    generator exhausted, or raises. *)
Inductive generator (A : Type) :=
  | Exhausted
  | Raises (e : exn)
  | Yields (a : A) (rest : generator A).
Arguments Exhausted {A}.
Arguments Raises {A} e.
Arguments Yields {A} a rest.

(** The generator that yields the items of [l] and then goes on as [tail]. *)
Fixpoint script {A} (l : list A) (tail : generator A) : generator A :=
  match l with
  | [] => tail
  | a :: l => Yields a (script l tail)
  end.

(** The generator that yields the items of [l] and is then exhausted. *)
Definition of_list {A} (l : list A) : generator A := script l Exhausted.

(** The generator that yields the items of [l] and then raises [e]. *)
Definition raising_after {A} (l : list A) (e : exn) : generator A :=
  script l (Raises e).

(** The concatenation of strings, in order. *)
Definition join (l : list string) : string := foldr String.append "" l.

(** ** Chunks *)

(** Modelled from the spec: a tool-call delta names a slot by its index and
    may carry an id, a fragment of the name and a fragment of the arguments
    (section 3); no class of the sources has these fields. *)
Module ToolCallDelta.
Record t := mk {
  index : Z;
  id : option string;
  name : option string;
  arguments : option string
}.
End ToolCallDelta.

(** Modelled from the spec: the usage that a chunk may carry (section 3). *)
Module Usage.
Record t := mk { input_tokens : Z; output_tokens : Z }.
End Usage.

(** Modelled from the spec: the chunk class [BaseCallResponseChunk]
    ([call_response_chunk.py]) is not among the sources.  [__iter__] reads the
    attributes [user_message_param], [content] and [cost] of a chunk; the
    tool-call deltas, the finish reason and the usage are the remaining fields
    of the specification's chunk (section 3), which [__iter__] never reads. *)
Module Chunk.
Record t := mk {
  user_message_param : option param;
  content : string;
  cost : option float;
  tool_call_deltas : list ToolCallDelta.t;
  finish_reason : option string;
  usage : option Usage.t
}.
End Chunk.

(** Two chunks that have the same three attributes that [__iter__] reads;
    they may differ in their tool-call deltas, finish reason and usage. *)
Definition alike (chunk1 chunk2 : Chunk.t) : Prop :=
  Chunk.user_message_param chunk1 = Chunk.user_message_param chunk2
  /\ Chunk.content chunk1 = Chunk.content chunk2
  /\ Chunk.cost chunk1 = Chunk.cost chunk2.

(** The concatenation of the content deltas of a sequence of chunks. *)
Definition contents (chunks : list Chunk.t) : string :=
  join (Chunk.content <$> chunks).

(** The last cost that a sequence of chunks carries, [init] if none does. *)
Definition latest_cost (init : option float) (chunks : list Chunk.t)
  : option float :=
  foldl (fun acc chunk => from_option Some acc (Chunk.cost chunk)) init chunks.

(** The user message of the last chunk of a sequence, [init] if it is empty. *)
Definition latest_user_message (init : option param) (chunks : list Chunk.t)
  : option param :=
  from_option Chunk.user_message_param init (last chunks).

(** [message_param_type]: the class of the assistant message.  [__iter__]
    looks at the keys of its [__annotations__] and calls it with keyword
    arguments; the instance is the dict of these keyword arguments. *)
Module MessageParamType.
Record t := mk { annotations : gset string }.
Definition call (cls : t) (kwargs : param) : param := kwargs.
End MessageParamType.

(** ** [BaseStream] ([base/stream.py]) *)

Module BaseStream.

(** The attributes of a [BaseStream] object.  [stream], [message_param_type]
    and [output_parser] are set by [__init__]; [cost] and
    [user_message_param] are [None] in the class; [message_param] is only
    annotated.  The output parser is a function of the caller: it returns an
    output or raises. *)
Record t (O : Type) := mk {
  stream : generator Chunk.t;
  message_param_type : MessageParamType.t;
  output_parser : option (Chunk.t -> exn + O);
  cost : option float;
  user_message_param : option param;
  message_param : attribute param
}.
Arguments mk {O}.
Arguments stream {O}.
Arguments message_param_type {O}.
Arguments output_parser {O}.
Arguments cost {O}.
Arguments user_message_param {O}.
Arguments message_param {O}.

Section Methods.
Context {O : Type}.
Implicit Types (self : t O) (chunk : Chunk.t) (content : string).

Definition __init__ (stream : generator Chunk.t)
    (message_param_type : MessageParamType.t)
    (output_parser : option (Chunk.t -> exn + O)) : t O :=
  mk stream message_param_type output_parser None None Unassigned.

(** Attribute assignments [self.x = v]. *)
Definition set_stream self (g : generator Chunk.t) : t O :=
  mk g (message_param_type self) (output_parser self) (cost self)
     (user_message_param self) (message_param self).

Definition set_cost self (c : option float) : t O :=
  mk (stream self) (message_param_type self) (output_parser self) c
     (user_message_param self) (message_param self).

Definition set_user_message_param self (u : option param) : t O :=
  mk (stream self) (message_param_type self) (output_parser self) (cost self)
     u (message_param self).

Definition set_message_param self (m : attribute param) : t O :=
  mk (stream self) (message_param_type self) (output_parser self) (cost self)
     (user_message_param self) m.

(** What one [next] on the generator [__iter__] gives its caller. *)
Inductive signal :=
  | Yield (item : Chunk.t + O) (tool : option ToolCall.t)
  | StopIteration
  | Raise (e : exn).

(** The frame of the generator [__iter__]: not yet started, suspended at its
    [yield] with the local [content], or finished (the locals are gone). *)
Inductive frame :=
  | Created
  | Suspended (content : string)
  | Closed.

(** Lines 62 and 63: the chunk as the consumer is to get it, which is the
    output of the parser when there is one.  The parser may raise. *)
Definition parsed self chunk : exn + (Chunk.t + O) :=
  match output_parser self with
  | Some parser =>
      match parser chunk with
      | inr output => inr (inr output)
      | inl e => inl e
      end
  | None => inr (inl chunk)
  end.

(** The body of the [for] loop, lines 58 to 64, for one [chunk].  An
    exception of the output parser is not caught: it leaves the loop after
    the assignments of lines 58 to 61. *)
Definition loop_body self content chunk : t O * string * signal :=
  let self := set_user_message_param self (Chunk.user_message_param chunk) in
  let content := content +:+ Chunk.content chunk in
  let self :=
    match Chunk.cost chunk with
    | Some c => set_cost self (Some c)
    | None => self
    end in
  match parsed self chunk with
  | inr item => (self, content, Yield item None)
  | inl e => (self, content, Raise e)
  end.

(** The key under which [__iter__] passes the content to
    [message_param_type]. *)
Definition content_key self : string :=
  if bool_decide
       ("message" ∈ MessageParamType.annotations (message_param_type self))
  then "message"
  else "content".

(** Lines 65 to 70: the assembly of the message once the loop is over. *)
Definition assemble self content : t O :=
  let kwargs : param := {[ "role" := VStr "assistant" ]} in
  let kwargs : param :=
    if bool_decide
         ("message" ∈ MessageParamType.annotations (message_param_type self))
    then <["message" := VStr content]> kwargs
    else <["content" := VStr content]> kwargs in
  set_message_param self
    (Holds (MessageParamType.call (message_param_type self) kwargs)).

(** The generator resumes at the head of the loop and asks [self.stream] for
    its next chunk.  An exception of [self.stream] is not caught: it ends
    both generators.  An exception of the output parser ends the generator of
    [__iter__] only: [self.stream] keeps the chunks it has not yet given. *)
Definition resume self content : t O * frame * signal :=
  match stream self with
  | Yields chunk rest =>
      let '(self, content, out) :=
        loop_body (set_stream self rest) content chunk in
      (self,
       match out with
       | Yield _ _ => Suspended content
       | _ => Closed
       end,
       out)
  | Exhausted => (assemble self content, Closed, StopIteration)
  | Raises e => (set_stream self Exhausted, Closed, Raise e)
  end.

(** One [next] on the generator made by [__iter__]. *)
Definition next self (fr : frame) : t O * frame * signal :=
  match fr with
  | Created => resume self ""
  | Suspended content => resume self content
  | Closed => (self, Closed, StopIteration)
  end.

(** [k] calls of [next], stopping at the first that does not yield; the
    yielded pairs are collected in order. *)
Fixpoint pull (k : nat) self (fr : frame)
  : t O * frame * list ((Chunk.t + O) * option ToolCall.t) * option signal :=
  match k with
  | 0 => (self, fr, [], None)
  | S k =>
      match next self fr with
      | (self, fr, Yield item tool) =>
          let '(self, fr, items, last) := pull k self fr in
          (self, fr, (item, tool) :: items, last)
      | (self, fr, sig) => (self, fr, [], Some sig)
      end
  end.

(** How the consumption of a whole stream ends. *)
Inductive ending :=
  | Completed
  | Propagated (e : exn).

(** [for _ in self: pass], from the head of the loop with the local [content]
    and with [g] the chunks that [self.stream] still has. *)
Fixpoint run_from (g : generator Chunk.t) self content : t O * ending :=
  match g with
  | Yields chunk rest =>
      let '(self, content, out) :=
        loop_body (set_stream self rest) content chunk in
      match out with
      | Raise e => (self, Propagated e)
      | _ => run_from rest self content
      end
  | Exhausted => (assemble self content, Completed)
  | Raises e => (set_stream self Exhausted, Propagated e)
  end.

(** [for _ in self: pass] on a new generator. *)
Definition consume self : t O * ending :=
  run_from (stream self) self "".

(** What the object lets a consumer read of the accumulated content: the
    local [content] of the generator is not an attribute, so this is the
    content of [message_param] once that has been assigned. *)
Definition exposed_content self : option value :=
  match message_param self with
  | Holds mp => mp !! content_key self
  | _ => None
  end.

(** The pair that the generator yields for the parsed chunk [item]. *)
Definition yielded (item : Chunk.t + O) : (Chunk.t + O) * option ToolCall.t :=
  (item, None).

(** The output parser, if there is one, returns on each of [chunks], and
    [items] are the chunks as the consumer gets them. *)
Definition parses self (chunks : list Chunk.t) (items : list (Chunk.t + O))
  : Prop :=
  Forall2 (fun chunk item => parsed self chunk = inr item) chunks items.

(** The object once the loop has taken the chunks [pre], with [g] what
    [self.stream] still has. *)
Definition after self (pre : list Chunk.t) (g : generator Chunk.t) : t O :=
  mk g (message_param_type self) (output_parser self)
     (latest_cost (cost self) pre)
     (latest_user_message (user_message_param self) pre)
     (message_param self).

(** The local [content] of a frame. *)
Definition local_content (fr : frame) : string :=
  match fr with
  | Suspended content => content
  | _ => ""
  end.

End Methods.

Arguments signal : clear implicits.

End BaseStream.

(** ** [GroqStream] ([groq/stream.py]) *)

(** The classes that [construct_call_response] instantiates are not among
    the sources: [ChatCompletionMessage], [Choice] and [ChatCompletion]
    belong to the client library [groq], and [GroqCallResponse] to
    [call_response.py].  They are models of the library [pydantic], whose
    constructors validate what they are given and raise [ValidationError]
    when they refuse it.  Each class is taken as a parameter: a type of
    instances and a constructor that may raise.  The records below are the
    keyword arguments with which [construct_call_response] calls the
    constructors. *)
Module Choice.
Record kwargs (Message : Type) := mk {
  finish_reason : string;
  index : Z;
  message : Message
}.
Arguments mk {Message}.
Arguments finish_reason {Message}.
Arguments index {Message}.
Arguments message {Message}.
End Choice.

Module ChatCompletion.
Record kwargs (Choice : Type) := mk {
  id : string;
  model : string;
  choices : list Choice;
  created : Z;
  object : string
}.
Arguments mk {Choice}.
Arguments id {Choice}.
Arguments model {Choice}.
Arguments choices {Choice}.
Arguments created {Choice}.
Arguments object {Choice}.
End ChatCompletion.

Module GroqCallResponse.
Record kwargs (Completion : Type) := mk {
  metadata : value;
  response : Completion;
  tool_types : value;
  prompt_template : value;
  fn_args : param;
  dynamic_config : value;
  messages : list param;
  call_params : value;
  call_kwargs : value;
  user_message_param : option param;
  start_time : float;
  end_time : float
}.
Arguments mk {Completion}.
Arguments metadata {Completion}.
Arguments response {Completion}.
Arguments tool_types {Completion}.
Arguments prompt_template {Completion}.
Arguments fn_args {Completion}.
Arguments dynamic_config {Completion}.
Arguments messages {Completion}.
Arguments call_params {Completion}.
Arguments call_kwargs {Completion}.
Arguments user_message_param {Completion}.
Arguments start_time {Completion}.
Arguments end_time {Completion}.
End GroqCallResponse.

(** The four constructors: [ChatCompletionMessage.model_validate], [Choice],
    [ChatCompletion] and [GroqCallResponse]. *)
Module Classes.
Record t (Message Choice Completion Response : Type) := mk {
  model_validate : param -> exn + Message;
  new_choice : Choice.kwargs Message -> exn + Choice;
  new_completion : ChatCompletion.kwargs Choice -> exn + Completion;
  new_response : GroqCallResponse.kwargs Completion -> exn + Response
}.
Arguments mk {Message Choice Completion Response}.
Arguments model_validate {Message Choice Completion Response}.
Arguments new_choice {Message Choice Completion Response}.
Arguments new_completion {Message Choice Completion Response}.
Arguments new_response {Message Choice Completion Response}.
End Classes.

Module GroqStream.

(** The attributes that the methods of [groq/stream.py] read from [self].
    The class that declares and assigns them, [BaseStream] of
    [base/_stream.py], is not among the sources: a [GroqStream] is taken in
    any state of these attributes, and [message_param] may be unassigned,
    [None] or a message.  [cost] is not among them: it is a property without
    a setter. *)
Record t := mk {
  message_param : attribute param;
  user_message_param : option param;
  id : option string;
  model : string;
  finish_reasons : option (list string);
  input_tokens : option Z;
  output_tokens : option Z;
  metadata : value;
  tool_types : value;
  prompt_template : value;
  fn_args : option param;
  dynamic_config : value;
  messages : list param;
  call_params : value;
  call_kwargs : value;
  start_time : float;
  end_time : float
}.

Definition _provider : string := "groq".

(** The property [cost].  [calculate_cost] of [groq/_utils.py] is not among
    the sources: the property is stated for any such function. *)
Definition cost (calculate_cost : option Z -> option Z -> string -> option float)
    (self : t) : option float :=
  calculate_cost (input_tokens self) (output_tokens self) (model self).

Definition _construct_message_param (tool_calls : option (list ToolCall.t))
    (content : option string) : param :=
  let message_param : param :=
    <["content" := from_option VStr VNone content]>
      {[ "role" := VStr "assistant" ]} in
  match tool_calls with
  | Some ((_ :: _) as calls) =>
      <["tool_calls" := VToolCalls calls]> message_param
  | _ => message_param
  end.

(** Lines 58 to 66 of [construct_call_response]: the guard and the dict
    [message]. *)
Definition message (self : t) : exn + param :=
  match message_param self with
  | Unassigned => inl (AttributeError "message_param")
  | IsNone =>
      inl (ValueError
             "No stream response, check if the stream has been consumed.")
  | Holds message_param =>
      match message_param !! "role" with
      | None => inl (KeyError "role")
      | Some role =>
          inr (<["tool_calls" :=
                   default (VToolCalls []) (message_param !! "tool_calls")]>
                 (<["content" :=
                      default (VStr "") (message_param !! "content")]>
                    ({[ "role" := role ]} : param)))
      end
  end.

(** [self.finish_reasons[0] if self.finish_reasons and self.finish_reasons[0]
    else "stop"] *)
Definition first_finish_reason (finish_reasons : option (list string)) : string :=
  match finish_reasons with
  | Some (reason :: _) => if truthy reason then reason else "stop"
  | _ => "stop"
  end.

Section Build.
Context {Message Choice Completion Response : Type}.
Variable classes : Classes.t Message Choice Completion Response.

(** The keyword arguments of [Choice], lines 72 to 76. *)
Definition choice_kwargs (self : t) (validated : Message)
  : Choice.kwargs Message :=
  Choice.mk (first_finish_reason (finish_reasons self)) 0 validated.

(** The keyword arguments of [ChatCompletion], lines 68 to 80. *)
Definition completion_kwargs (self : t) (choice : Choice)
  : ChatCompletion.kwargs Choice :=
  ChatCompletion.mk
    (match id self with
     | Some i => if truthy i then i else ""
     | None => ""
     end)
    (model self) [choice] 0 "chat.completion".

(** The keyword arguments of [GroqCallResponse], lines 83 to 94. *)
Definition response_kwargs (self : t) (completion : Completion)
  : GroqCallResponse.kwargs Completion :=
  GroqCallResponse.mk
    (metadata self)
    completion
    (tool_types self)
    (prompt_template self)
    (match fn_args self with
     | Some args => if bool_decide (args = ∅) then ∅ else args
     | None => ∅
     end)
    (dynamic_config self)
    (messages self)
    (call_params self)
    (call_kwargs self)
    (user_message_param self)
    (start_time self)
    (end_time self).

(** [construct_call_response]: the message is validated first, then the
    choice, the completion and the response are made, and the first
    constructor that raises ends the call. *)
Definition construct_call_response (self : t) : exn + Response :=
  match message self with
  | inl e => inl e
  | inr message =>
      match Classes.model_validate classes message with
      | inl e => inl e
      | inr validated =>
          match Classes.new_choice classes (choice_kwargs self validated) with
          | inl e => inl e
          | inr choice =>
              match Classes.new_completion classes
                      (completion_kwargs self choice) with
              | inl e => inl e
              | inr completion =>
                  Classes.new_response classes
                    (response_kwargs self completion)
              end
          end
      end
  end.

End Build.

End GroqStream.

(** ** Streams of the scenarios *)

(** A chunk that only carries a content delta. *)
Definition text_chunk (content : string) : Chunk.t :=
  Chunk.mk None content None [] None None.

(** A chunk that only carries tool-call deltas. *)
Definition tool_chunk (deltas : list ToolCallDelta.t) : Chunk.t :=
  Chunk.mk None "" None deltas None None.

(** A chunk that only carries a usage. *)
Definition usage_chunk (input output : Z) : Chunk.t :=
  Chunk.mk None "" None [] None (Some (Usage.mk input output)).

(** A chunk with a content delta and the user message of the call. *)
Definition user_chunk (user content : string) : Chunk.t :=
  Chunk.mk (Some (<["content" := VStr user]> {[ "role" := VStr "user" ]}))
    content None [] None None.

(** A chunk with a content delta and a cost. *)
Definition cost_chunk (content : string) (cost : option float) : Chunk.t :=
  Chunk.mk None content cost [] None None.

(** The keys of [ChatCompletionAssistantMessageParam]. *)
Definition groq_message_param_type : MessageParamType.t :=
  MessageParamType.mk {[ "role"; "content"; "name"; "tool_calls" ]}.

(** A message class whose text is under the key [message]. *)
Definition message_keyed_param_type : MessageParamType.t :=
  MessageParamType.mk {[ "role"; "message" ]}.

(** A new stream over [g], with no output parser. *)
Definition new_stream (g : generator Chunk.t) : BaseStream.t unit :=
  BaseStream.__init__ g groq_message_param_type None.

(** An output parser that gives the length of the content of a chunk and
    refuses a chunk without content. *)
Definition length_parser (chunk : Chunk.t) : exn + nat :=
  match Chunk.content chunk with
  | "" => inl (ValueError "empty chunk")
  | content => inr (String.length content)
  end.

(** A new stream over [g] with the output parser [length_parser]. *)
Definition parsed_stream (g : generator Chunk.t) : BaseStream.t nat :=
  BaseStream.__init__ g groq_message_param_type (Some length_parser).

Definition double_quote : string := String (Ascii.ascii_of_nat 34) "".

Definition hello_chunks : list Chunk.t :=
  [ text_chunk "Hel"; text_chunk "lo";
    Chunk.mk None "" None [] (Some "stop") (Some (Usage.mk 3 2)) ].

(** The argument fragments [{"city":] and ["NYC"}]. *)
Definition city_fragment : string :=
  "{" +:+ double_quote +:+ "city" +:+ double_quote +:+ ":".

Definition nyc_fragment : string :=
  double_quote +:+ "NYC" +:+ double_quote +:+ "}".

Definition weather_chunks : list Chunk.t :=
  [ tool_chunk [ToolCallDelta.mk 0 None (Some "get_") None];
    tool_chunk [ToolCallDelta.mk 0 None (Some "weather") (Some city_fragment)];
    tool_chunk [ToolCallDelta.mk 0 None None (Some nyc_fragment)] ].

(** Three chunks with the fragments of another tool call. *)
Definition alarm_chunks : list Chunk.t :=
  [ tool_chunk [ToolCallDelta.mk 0 None (Some "set_") None];
    tool_chunk [ToolCallDelta.mk 0 None (Some "alarm") (Some "{")];
    tool_chunk [ToolCallDelta.mk 0 None None (Some "}")] ].

(** Tool-call deltas whose slots are first seen in the order 2, 0. *)
Definition out_of_order_chunks : list Chunk.t :=
  [ tool_chunk [ToolCallDelta.mk 2 (Some "call_b") (Some "second") (Some "{}")];
    tool_chunk [ToolCallDelta.mk 0 (Some "call_a") (Some "first") (Some "{}")] ].

Definition usage_chunks : list Chunk.t :=
  [ usage_chunk 10 5; usage_chunk 10 8 ].

Definition two_user_chunks : list Chunk.t :=
  [ user_chunk "first question" "a"; user_chunk "second question" "b" ].

Definition cost_chunks : list Chunk.t :=
  [ cost_chunk "a" (Some 0.25%float); cost_chunk "b" None;
    cost_chunk "c" (Some 0.5%float); cost_chunk "d" None ].

(** A Groq stream with the given [message_param], finish reasons and token
    counts. *)
Definition groq_stream (message_param : attribute param)
    (finish_reasons : option (list string))
    (input_tokens output_tokens : option Z) : GroqStream.t :=
  GroqStream.mk message_param None None "llama3-8b-8192" finish_reasons
    input_tokens output_tokens VNone VNone VNone None VNone [] VNone VNone
    0%float 0%float.

(** The assistant message with the content [content]. *)
Definition assistant_message (content : string) : param :=
  <["content" := VStr content]> {[ "role" := VStr "assistant" ]}.

(** A price function for the examples: a flat price once both token counts
    are known. *)
Definition sample_calculate_cost (input_tokens output_tokens : option Z)
    (model : string) : option float :=
  match input_tokens, output_tokens with
  | Some _, Some _ => Some 0.125%float
  | _, _ => None
  end.

(** Two finished tool calls, and a Groq stream whose message is made of them
    by [_construct_message_param], in this order. *)
Definition second_call : ToolCall.t := ToolCall.mk "call_b" "second" "{}".
Definition first_call : ToolCall.t := ToolCall.mk "call_a" "first" "{}".

Definition groq_stream_with_tool_calls : GroqStream.t :=
  groq_stream
    (Holds (GroqStream._construct_message_param
              (Some [second_call; first_call]) None))
    None None None.

(** Classes for the examples.  An instance is the keyword arguments it was
    made with; a message is validated as the client library declares its
    field [role], the literal [assistant], and a choice as it declares
    [finish_reason], one of four literals. *)
Module ChatCompletionMessage.
Record t := mk { role : value; content : value; tool_calls : value }.
End ChatCompletionMessage.

Definition sample_model_validate (message : param)
  : exn + ChatCompletionMessage.t :=
  match message !! "role" with
  | Some (VStr "assistant") =>
      inr (ChatCompletionMessage.mk (VStr "assistant")
             (default VNone (message !! "content"))
             (default VNone (message !! "tool_calls")))
  | _ => inl (ValidationError "1 validation error for ChatCompletionMessage")
  end.

Definition sample_new_choice (kwargs : Choice.kwargs ChatCompletionMessage.t)
  : exn + Choice.kwargs ChatCompletionMessage.t :=
  if bool_decide (Choice.finish_reason kwargs
                  ∈ ["stop"; "length"; "tool_calls"; "function_call"])
  then inr kwargs
  else inl (ValidationError "1 validation error for Choice").

Abbreviation sample_completion :=
  (ChatCompletion.kwargs (Choice.kwargs ChatCompletionMessage.t)).
Abbreviation sample_groq_response := (GroqCallResponse.kwargs sample_completion).

Definition sample_classes
  : Classes.t ChatCompletionMessage.t (Choice.kwargs ChatCompletionMessage.t)
      sample_completion sample_groq_response :=
  Classes.mk sample_model_validate sample_new_choice inr inr.

(** The assistant message and the finish reason of a response of the
    classes above. *)
Definition message_of (r : sample_groq_response)
  : option ChatCompletionMessage.t :=
  Choice.message <$> head (ChatCompletion.choices (GroqCallResponse.response r)).

Definition finish_reason_of (r : sample_groq_response) : option string :=
  Choice.finish_reason <$>
    head (ChatCompletion.choices (GroqCallResponse.response r)).

(** ** Exceptions that are caught by class *)

(** An exception as the handlers below see it: what [type(e)] prints, the
    names of its class and of the bases of that class (for [except] and
    [isinstance]), and [str(e)]. *)
Module Exc.
Record t := mk {
  type_repr : string;
  classes : list string;
  message : string
}.
Definition isinstance (e : t) (cls : string) : bool :=
  bool_decide (cls ∈ classes e).
End Exc.

(** The [TypeError] of a call that gets the keyword [keyword] twice.
    [callee] is the called function as the interpreter prints it in the
    message, its qualified name followed by [()]. *)
Definition multiple_values (callee keyword : string) : Exc.t :=
  Exc.mk "<class 'TypeError'>" ["TypeError"; "Exception"; "BaseException"]
    (callee +:+ " got multiple values for keyword argument '" +:+ keyword
     +:+ "'").

(** The [RecursionError] of a call that exceeds the recursion limit of the
    interpreter. *)
Definition recursion_error : Exc.t :=
  Exc.mk "<class 'RecursionError'>"
    ["RecursionError"; "RuntimeError"; "Exception"; "BaseException"]
    "maximum recursion depth exceeded".

(** The [AttributeError] of [None.attr]. *)
Definition none_has_no_attribute (attr : string) : Exc.t :=
  Exc.mk "<class 'AttributeError'>"
    ["AttributeError"; "Exception"; "BaseException"]
    ("'NoneType' object has no attribute '" +:+ attr +:+ "'").

(** The values of keyword arguments. *)
#[warnings="-register-all"]
Inductive kwarg :=
  | KStr (s : string)
  | KDict (items : list (string * kwarg))
  | KObj (repr : string).

(** The first of [keywords] that is a key of [kwargs]: a call that passes
    these keywords and [**kwargs] raises [TypeError] for it. *)
Definition duplicate_keyword (keywords : list string) (kwargs : gmap string kwarg)
  : option string :=
  head (filter (fun keyword => is_Some (kwargs !! keyword)) keywords).

(** ** [OpenAIChat] *)

(** A class made from [OpenAITool], by its name. *)
Module OpenAITool.
Record t := mk { __name__ : string }.
End OpenAITool.

(** An element of a [tools] list: a function or a class of tools. *)
Inductive tool_spec :=
  | Function (name : string)
  | ToolClass (cls : OpenAITool.t).

(** [Prompt] and its call parameters are not among the sources: they have
    the two attributes that [create] and [stream] read. *)
Module CallParams.
Record t := mk { model : string; tools : option (list tool_spec) }.
End CallParams.

Module Prompt.
Record t := mk { _call_params : CallParams.t }.
End Prompt.

(** The argument [prompt]: [None], a string, or a [Prompt]. *)
Inductive prompt_arg :=
  | NoPrompt
  | Text (s : string)
  | IsPrompt (p : Prompt.t).

(** A call of [warnings.warn]. *)
Module Warning.
Record t := mk { message : string; category : string }.
End Warning.

(** A call of [client.chat.completions.create]. *)
Module Request.
Record t := mk {
  model : string;
  stream : bool;
  kwargs : gmap string kwarg
}.
End Request.

(** What the calls leave outside the object: the requests sent to the API,
    the warnings, the messages logged with [logging.info], and how many times
    the clock has been read. *)
Module World.
Record t := mk {
  requests : list Request.t;
  warnings : list Warning.t;
  infos : list string;
  clock_reads : nat
}.
Definition empty : t := mk [] [] [] 0.
Definition warn (w : t) (warning : Warning.t) : t :=
  mk (requests w) (warnings w ++ [warning]) (infos w) (clock_reads w).
Definition send (w : t) (request : Request.t) : t :=
  mk (requests w ++ [request]) (warnings w) (infos w) (clock_reads w).
Definition info (w : t) (text : string) : t :=
  mk (requests w) (warnings w) (infos w ++ [text]) (clock_reads w).
Definition tick (w : t) : t :=
  mk (requests w) (warnings w) (infos w) (S (clock_reads w)).
End World.

(** [OpenAIChatCompletion] and [OpenAIChatCompletionChunk] ([types.py]) are
    not among the sources: they hold what [create] and [stream] give them. *)
Module OpenAIChatCompletion.
Record t (Raw : Type) := mk {
  completion : Raw;
  tool_types : option (list OpenAITool.t);
  _start_time : float;
  _end_time : float
}.
Arguments mk {Raw}.
Arguments completion {Raw}.
Arguments tool_types {Raw}.
Arguments _start_time {Raw}.
Arguments _end_time {Raw}.
End OpenAIChatCompletion.

Module OpenAIChatCompletionChunk.
Record t (Raw : Type) := mk {
  chunk : Raw;
  tool_types : option (list OpenAITool.t)
}.
Arguments mk {Raw}.
Arguments chunk {Raw}.
Arguments tool_types {Raw}.
End OpenAIChatCompletionChunk.

(** A streamed answer of the API: the chunks it delivers and the error, if
    any, that ends it. *)
Module RawStream.
Record t (Raw : Type) := mk { chunks : list Raw; failure : option Exc.t }.
Arguments mk {Raw}.
Arguments chunks {Raw}.
Arguments failure {Raw}.
End RawStream.

Module OpenAIChat.

Record t := mk { model : string }.

(** [__init__], whose [model] defaults to [default_model]. *)
Definition default_model : string := "gpt-3.5-turbo".
Definition __init__ (model : string) : t := mk model.

Definition tools_deprecated : Warning.t :=
  Warning.mk
    ("The `tools` parameter is deprecated; version>=0.3.0. "
     +:+ "Use `CallParams` inside of your `Prompt` instead.")
    "DeprecationWarning".

Definition model_ignored : Warning.t :=
  Warning.mk
    ("The `model` parameter will be ignored when `prompt` is of type "
     +:+ "`Prompt` in favor of `CallParams.model` field inside of `prompt`; "
     +:+ "version>=0.3.0. Use `CallParams` inside of your `Prompt` instead.")
    "DeprecationWarning".

(** Truthiness of an optional list. *)
Definition nonempty {A} (l : option (list A)) : bool :=
  match l with
  | Some (_ :: _) => true
  | _ => false
  end.

(** A frame of the generator [stream]: not started (it holds its arguments),
    in the loop over the answer of the API, or finished. *)
Inductive frame (Raw : Type) :=
  | Created (prompt : prompt_arg) (tools : option (list tool_spec))
      (kwargs : gmap string kwarg)
  | Iterating (completion_stream : RawStream.t Raw)
      (openai_tools : option (list OpenAITool.t))
      (tools : option (list tool_spec))
  | Closed.
Arguments Created {Raw}.
Arguments Iterating {Raw}.
Arguments Closed {Raw}.

Inductive signal (Raw : Type) :=
  | Yield (item : OpenAIChatCompletionChunk.t Raw)
  | StopIteration
  | Raise (e : Exc.t).
Arguments Yield {Raw}.
Arguments StopIteration {Raw}.
Arguments Raise {Raw}.

Section Methods.
Context {Raw Schema ToolInstance Model : Type}.

(** The collaborators that are not among the sources: the three functions of
    [utils.py], the API behind [self.client] (its answer may depend on how
    many requests came before), the clock, and for [extract] the property
    [tool] of a completion, [model_dump] and the constructor of a schema. *)
Variable convert_tools_list_to_openai_tools :
  option (list tool_spec) -> option (list OpenAITool.t).
Variable patch_openai_kwargs :
  gmap string kwarg -> prompt_arg -> option (list OpenAITool.t) ->
  Exc.t + gmap string kwarg.
Variable convert_base_model_to_openai_tool : Schema -> OpenAITool.t.
Variable api : nat -> Request.t -> Exc.t + Raw.
Variable api_stream : nat -> Request.t -> Exc.t + RawStream.t Raw.
Variable now : nat -> float.
Variable tool : OpenAIChatCompletion.t Raw -> Exc.t + option ToolInstance.
Variable model_dump : ToolInstance -> gmap string kwarg.
Variable instantiate : Schema -> gmap string kwarg -> Exc.t + Model.

(** How the interpreter prints two callees in its messages:
    [self.client.chat.completions.create] and [self.create]. *)
Variable client_create : string.
Variable self_create : string.

(** [datetime.datetime.now().timestamp() * 1000] *)
Definition timestamp_ms (w : World.t) : float * World.t :=
  ((now (World.clock_reads w) * 1000)%float, World.tick w).

(** Lines 100 to 118 of [create], the same as lines 160 to 178 of [stream]:
    the warnings, and the model and the tools of a [Prompt]. *)
Definition resolve (self : t) (w : World.t) (prompt : prompt_arg)
    (tools : option (list tool_spec))
  : t * World.t * option (list tool_spec) :=
  let w :=
    match tools with
    | Some _ => World.warn w tools_deprecated
    | None => w
    end in
  match prompt with
  | IsPrompt p =>
      let w :=
        if bool_decide (model self <> "gpt-3.5-turbo")
        then World.warn w model_ignored
        else w in
      let self := mk (CallParams.model (Prompt._call_params p)) in
      let tools :=
        match CallParams.tools (Prompt._call_params p) with
        | Some prompt_tools => Some prompt_tools
        | None => tools
        end in
      (self, w, tools)
  | _ => (self, w, tools)
  end.

Definition create (self : t) (w : World.t) (prompt : prompt_arg)
    (tools : option (list tool_spec)) (kwargs : gmap string kwarg)
  : t * World.t * (Exc.t + OpenAIChatCompletion.t Raw) :=
  let '(self, w, tools) := resolve self w prompt tools in
  let '(start_time, w) := timestamp_ms w in
  let openai_tools := convert_tools_list_to_openai_tools tools in
  match patch_openai_kwargs kwargs prompt openai_tools with
  | inl e => (self, w, inl e)
  | inr kwargs =>
      match duplicate_keyword ["model"; "stream"] kwargs with
      | Some keyword => (self, w, inl (multiple_values client_create keyword))
      | None =>
          let request := Request.mk (model self) false kwargs in
          let answer := api (length (World.requests w)) request in
          let w := World.send w request in
          match answer with
          | inl e => (self, w, inl e)
          | inr raw =>
              let tool_types :=
                if nonempty tools then openai_tools else None in
              let '(end_time, w) := timestamp_ms w in
              (self, w,
               inr (OpenAIChatCompletion.mk raw tool_types start_time
                      end_time))
          end
      end
  end.

(** Calling [stream] makes a generator and runs nothing of its body. *)
Definition stream (prompt : prompt_arg) (tools : option (list tool_spec))
    (kwargs : gmap string kwarg) : frame Raw :=
  Created prompt tools kwargs.

(** The head of the loop of [stream], lines 189 to 193. *)
Definition stream_loop (completion_stream : RawStream.t Raw)
    (openai_tools : option (list OpenAITool.t))
    (tools : option (list tool_spec)) : frame Raw * signal Raw :=
  match RawStream.chunks completion_stream with
  | chunk :: rest =>
      (Iterating (RawStream.mk rest (RawStream.failure completion_stream))
         openai_tools tools,
       Yield (OpenAIChatCompletionChunk.mk chunk
                (if nonempty tools then openai_tools else None)))
  | [] =>
      match RawStream.failure completion_stream with
      | Some e => (Closed, Raise e)
      | None => (Closed, StopIteration)
      end
  end.

(** One [next] on the generator made by [stream]. *)
Definition stream_next (self : t) (w : World.t) (fr : frame Raw)
  : t * World.t * frame Raw * signal Raw :=
  match fr with
  | Created prompt tools kwargs =>
      let '(self, w, tools) := resolve self w prompt tools in
      let openai_tools := convert_tools_list_to_openai_tools tools in
      match patch_openai_kwargs kwargs prompt openai_tools with
      | inl e => (self, w, Closed, Raise e)
      | inr kwargs =>
          match duplicate_keyword ["model"; "stream"] kwargs with
          | Some keyword =>
              (self, w, Closed, Raise (multiple_values client_create keyword))
          | None =>
              let request := Request.mk (model self) true kwargs in
              let answer := api_stream (length (World.requests w)) request in
              let w := World.send w request in
              match answer with
              | inl e => (self, w, Closed, Raise e)
              | inr completion_stream =>
                  let '(fr, out) :=
                    stream_loop completion_stream openai_tools tools in
                  (self, w, fr, out)
              end
          end
      end
  | Iterating completion_stream openai_tools tools =>
      let '(fr, out) := stream_loop completion_stream openai_tools tools in
      (self, w, fr, out)
  | Closed => (self, w, Closed, StopIteration)
  end.

(** [k] calls of [next] on the generator of [stream], stopping at the first
    that does not yield. *)
Fixpoint stream_pull (k : nat) (self : t) (w : World.t) (fr : frame Raw)
  : t * World.t * frame Raw * list (OpenAIChatCompletionChunk.t Raw)
    * option (signal Raw) :=
  match k with
  | 0 => (self, w, fr, [], None)
  | S k =>
      match stream_next self w fr with
      | (self, w, fr, Yield item) =>
          let '(self, w, fr, items, last) := stream_pull k self w fr in
          (self, w, fr, item :: items, last)
      | (self, w, fr, out) => (self, w, fr, [], Some out)
      end
  end.

(** The call of [schema] with the keyword arguments
    [completion.tool.model_dump()]. *)
Definition extracted (schema : Schema)
    (completion : OpenAIChatCompletion.t Raw) : Exc.t + Model :=
  match tool completion with
  | inl e => inl e
  | inr None => inl (none_has_no_attribute "model_dump")
  | inr (Some instance) => instantiate schema (model_dump instance)
  end.

(** [{"type": "function", "function": {"name": tool.__name__}}] *)
Definition tool_choice (cls : OpenAITool.t) : kwarg :=
  KDict [ ("type", KStr "function");
          ("function", KDict [ ("name", KStr (OpenAITool.__name__ cls)) ]) ].

(** [extract].  The retry is a call of [extract] made inside the handler, so
    that every retry runs one call deeper than the attempt before it.
    [depth] is the number of nested calls of [extract] that the recursion
    limit of the interpreter allows below this one: the retry that would
    exceed it raises [RecursionError], which no handler of [extract]
    catches.  Where in the deepest call the limit is reached depends on the
    depth of its callees; it is taken to be reached at the call of
    [extract] itself. *)
Fixpoint extract (depth : nat) (self : t) (w : World.t) (schema : Schema)
    (prompt : prompt_arg) (retries : Z) (kwargs : gmap string kwarg)
  : t * World.t * (Exc.t + Model) :=
  let cls := convert_base_model_to_openai_tool schema in
  match duplicate_keyword ["tools"; "tool_choice"] kwargs with
  | Some keyword => (self, w, inl (multiple_values self_create keyword))
  | None =>
      match create self w prompt (Some [ToolClass cls])
              (<["tool_choice" := tool_choice cls]> kwargs) with
      | (self, w, inl e) => (self, w, inl e)
      | (self, w, inr completion) =>
          match extracted schema completion with
          | inr result => (self, w, inr result)
          | inl e =>
              if Exc.isinstance e "AttributeError"
                 || Exc.isinstance e "ValidationError"
              then
                if (0 <? retries)%Z
                then
                  let w :=
                    World.info w
                      ("Retrying due to exception: " +:+ Exc.message e) in
                  match depth with
                  | S depth =>
                      extract depth self w schema prompt (retries - 1) ∅
                  | 0 => (self, w, inl recursion_error)
                  end
                else (self, w, inl e)
              else (self, w, inl e)
          end
      end
  end.

End Methods.

End OpenAIChat.

(** ** [Requests] ([tools/requests.py]) *)

Module RequestsConfig.
Record t := mk { timeout : Z }.
(** [RequestsConfig()]: the default of the field. *)
Definition default : t := mk 5.
Definition from_env : t := default.
End RequestsConfig.

(** The keyword arguments of a call of [requests.request]. *)
Module HttpCall.
Record t := mk {
  method : string;
  url : string;
  json : option (gmap string kwarg);
  headers : option (gmap string kwarg);
  timeout : Z
}.
End HttpCall.

(** A response of the library [requests], as far as [call] uses it: what
    [raise_for_status] raises, if anything, and the text of the body. *)
Module HttpResponse.
Record t := mk { raise_for_status : option Exc.t; text : string }.
End HttpResponse.

Module Requests.

(** The values of the field [method]. *)
Inductive http_method := GET | POST | PUT | DELETE.

Definition method_name (m : http_method) : string :=
  match m with
  | GET => "GET"
  | POST => "POST"
  | PUT => "PUT"
  | DELETE => "DELETE"
  end.

Record t := mk {
  url : string;
  method : http_method;
  data : option (gmap string kwarg);
  headers : option (gmap string kwarg)
}.

(** The class attribute [__config__]. *)
Definition __config__ : RequestsConfig.t := RequestsConfig.default.

Section Call.

(** [requests.request] is the network, and [_config] belongs to
    [ConfigurableTool], which is not among the sources: [call] is given what
    they return. *)
Variable request : HttpCall.t -> Exc.t + HttpResponse.t.
Variable _config : RequestsConfig.t.

(** The handler [except Exception as e]: an exception that is not an
    instance of [Exception] goes through. *)
Definition handle (self : t) (e : Exc.t) : Exc.t + string :=
  if Exc.isinstance e "Exception"
  then inr (Exc.type_repr e +:+ ": Failed to extract content from URL "
            +:+ url self)
  else inl e.

Definition call (self : t) : Exc.t + string :=
  match request (HttpCall.mk (method_name (method self)) (url self)
                   (data self) (headers self)
                   (RequestsConfig.timeout _config)) with
  | inl e => handle self e
  | inr response =>
      match HttpResponse.raise_for_status response with
      | Some e => handle self e
      | None => inr (HttpResponse.text response)
      end
  end.

End Call.

End Requests.

(** ** [WandbPrompt._trace_error] ([wandb/prompt.py]) *)

(** The [KeyError] of a subscript with a missing key. *)
Definition key_error (key : string) : Exc.t :=
  Exc.mk "<class 'KeyError'>"
    ["KeyError"; "LookupError"; "Exception"; "BaseException"]
    ("'" +:+ key +:+ "'").

(** The [IndexError] of a subscript of an empty list. *)
Definition index_error : Exc.t :=
  Exc.mk "<class 'IndexError'>"
    ["IndexError"; "LookupError"; "Exception"; "BaseException"]
    "list index out of range".

(** A [Trace] of the library [wandb]: the keyword arguments it is made with
    and the children that [add_child] appends. *)
Module Trace.
#[warnings="-register-all"]
Inductive t := mk {
  name : string;
  kind : string;
  status_code : string;
  status_message : option string;
  metadata : list (string * gmap string kwarg);
  start_time_ms : Z;
  end_time_ms : Z;
  inputs : gmap string string;
  outputs : option (gmap string string);
  children : list t
}.
Definition add_child (parent child : t) : t :=
  mk (name parent) (kind parent) (status_code parent)
     (status_message parent) (metadata parent) (start_time_ms parent)
     (end_time_ms parent) (inputs parent) (outputs parent)
     (children parent ++ [child]).
End Trace.

Module WandbPrompt.

(** The attributes that [_trace_error] reads.  [messages] is a property of
    [OpenAIPrompt], which is not among the sources: it is given as the list
    of dicts it returns. *)
Record t := mk {
  __name__ : string;
  span_type : string;
  _creation_time_ms : Z;
  call_params : gmap string kwarg;
  messages : list (gmap string string)
}.

(** [{message["role"]: message["content"] for message in messages}] *)
Fixpoint inputs_from (messages : list (gmap string string))
    (inputs : gmap string string) : Exc.t + gmap string string :=
  match messages with
  | [] => inr inputs
  | message :: messages =>
      match message !! "role" with
      | None => inl (key_error "role")
      | Some role =>
          match message !! "content" with
          | None => inl (key_error "content")
          | Some content => inputs_from messages (<[role := content]> inputs)
          end
      end
  end.

(** [_trace_error]; [now_ms] is the clock, read and rounded.  It gives the
    span and the parent with the span added. *)
Definition _trace_error (self : t) (error : Exc.t) (parent : Trace.t)
    (now_ms : Z) : Exc.t + Trace.t * Trace.t :=
  match inputs_from (messages self) ∅ with
  | inl e => inl e
  | inr inputs =>
      let span :=
        Trace.mk (__name__ self) (span_type self) "error"
          (Some (Exc.message error))
          [("call_params", call_params self)]
          (_creation_time_ms self) now_ms inputs None [] in
      inr (span, Trace.add_child parent span)
  end.

End WandbPrompt.

(** ** [call_async_decorator] ([core/openai/_call_async.py]) *)

Module OpenAICallResponse.
Record t (Raw FnReturn : Type) := mk {
  response : Raw;
  tool_types : option (list OpenAITool.t);
  prompt_template : string;
  fn_args : gmap string kwarg;
  fn_return : FnReturn;
  messages : list (gmap string kwarg);
  call_params : gmap string kwarg;
  user_message_param : option (gmap string kwarg);
  start_time : float;
  end_time : float;
  cost : option float
}.
Arguments mk {Raw FnReturn}.
Arguments response {Raw FnReturn}.
Arguments tool_types {Raw FnReturn}.
Arguments prompt_template {Raw FnReturn}.
Arguments fn_args {Raw FnReturn}.
Arguments fn_return {Raw FnReturn}.
Arguments messages {Raw FnReturn}.
Arguments call_params {Raw FnReturn}.
Arguments user_message_param {Raw FnReturn}.
Arguments start_time {Raw FnReturn}.
Arguments end_time {Raw FnReturn}.
Arguments cost {Raw FnReturn}.
End OpenAICallResponse.

Module CallAsync.

(** What [setup_call] returns. *)
Record setup := mk_setup {
  prompt_template : string;
  messages : list (gmap string kwarg);
  tool_types : option (list OpenAITool.t);
  call_kwargs : gmap string kwarg
}.

(** [role == "user"] *)
Definition is_user (role : kwarg) : bool :=
  match role with
  | KStr s => bool_decide (s = "user")
  | _ => false
  end.

(** [messages[-1] if messages[-1]["role"] == "user" else None] *)
Definition last_user_message (messages : list (gmap string kwarg))
  : Exc.t + option (gmap string kwarg) :=
  match last messages with
  | None => inl index_error
  | Some message =>
      match message !! "role" with
      | None => inl (key_error "role")
      | Some role =>
          inr (if is_user role then Some message else None)
      end
  end.

Section Decorator.
Context {Args Raw FnReturn : Type}.

(** The decorated function and the collaborators that are not among the
    sources: the binding of the arguments, [setup_call], the API (with the
    model and the keyword arguments of the request) and
    [openai_api_calculate_cost]. *)
Variable fn : Args -> Exc.t + FnReturn.
Variable bind : Args -> Exc.t + gmap string kwarg.
Variable setup_call :
  gmap string kwarg -> FnReturn -> Exc.t + setup.
Variable api : nat -> Request.t -> list (gmap string kwarg) -> Exc.t + Raw.
Variable now : nat -> float.
Variable openai_api_calculate_cost : Raw -> option float.

(** How the interpreter prints the callee [client.chat.completions.create]
    in its messages. *)
Variable client_create : string.

(** [inner_async], for the [model] given to the decorator. *)
Definition inner_async (model : string) (w : World.t) (args : Args)
  : World.t * (Exc.t + OpenAICallResponse.t Raw FnReturn) :=
  match bind args with
  | inl e => (w, inl e)
  | inr fn_args =>
      match fn args with
      | inl e => (w, inl e)
      | inr fn_return =>
          match setup_call fn_args fn_return with
          | inl e => (w, inl e)
          | inr (mk_setup prompt_template messages tool_types call_kwargs) =>
              let start_time := (now (World.clock_reads w) * 1000)%float in
              let w := World.tick w in
              match duplicate_keyword ["model"; "stream"; "messages"]
                      call_kwargs with
              | Some keyword =>
                  (w, inl (multiple_values client_create keyword))
              | None =>
                  let request := Request.mk model false call_kwargs in
                  let answer :=
                    api (length (World.requests w)) request messages in
                  let w := World.send w request in
                  match answer with
                  | inl e => (w, inl e)
                  | inr response =>
                      match last_user_message messages with
                      | inl e => (w, inl e)
                      | inr user_message_param =>
                          let end_time :=
                            (now (World.clock_reads w) * 1000)%float in
                          let w := World.tick w in
                          (w,
                           inr (OpenAICallResponse.mk response tool_types
                                  prompt_template fn_args fn_return messages
                                  call_kwargs user_message_param start_time
                                  end_time
                                  (openai_api_calculate_cost response)))
                      end
                  end
              end
          end
      end
  end.

End Decorator.

End CallAsync.

(** ** The self-ask example ([self_ask.py]) *)

Module FewShotExample.
Record t := mk { question : string; answer : string }.

(** [messages]: the example as a user message and an assistant message. *)
Definition messages (self : t) : gmap string string * gmap string string :=
  (<["content" := question self]> {[ "role" := "user" ]},
   <["content" := answer self]> {[ "role" := "assistant" ]}).
End FewShotExample.

(** The computed field [example_prompts] of [self_ask_query]:
    [[message for example in examples for message in example.messages()]] *)
Definition example_prompts (examples : list FewShotExample.t)
  : list (gmap string string) :=
  examples ≫= (fun example =>
                 let '(user, assistant) := FewShotExample.messages example in
                 [user; assistant]).

(** ** Collaborators for the examples *)

(** A conversion of tools that keeps the names. *)
Definition sample_convert (tools : option (list tool_spec))
  : option (list OpenAITool.t) :=
  option_map
    (map (fun spec =>
            match spec with
            | Function name => OpenAITool.mk name
            | ToolClass cls => cls
            end)) tools.

(** A [patch_openai_kwargs] that adds the messages of the prompt, and raises
    [ValueError] when there is neither a prompt nor messages. *)
Definition sample_patch (kwargs : gmap string kwarg) (prompt : prompt_arg)
    (openai_tools : option (list OpenAITool.t)) : Exc.t + gmap string kwarg :=
  match prompt with
  | NoPrompt =>
      match kwargs !! "messages" with
      | Some _ => inr kwargs
      | None =>
          inl (Exc.mk "<class 'ValueError'>"
                 ["ValueError"; "Exception"; "BaseException"]
                 "Either `prompt` or `messages` must be provided.")
      end
  | Text text => inr (<["messages" := KStr text]> kwargs)
  | IsPrompt _ => inr (<["messages" := KObj "messages of the prompt"]> kwargs)
  end.

(** An API that answers every request with its number. *)
Definition sample_api (n : nat) (request : Request.t) : Exc.t + nat := inr n.

(** An API whose streamed answer has three chunks and then fails. *)
Definition sample_api_stream (n : nat) (request : Request.t)
  : Exc.t + RawStream.t nat :=
  inr (RawStream.mk [10; 11; 12]%nat
         (Some (Exc.mk "<class 'openai.APIConnectionError'>"
                  ["APIConnectionError"; "OpenAIError"; "Exception";
                   "BaseException"]
                  "Connection error."))).

Definition sample_now (n : nat) : float := 1.5%float.

(** Completions in which the model called no tool. *)
Definition sample_tool (completion : OpenAIChatCompletion.t nat)
  : Exc.t + option string := inr None.

Definition sample_model_dump (instance : string) : gmap string kwarg :=
  {[ "title" := KStr instance ]}.

Definition sample_instantiate (schema : unit) (dump : gmap string kwarg)
  : Exc.t + string :=
  match dump !! "title" with
  | Some (KStr title) => inr title
  | _ =>
      inl (Exc.mk "<class 'pydantic_core._pydantic_core.ValidationError'>"
             ["ValidationError"; "ValueError"; "Exception"; "BaseException"]
             "1 validation error for Book")
  end.

Definition sample_schema_tool (schema : unit) : OpenAITool.t :=
  OpenAITool.mk "Book".

(** A prompt whose call parameters name another model and a tool. *)
Definition gpt4_prompt : Prompt.t :=
  Prompt.mk (CallParams.mk "gpt-4" (Some [Function "format_book"])).

(** A network that is down. *)
Definition sample_request_down (call : HttpCall.t)
  : Exc.t + HttpResponse.t :=
  inl (Exc.mk "<class 'requests.exceptions.ConnectionError'>"
         ["ConnectionError"; "RequestException"; "OSError"; "Exception";
          "BaseException"]
         "Max retries exceeded").

(** A server that answers every request with the body [Test content]. *)
Definition sample_request_ok (call : HttpCall.t) : Exc.t + HttpResponse.t :=
  inr (HttpResponse.mk None "Test content").

Definition example_tool : Requests.t :=
  Requests.mk "https://example.com" Requests.GET None None.

Definition system_then_users : list (gmap string string) :=
  [ <["content" := "You are helpful."]> {[ "role" := "system" ]};
    <["content" := "First question"]> {[ "role" := "user" ]};
    <["content" := "Second question"]> {[ "role" := "user" ]} ].

(** A decorated function with one argument, and collaborators for it. *)
Definition sample_fn (genre : string) : Exc.t + string :=
  inr ("Recommend a " +:+ genre +:+ " book.").

Definition sample_bind (genre : string) : Exc.t + gmap string kwarg :=
  inr {[ "genre" := KStr genre ]}.

(** A [setup_call] that makes one user message of what the function
    returned. *)
Definition sample_setup_call (fn_args : gmap string kwarg)
    (fn_return : string) : Exc.t + CallAsync.setup :=
  inr (CallAsync.mk_setup "" [ <["content" := KStr fn_return]>
                                 {[ "role" := KStr "user" ]} ] None ∅).

(** A [setup_call] that makes no message. *)
Definition sample_setup_call_empty (fn_args : gmap string kwarg)
    (fn_return : string) : Exc.t + CallAsync.setup :=
  inr (CallAsync.mk_setup "" [] None ∅).

Definition sample_chat_api (n : nat) (request : Request.t)
    (messages : list (gmap string kwarg)) : Exc.t + nat := inr n.

Definition sample_cost (response : nat) : option float := None.

(** The callees as the interpreter prints them. *)
Definition sample_client_create : string :=
  "openai.resources.chat.completions.Completions.create()".
Definition sample_self_create : string :=
  "mirascope.chat.models.openai_chat.OpenAIChat.create()".

(** Keyword arguments of a caller of [extract]. *)
Definition temperature_kwargs : gmap string kwarg :=
  {[ "temperature" := KStr "0.2" ]}.

(** The first attempt of an extraction with the collaborators above. *)
Definition sample_attempt
  : OpenAIChat.t * World.t * (Exc.t + OpenAIChatCompletion.t nat) :=
  OpenAIChat.create sample_convert sample_patch sample_api sample_now
    sample_client_create
    (OpenAIChat.__init__ OpenAIChat.default_model) World.empty
    (Text "Recommend a fantasy book.")
    (Some [ToolClass (sample_schema_tool tt)])
    (<["tool_choice" := OpenAIChat.tool_choice (sample_schema_tool tt)]>
       (∅ : gmap string kwarg)).

(** An extraction with the keyword arguments [temperature_kwargs] and one
    retry, and the two requests that it sends. *)
Definition sample_retry : OpenAIChat.t * World.t * (Exc.t + string) :=
  OpenAIChat.extract sample_convert sample_patch sample_schema_tool
    sample_api sample_now sample_tool sample_model_dump sample_instantiate
    sample_client_create sample_self_create 3
    (OpenAIChat.__init__ OpenAIChat.default_model) World.empty tt
    (Text "Recommend a fantasy book.") 1 temperature_kwargs.

Definition first_request : Request.t :=
  Request.mk "gpt-3.5-turbo" false
    (<["messages" := KStr "Recommend a fantasy book."]>
       (<["tool_choice" := OpenAIChat.tool_choice (sample_schema_tool tt)]>
          temperature_kwargs)).

Definition second_request : Request.t :=
  Request.mk "gpt-3.5-turbo" false
    (<["messages" := KStr "Recommend a fantasy book."]>
       (<["tool_choice" := OpenAIChat.tool_choice (sample_schema_tool tt)]>
          (∅ : gmap string kwarg))).

(** A decorated call with the collaborators above, and its response. *)
Definition sample_call : World.t * (Exc.t + OpenAICallResponse.t nat string) :=
  CallAsync.inner_async sample_fn sample_bind sample_setup_call
    sample_chat_api sample_now sample_cost sample_client_create "gpt-4o-mini"
    World.empty
    "fantasy".

Definition sample_user_message : gmap string kwarg :=
  <["content" := KStr "Recommend a fantasy book."]> {[ "role" := KStr "user" ]}.

Definition sample_response : OpenAICallResponse.t nat string :=
  OpenAICallResponse.mk 0%nat None "" {[ "genre" := KStr "fantasy" ]}
    "Recommend a fantasy book." [sample_user_message] ∅
    (Some sample_user_message) (1.5 * 1000)%float (1.5 * 1000)%float None.

(** * Properties *)

(** ** Strings *)

Lemma append_String a (s1 s2 : string) :
  String a s1 +:+ s2 = String a (s1 +:+ s2).
Proof. reflexivity. Qed.

Lemma append_empty_r (s : string) : s +:+ "" = s.
Proof. induction s as [|a s IH]; [done | by rewrite append_String, IH]. Qed.

Lemma append_assoc (s1 s2 s3 : string) : (s1 +:+ s2) +:+ s3 = s1 +:+ (s2 +:+ s3).
Proof.
  induction s1 as [|a s1 IH]; [done | by rewrite !append_String, IH].
Qed.

Lemma join_cons (s : string) (l : list string) : join (s :: l) = s +:+ join l.
Proof. reflexivity. Qed.

Lemma join_app (l1 l2 : list string) : join (l1 ++ l2) = join l1 +:+ join l2.
Proof.
  induction l1 as [|s l1 IH]; [reflexivity |].
  by rewrite <- app_comm_cons, !join_cons, IH, append_assoc.
Qed.

Lemma contents_cons chunk chunks :
  contents (chunk :: chunks) = Chunk.content chunk +:+ contents chunks.
Proof. reflexivity. Qed.

Lemma contents_app l1 l2 : contents (l1 ++ l2) = contents l1 +:+ contents l2.
Proof. unfold contents. by rewrite fmap_app, join_app. Qed.

(** ** The latest cost and user message *)

Lemma latest_cost_app init l1 l2 :
  latest_cost init (l1 ++ l2) = latest_cost (latest_cost init l1) l2.
Proof. apply foldl_app. Qed.

Lemma latest_cost_silent init chunks :
  Forall (fun chunk => Chunk.cost chunk = None) chunks ->
  latest_cost init chunks = init.
Proof.
  intros H. revert init.
  induction H as [|chunk chunks Hc _ IH]; intros init; [done |].
  unfold latest_cost in *. simpl. rewrite Hc. apply IH.
Qed.

Lemma latest_user_message_cons init chunk chunks :
  latest_user_message init (chunk :: chunks)
  = latest_user_message (Chunk.user_message_param chunk) chunks.
Proof.
  unfold latest_user_message.
  destruct chunks as [|c l]; [reflexivity |].
  rewrite last_cons_cons.
  destruct (last (c :: l)) as [c'|] eqn:E; [reflexivity |].
  rewrite last_cons in E. by destruct (last l).
Qed.

Lemma latest_user_message_snoc init pre chunk :
  latest_user_message init (pre ++ [chunk]) = Chunk.user_message_param chunk.
Proof. unfold latest_user_message. by rewrite last_snoc. Qed.

(** ** Chunks that differ only in what [__iter__] does not read *)

Lemma contents_alike chunks chunks' :
  Forall2 alike chunks chunks' -> contents chunks = contents chunks'.
Proof.
  induction 1 as [|chunk chunk' chunks chunks' (_ & Hc & _) _ IH];
    [reflexivity |].
  by rewrite !contents_cons, Hc, IH.
Qed.

Lemma latest_cost_alike chunks chunks' :
  Forall2 alike chunks chunks' ->
  forall init, latest_cost init chunks = latest_cost init chunks'.
Proof.
  induction 1 as [|chunk chunk' chunks chunks' (_ & _ & Hc) _ IH];
    intros init; [reflexivity |].
  unfold latest_cost in *. simpl. rewrite Hc. apply IH.
Qed.

Lemma latest_user_message_alike chunks chunks' :
  Forall2 alike chunks chunks' ->
  forall init,
    latest_user_message init chunks = latest_user_message init chunks'.
Proof.
  induction 1 as [|chunk chunk' chunks chunks' (Hu & _ & _) _ IH];
    intros init; [reflexivity |].
  by rewrite !latest_user_message_cons, Hu, IH.
Qed.

(** ** The generator of [BaseStream.__iter__] *)

Section Consumption.
Context {O : Type}.
Import BaseStream.
Implicit Types (self : BaseStream.t O) (chunk : Chunk.t) (content : string).
Implicit Types (pre chunks : list Chunk.t) (g : generator Chunk.t).
Implicit Types (items : list (Chunk.t + O)).

Lemma assemble_content_key self content :
  assemble self content
  = set_message_param self
      (Holds (<[content_key self := VStr content]>
                ({[ "role" := VStr "assistant" ]} : param))).
Proof.
  unfold assemble, content_key, MessageParamType.call.
  by destruct (bool_decide _).
Qed.

Lemma exposed_content_assemble self content :
  exposed_content (assemble self content) = Some (VStr content).
Proof.
  rewrite assemble_content_key. unfold exposed_content.
  cbn [set_message_param message_param]. apply lookup_insert_eq.
Qed.

Lemma after_nil self g : stream self = g -> after self [] g = self.
Proof. destruct self; simpl; intros <-; reflexivity. Qed.

Lemma after_cons self chunk pre g g' :
  after (after self [chunk] g') pre g = after self (chunk :: pre) g.
Proof.
  unfold after; simpl. f_equal.
  symmetry. apply latest_user_message_cons.
Qed.

Lemma after_snoc self pre chunk g g' :
  after (after self pre g') [chunk] g = after self (pre ++ [chunk]) g.
Proof.
  unfold after; simpl. f_equal.
  - by rewrite latest_cost_app.
  - by rewrite latest_user_message_snoc.
Qed.

(** The parser is the same throughout the iteration. *)
Lemma parses_after self pre g chunks items :
  parses (after self pre g) chunks items <-> parses self chunks items.
Proof. reflexivity. Qed.

Lemma parses_length self chunks items :
  parses self chunks items -> length items = length chunks.
Proof. intros H. symmetry. by eapply Forall2_length. Qed.

Lemma parses_no_parser self chunks :
  output_parser self = None -> parses self chunks (inl <$> chunks).
Proof.
  intros Hp. unfold parses.
  induction chunks as [|chunk chunks IH]; constructor; [| exact IH].
  unfold parsed. by rewrite Hp.
Qed.

Lemma parses_app_inv self pre chunks items :
  parses self (pre ++ chunks) items ->
  exists items1 items2,
    items = (items1 ++ items2)%list
    /\ parses self pre items1 /\ parses self chunks items2.
Proof.
  intros H. apply Forall2_app_inv_l in H as (items1 & items2 & H1 & H2 & ->).
  by exists items1, items2.
Qed.

(** One turn of the loop: the assignments are made whether the parser
    returns or raises. *)
Lemma loop_body_after self content chunk g :
  loop_body (set_stream self g) content chunk
  = (after self [chunk] g, content +:+ Chunk.content chunk,
     match parsed self chunk with
     | inr item => Yield item None
     | inl e => Raise e
     end).
Proof.
  unfold loop_body.
  set (self' := match Chunk.cost chunk with
                | Some c => set_cost _ (Some c)
                | None => _
                end).
  assert (Hself : self' = after self [chunk] g).
  { subst self'. unfold after, latest_cost; simpl.
    by destruct (Chunk.cost chunk). }
  rewrite Hself.
  change (parsed (after self [chunk] g) chunk) with (parsed self chunk).
  by destruct (parsed self chunk).
Qed.

Lemma run_from_script pre : forall g self content items,
  parses self pre items ->
  stream self = script pre g ->
  run_from (script pre g) self content
  = run_from g (after self pre g) (content +:+ contents pre).
Proof.
  induction pre as [|chunk pre IH]; intros g self content items Hp Hs.
  - rewrite after_nil by done. unfold contents; simpl.
    by rewrite append_empty_r.
  - apply Forall2_cons_inv_l in Hp as (item & items' & Hitem & Hp & ->).
    cbn [script run_from]. rewrite loop_body_after, Hitem.
    rewrite (IH _ _ _ items') by done.
    by rewrite after_cons, append_assoc, contents_cons.
Qed.

(** The frame once the generator has yielded for the chunks [pre]. *)
Lemma pull_script_then pre k : forall g self fr items,
  fr <> Closed ->
  parses self pre items ->
  stream self = script pre g ->
  pull (length pre + k) self fr
  = let fr' :=
      match pre with
      | [] => fr
      | _ => Suspended (local_content fr +:+ contents pre)
      end in
    let '(self', fr'', more, last) := pull k (after self pre g) fr' in
    (self', fr'', ((yielded <$> items) ++ more)%list, last).
Proof.
  induction pre as [|chunk pre IH]; intros g self fr items Hfr Hp Hs.
  - apply Forall2_nil_inv_l in Hp as ->.
    cbn [length Nat.add fmap list_fmap app]. rewrite after_nil by done.
    by destruct (pull k self fr) as [[[? ?] ?] ?].
  - apply Forall2_cons_inv_l in Hp as (item & items' & Hitem & Hp & ->).
    assert (Hn : next self fr
                 = (after self [chunk] (script pre g),
                    Suspended (local_content fr +:+ Chunk.content chunk),
                    Yield item None)).
    { destruct fr; [| |done]; cbn [next local_content]; unfold resume;
        rewrite Hs; cbn [script]; by rewrite loop_body_after, Hitem. }
    cbn [length Nat.add pull]. rewrite Hn.
    rewrite (IH g _ _ items') by done. rewrite after_cons.
    cbn [local_content].
    assert (Hfr' :
      match pre with
      | [] => Suspended (local_content fr +:+ Chunk.content chunk)
      | _ :: _ =>
          Suspended ((local_content fr +:+ Chunk.content chunk) +:+ contents pre)
      end = Suspended (local_content fr +:+ contents (chunk :: pre))).
    { rewrite contents_cons. destruct pre as [|chunk' pre].
      - unfold contents; simpl. by rewrite append_empty_r.
      - by rewrite append_assoc. }
    cbv zeta. rewrite Hfr'.
    destruct (pull k _ _) as [[[? ?] ?] ?]. reflexivity.
Qed.

Lemma pull_script pre g self fr items :
  fr <> Closed ->
  parses self pre items ->
  stream self = script pre g ->
  pull (length pre) self fr
  = (after self pre g,
     match pre with
     | [] => fr
     | _ => Suspended (local_content fr +:+ contents pre)
     end,
     yielded <$> items, None).
Proof.
  intros Hfr Hp Hs.
  pose proof (pull_script_then pre 0 g self fr items Hfr Hp Hs) as H.
  rewrite Nat.add_0_r in H. rewrite H. cbn [pull].
  by rewrite app_nil_r.
Qed.

Lemma consume_of_list self chunks items :
  parses self chunks items ->
  stream self = of_list chunks ->
  consume self
  = (assemble (after self chunks Exhausted) (contents chunks), Completed).
Proof.
  intros Hp Hs. unfold consume. rewrite Hs. unfold of_list in *.
  by rewrite (run_from_script _ _ _ _ items).
Qed.

Lemma consume_raising_after self chunks items e :
  parses self chunks items ->
  stream self = raising_after chunks e ->
  consume self = (after self chunks Exhausted, Propagated e).
Proof.
  intros Hp Hs. unfold consume. rewrite Hs. unfold raising_after in *.
  by rewrite (run_from_script _ _ _ _ items).
Qed.

(** When the output parser raises on the chunk [bad], after it has returned
    on the chunks [pre], the loop ends with the error of the parser: the
    assignments for [bad] have been made, [self.stream] keeps what follows
    [bad], and [message_param] is not assigned. *)
Lemma consume_parser_raises self pre bad g items e :
  parses self pre items ->
  parsed self bad = inl e ->
  stream self = script pre (Yields bad g) ->
  consume self = (after self (pre ++ [bad]) g, Propagated e).
Proof.
  intros Hp Hbad Hs. unfold consume. rewrite Hs.
  rewrite (run_from_script _ _ _ _ items) by done.
  cbn [run_from]. rewrite loop_body_after.
  change (parsed (after self pre (Yields bad g)) bad) with (parsed self bad).
  by rewrite Hbad, after_snoc.
Qed.

(** The loop [for _ in self: pass] is the iteration of [next] until it stops
    yielding: both leave the same object. *)
Lemma pull_consume_of_list self chunks items :
  parses self chunks items ->
  stream self = of_list chunks ->
  pull (S (length chunks)) self Created
  = ((consume self).1, Closed, yielded <$> items, Some StopIteration).
Proof.
  intros Hp Hs. rewrite (consume_of_list _ chunks items) by done.
  pose proof (pull_script_then chunks 1 Exhausted self Created items) as H.
  rewrite Nat.add_1_r in H. rewrite H by done. clear H.
  cbn [local_content pull].
  destruct chunks as [|chunk chunks]; cbn [next]; unfold resume;
    cbn [after stream]; by rewrite app_nil_r.
Qed.

(** When [self.stream] raises after the chunks [chunks], so does the
    iteration of [next], and it leaves the object that the loop leaves. *)
Lemma pull_consume_raising_after self chunks items e :
  parses self chunks items ->
  stream self = raising_after chunks e ->
  pull (S (length chunks)) self Created
  = ((consume self).1, Closed, yielded <$> items, Some (Raise e)).
Proof.
  intros Hp Hs. rewrite (consume_raising_after _ chunks items e) by done.
  pose proof (pull_script_then chunks 1 (Raises e) self Created items) as H.
  rewrite Nat.add_1_r in H. rewrite H by done. clear H.
  cbn [local_content pull].
  destruct chunks as [|chunk chunks]; cbn [next]; unfold resume;
    cbn [after stream]; by rewrite app_nil_r.
Qed.

(** When the output parser raises on [bad], so does the iteration of
    [next], after the items of the chunks before [bad]. *)
Lemma pull_parser_raises self pre bad g items e :
  parses self pre items ->
  parsed self bad = inl e ->
  stream self = script pre (Yields bad g) ->
  pull (S (length pre)) self Created
  = ((consume self).1, Closed, yielded <$> items, Some (Raise e)).
Proof.
  intros Hp Hbad Hs.
  rewrite (consume_parser_raises _ pre bad g items e) by done.
  pose proof (pull_script_then pre 1 (Yields bad g) self Created items) as H.
  rewrite Nat.add_1_r in H. rewrite H by done. clear H.
  assert (Hn : forall content,
            resume (after self pre (Yields bad g)) content
            = (after self (pre ++ [bad]) g, Closed, Raise e)).
  { intros content. unfold resume.
    change (stream (after self pre (Yields bad g)))
      with (@Yields Chunk.t bad g).
    cbv iota. rewrite loop_body_after.
    change (parsed (after self pre (Yields bad g)) bad)
      with (parsed self bad).
    by rewrite Hbad, after_snoc. }
  cbn [local_content pull].
  destruct pre as [|chunk pre]; cbn [next]; rewrite Hn;
    by rewrite app_nil_r.
Qed.

End Consumption.

(** Chunks that agree on what [__iter__] reads leave the same object. *)
Lemma consume_alike {O} (self : BaseStream.t O) chunks chunks' items items' :
  Forall2 alike chunks chunks' ->
  BaseStream.parses self chunks items ->
  BaseStream.parses self chunks' items' ->
  BaseStream.consume (BaseStream.set_stream self (of_list chunks))
  = BaseStream.consume (BaseStream.set_stream self (of_list chunks')).
Proof.
  intros Ha Hp Hp'.
  rewrite (consume_of_list _ chunks items) by done.
  rewrite (consume_of_list _ chunks' items') by done.
  unfold BaseStream.after. cbn [BaseStream.set_stream BaseStream.cost
    BaseStream.user_message_param BaseStream.message_param
    BaseStream.message_param_type BaseStream.output_parser].
  by rewrite (contents_alike _ _ Ha), (latest_cost_alike _ _ Ha),
    (latest_user_message_alike _ _ Ha).
Qed.

Lemma contents_nonempty_deltas chunks :
  contents (filter (fun chunk => Chunk.content chunk <> "") chunks)
  = contents chunks.
Proof.
  induction chunks as [|chunk chunks IH]; [reflexivity |].
  rewrite filter_cons. case_decide as Hc.
  - by rewrite !contents_cons, IH.
  - by rewrite contents_cons, Hc, IH.
Qed.

(** The keys of the message that [__iter__] assembles. *)
Lemma assembled_message_keys {O} (self : BaseStream.t O) content :
  dom (<[BaseStream.content_key self := VStr content]>
         ({[ "role" := VStr "assistant" ]} : param))
  = ({[ "role"; BaseStream.content_key self ]} : gset string)
  /\ (<[BaseStream.content_key self := VStr content]>
        ({[ "role" := VStr "assistant" ]} : param)) !! "tool_calls" = None
  /\ (<[BaseStream.content_key self := VStr content]>
        ({[ "role" := VStr "assistant" ]} : param)) !! "role"
     = Some (VStr "assistant")
  /\ default (VStr "")
       ((<[BaseStream.content_key self := VStr content]>
           ({[ "role" := VStr "assistant" ]} : param)) !! "content")
     = VStr (if bool_decide (BaseStream.content_key self = "content")
             then content else "").
Proof.
  unfold BaseStream.content_key.
  destruct (bool_decide ("message" ∈ _)).
  - split; [rewrite dom_insert_L, dom_singleton_L; set_solver |].
    split; [by rewrite lookup_insert_ne, lookup_singleton_ne |].
    split; [by rewrite lookup_insert_ne, lookup_singleton_eq |].
    by rewrite lookup_insert_ne, lookup_singleton_ne.
  - split; [rewrite dom_insert_L, dom_singleton_L; set_solver |].
    split; [by rewrite lookup_insert_ne, lookup_singleton_ne |].
    split; [by rewrite lookup_insert_ne, lookup_singleton_eq |].
    by rewrite lookup_insert_eq.
Qed.

(** ** The response that [construct_call_response] builds *)

(** The dict [message], for a [message_param] with a role. *)
Lemma message_holds (s : GroqStream.t) (mp : param) (role : value) :
  GroqStream.message_param s = Holds mp ->
  mp !! "role" = Some role ->
  exists m,
    GroqStream.message s = inr m
    /\ m !! "role" = Some role
    /\ m !! "content" = Some (default (VStr "") (mp !! "content"))
    /\ m !! "tool_calls" = Some (default (VToolCalls []) (mp !! "tool_calls"))
    /\ dom m = ({[ "role"; "content"; "tool_calls" ]} : gset string).
Proof.
  intros Hm Hrole. unfold GroqStream.message. rewrite Hm, Hrole.
  eexists. split; [reflexivity |].
  split; [by rewrite !lookup_insert_ne, lookup_singleton_eq |].
  split; [by rewrite lookup_insert_ne, lookup_insert_eq |].
  split; [by rewrite lookup_insert_eq |].
  rewrite !dom_insert_L, dom_singleton_L. set_solver.
Qed.

(** When the guard and the subscript [role] let the call through. *)
Lemma message_inr (s : GroqStream.t) (m : param) :
  GroqStream.message s = inr m ->
  exists mp role,
    GroqStream.message_param s = Holds mp /\ mp !! "role" = Some role.
Proof.
  unfold GroqStream.message.
  destruct (GroqStream.message_param s) as [| |mp]; [done | done |].
  destruct (mp !! "role") as [role|] eqn:Hrole; [| done].
  intros _. by exists mp, role.
Qed.

(** The errors of the guard and of the subscript [role]. *)
Lemma message_inl (s : GroqStream.t) (e : exn) :
  GroqStream.message s = inl e ->
  (e = AttributeError "message_param"
   /\ GroqStream.message_param s = Unassigned)
  \/ (e = ValueError
            "No stream response, check if the stream has been consumed."
      /\ GroqStream.message_param s = IsNone)
  \/ (e = KeyError "role"
      /\ exists mp,
           GroqStream.message_param s = Holds mp /\ mp !! "role" = None).
Proof.
  unfold GroqStream.message.
  destruct (GroqStream.message_param s) as [| |mp].
  - intros [= <-]. by left.
  - intros [= <-]. right; by left.
  - destruct (mp !! "role") as [role|] eqn:Hrole; [done |].
    intros [= <-]. right; right. split; [done |]. by exists mp.
Qed.

Section Build.
Context {Message Choice Completion Response : Type}.
Variable classes : Classes.t Message Choice Completion Response.
Implicit Types (s : GroqStream.t).

(** [construct_call_response] returns exactly when the message is made and
    the four constructors accept what they are given, in this order. *)
Lemma construct_call_response_inr s r :
  GroqStream.construct_call_response classes s = inr r
  <-> exists m validated choice completion,
        GroqStream.message s = inr m
        /\ Classes.model_validate classes m = inr validated
        /\ Classes.new_choice classes (GroqStream.choice_kwargs s validated)
           = inr choice
        /\ Classes.new_completion classes
             (GroqStream.completion_kwargs s choice) = inr completion
        /\ Classes.new_response classes
             (GroqStream.response_kwargs s completion) = inr r.
Proof.
  unfold GroqStream.construct_call_response. split.
  - destruct (GroqStream.message s) as [e|m]; [done |].
    destruct (Classes.model_validate classes m) as [e|validated] eqn:Hv;
      [done |].
    destruct (Classes.new_choice classes _) as [e|choice] eqn:Hc; [done |].
    destruct (Classes.new_completion classes _) as [e|completion] eqn:Hk;
      [done |].
    intros Hr. by exists m, validated, choice, completion.
  - intros (m & validated & choice & completion & -> & -> & -> & -> & Hr).
    exact Hr.
Qed.

(** It raises the error of the first step that fails. *)
Lemma construct_call_response_inl s e :
  GroqStream.construct_call_response classes s = inl e
  <-> GroqStream.message s = inl e
      \/ exists m,
           GroqStream.message s = inr m
           /\ (Classes.model_validate classes m = inl e
               \/ exists validated,
                    Classes.model_validate classes m = inr validated
                    /\ (Classes.new_choice classes
                          (GroqStream.choice_kwargs s validated) = inl e
                        \/ exists choice,
                             Classes.new_choice classes
                               (GroqStream.choice_kwargs s validated)
                             = inr choice
                             /\ (Classes.new_completion classes
                                   (GroqStream.completion_kwargs s choice)
                                 = inl e
                                 \/ exists completion,
                                      Classes.new_completion classes
                                        (GroqStream.completion_kwargs s choice)
                                      = inr completion
                                      /\ Classes.new_response classes
                                           (GroqStream.response_kwargs s
                                              completion) = inl e))).
Proof.
  unfold GroqStream.construct_call_response. split.
  - destruct (GroqStream.message s) as [e'|m]; [intros [= <-]; by left |].
    intros H. right. exists m. split; [done |].
    destruct (Classes.model_validate classes m) as [e'|validated];
      [injection H as <-; by left |].
    right. exists validated. split; [done |].
    destruct (Classes.new_choice classes _) as [e'|choice];
      [injection H as <-; by left |].
    right. exists choice. split; [done |].
    destruct (Classes.new_completion classes _) as [e'|completion];
      [injection H as <-; by left |].
    right. by exists completion.
  - intros [-> | (m & -> & H)]; [done |].
    destruct H as [-> | (validated & -> & H)]; [done |].
    destruct H as [-> | (choice & -> & H)]; [done |].
    destruct H as [-> | (completion & -> & H)]; [done |].
    exact H.
Qed.

End Build.

(** The classes of the examples accept an assistant message and the finish
    reason [first_finish_reason] of a stream whose first finish reason, if
    any, is one that the library lists. *)
Lemma sample_response_of (s : GroqStream.t) (mp : param) :
  GroqStream.message_param s = Holds mp ->
  mp !! "role" = Some (VStr "assistant") ->
  GroqStream.first_finish_reason (GroqStream.finish_reasons s)
  ∈ ["stop"; "length"; "tool_calls"; "function_call"] ->
  exists r,
    GroqStream.construct_call_response sample_classes s = inr r
    /\ message_of r
       = Some (ChatCompletionMessage.mk (VStr "assistant")
                 (default (VStr "") (mp !! "content"))
                 (default (VToolCalls []) (mp !! "tool_calls")))
    /\ finish_reason_of r
       = Some (GroqStream.first_finish_reason (GroqStream.finish_reasons s)).
Proof.
  intros Hm Hrole Hreason.
  destruct (message_holds s mp _ Hm Hrole) as (m & Hmsg & Hr & Hc & Ht & _).
  unfold GroqStream.construct_call_response. rewrite Hmsg.
  cbn [sample_classes Classes.model_validate Classes.new_choice
         Classes.new_completion Classes.new_response].
  unfold sample_model_validate. rewrite Hr, Hc, Ht. cbn [default].
  unfold sample_new_choice, GroqStream.choice_kwargs.
  cbn [Choice.finish_reason].
  rewrite bool_decide_eq_true_2 by done.
  eexists. split; [reflexivity |]. split; reflexivity.
Qed.

(** ** The scenarios, run *)

Example hello_message :
  BaseStream.consume (new_stream (of_list hello_chunks))
  = (BaseStream.mk Exhausted groq_message_param_type None None None
       (Holds (assistant_message "Hello")),
     BaseStream.Completed).
Proof. vm_compute. reflexivity. Qed.

Example hello_message_keyed :
  BaseStream.message_param
    (BaseStream.consume
       (BaseStream.__init__ (O := unit) (of_list hello_chunks)
          message_keyed_param_type None)).1
  = Holds (<["message" := VStr "Hello"]> {[ "role" := VStr "assistant" ]}).
Proof. vm_compute. reflexivity. Qed.

(** With the output parser [length_parser] the consumer gets the lengths
    of the first two chunks; the parser raises on the third one, which is
    empty, and the message is not assembled. *)
Example hello_parsed :
  BaseStream.pull 3 (parsed_stream (of_list hello_chunks)) BaseStream.Created
  = (BaseStream.mk Exhausted groq_message_param_type (Some length_parser)
       None None Unassigned,
     BaseStream.Closed, [ (inr 3, None); (inr 2, None) ],
     Some (BaseStream.Raise (ValueError "empty chunk"))).
Proof. vm_compute. reflexivity. Qed.

Example hello_response :
  match GroqStream.construct_call_response sample_classes
          (groq_stream (Holds (assistant_message "Hello")) (Some ["stop"])
             (Some 3%Z) (Some 2%Z)) with
  | inr r => Some (message_of r, finish_reason_of r)
  | inl _ => None
  end
  = Some (Some (ChatCompletionMessage.mk (VStr "assistant") (VStr "Hello")
                  (VToolCalls [])),
          Some "stop").
Proof. vm_compute. reflexivity. Qed.

(** The classes of the examples refuse a message whose role is [user] and a
    finish reason that the library does not list. *)
Example user_message_is_refused :
  GroqStream.construct_call_response sample_classes
    (groq_stream
       (Holds (<["content" := VStr "Hi"]> {[ "role" := VStr "user" ]}))
       None None None)
  = inl (ValidationError "1 validation error for ChatCompletionMessage").
Proof. vm_compute. reflexivity. Qed.

Example unknown_finish_reason_is_refused :
  GroqStream.construct_call_response sample_classes
    (groq_stream (Holds (assistant_message "Hello")) (Some ["foo"]) None None)
  = inl (ValidationError "1 validation error for Choice").
Proof. vm_compute. reflexivity. Qed.

Example transport_error_after_two_chunks :
  BaseStream.consume
    (new_stream (raising_after [text_chunk "Hel"; text_chunk "lo"]
                   (TransportError "connection lost")))
  = (BaseStream.mk Exhausted groq_message_param_type None None None Unassigned,
     BaseStream.Propagated (TransportError "connection lost")).
Proof. vm_compute. reflexivity. Qed.

Lemma script_app {A} (l1 l2 : list A) (g : generator A) :
  script (l1 ++ l2) g = script l1 (script l2 g).
Proof. induction l1 as [|a l1 IH]; [reflexivity | simpl; by rewrite IH]. Qed.

(** The object after one more turn of the loop, whether the output parser
    returns or raises on the last chunk. *)
Lemma pull_script_snoc {O} (self : BaseStream.t O) pre chunk g items :
  BaseStream.parses self pre items ->
  BaseStream.stream self = script pre (Yields chunk g) ->
  (BaseStream.pull (S (length pre)) self BaseStream.Created).1.1.1
  = BaseStream.after self (pre ++ [chunk]) g.
Proof.
  intros Hp Hs.
  pose proof (pull_script_then pre 1 (Yields chunk g) self BaseStream.Created
                items) as H.
  rewrite Nat.add_1_r in H. rewrite H by done. clear H.
  assert (Hn : forall content,
            BaseStream.resume (BaseStream.after self pre (Yields chunk g))
              content
            = (BaseStream.after self (pre ++ [chunk]) g,
               match BaseStream.parsed self chunk with
               | inr _ => BaseStream.Suspended (content +:+ Chunk.content chunk)
               | inl _ => BaseStream.Closed
               end,
               match BaseStream.parsed self chunk with
               | inr item => BaseStream.Yield item None
               | inl e => BaseStream.Raise e
               end)).
  { intros content. unfold BaseStream.resume.
    change (BaseStream.stream (BaseStream.after self pre (Yields chunk g)))
      with (@Yields Chunk.t chunk g).
    cbv iota. rewrite loop_body_after.
    change (BaseStream.parsed (BaseStream.after self pre (Yields chunk g))
              chunk)
      with (BaseStream.parsed self chunk).
    rewrite after_snoc. by destruct (BaseStream.parsed self chunk). }
  cbn [BaseStream.local_content BaseStream.pull].
  destruct pre as [|c pre]; cbn [BaseStream.next]; rewrite Hn;
    by destruct (BaseStream.parsed self chunk).
Qed.

Lemma consume_snoc {O} (self : BaseStream.t O) pre chunk items :
  BaseStream.parses self pre items ->
  BaseStream.stream self = of_list (pre ++ [chunk]) ->
  BaseStream.user_message_param (BaseStream.consume self).1
  = Chunk.user_message_param chunk
  /\ BaseStream.cost (BaseStream.consume self).1
     = latest_cost (BaseStream.cost self) (pre ++ [chunk]).
Proof.
  intros Hp Hs.
  destruct (BaseStream.parsed self chunk) as [e|item] eqn:Hc.
  - unfold of_list in Hs. rewrite script_app in Hs.
    rewrite (consume_parser_raises self pre chunk Exhausted items e)
      by done.
    cbn [fst BaseStream.after BaseStream.user_message_param BaseStream.cost].
    by rewrite latest_user_message_snoc.
  - rewrite (consume_of_list self (pre ++ [chunk]) (items ++ [item])).
    + cbn [fst BaseStream.assemble BaseStream.set_message_param
             BaseStream.after BaseStream.user_message_param BaseStream.cost].
      by rewrite latest_user_message_snoc.
    + apply Forall2_app; [exact Hp |]. by constructor.
    + exact Hs.
Qed.

Lemma assistant_message_role content :
  assistant_message content !! "role" = Some (VStr "assistant").
Proof.
  unfold assistant_message. by rewrite lookup_insert_ne, lookup_singleton_eq.
Qed.

Lemma assistant_message_content content :
  assistant_message content !! "content" = Some (VStr content).
Proof. unfold assistant_message. by rewrite lookup_insert_eq. Qed.

Lemma assistant_message_tool_calls content :
  assistant_message content !! "tool_calls" = None.
Proof.
  unfold assistant_message. by rewrite lookup_insert_ne, lookup_singleton_ne.
Qed.

Lemma constructed_message_lookup (tool_calls : option (list ToolCall.t))
    (content : option string) :
  GroqStream._construct_message_param tool_calls content !! "role"
  = Some (VStr "assistant")
  /\ GroqStream._construct_message_param tool_calls content !! "content"
     = Some (from_option VStr VNone content)
  /\ default (VToolCalls [])
       (GroqStream._construct_message_param tool_calls content
          !! "tool_calls")
     = VToolCalls (default [] tool_calls).
Proof.
  unfold GroqStream._construct_message_param.
  destruct tool_calls as [[|call calls]|]; cbn [default].
  - split; [by rewrite lookup_insert_ne, lookup_singleton_eq |].
    split; [by rewrite lookup_insert_eq |].
    by rewrite lookup_insert_ne, lookup_singleton_ne.
  - split; [by rewrite !lookup_insert_ne, lookup_singleton_eq |].
    split; [by rewrite lookup_insert_ne, lookup_insert_eq |].
    by rewrite lookup_insert_eq.
  - split; [by rewrite lookup_insert_ne, lookup_singleton_eq |].
    split; [by rewrite lookup_insert_eq |].
    by rewrite lookup_insert_ne, lookup_singleton_ne.
Qed.

(** ** The claims *)

(** C1: for every chunk sequence, once the stream has been consumed to its
    end (the output parser, if there is one, returning on every chunk), the
    content of the assembled assistant message is the concatenation, in
    order, of the content deltas of the chunks; deltas that are empty
    contribute nothing, and with no chunk at all the content is the empty
    string.  The loop and the iteration of [next] until [StopIteration] leave
    the same object. *)
Theorem C1_content_is_concatenation (O : Type) (self : BaseStream.t O)
    (chunks : list Chunk.t) (items : list (Chunk.t + O)) :
  BaseStream.stream self = of_list chunks ->
  BaseStream.parses self chunks items ->
  exists self',
    BaseStream.consume self = (self', BaseStream.Completed)
    /\ BaseStream.message_param self'
       = Holds (<[BaseStream.content_key self := VStr (contents chunks)]>
                  ({[ "role" := VStr "assistant" ]} : param))
    /\ BaseStream.exposed_content self' = Some (VStr (contents chunks))
    /\ contents chunks
       = contents (filter (fun chunk => Chunk.content chunk <> "") chunks)
    /\ (chunks = [] -> BaseStream.exposed_content self' = Some (VStr ""))
    /\ BaseStream.pull (S (length chunks)) self BaseStream.Created
       = (self', BaseStream.Closed, BaseStream.yielded <$> items,
          Some BaseStream.StopIteration).
Proof.
  intros Hs Hp. eexists. split; [by eapply consume_of_list |].
  split; [by rewrite assemble_content_key |].
  assert (He : BaseStream.exposed_content
                 (BaseStream.assemble
                    (BaseStream.after self chunks Exhausted) (contents chunks))
               = Some (VStr (contents chunks)))
    by apply exposed_content_assemble.
  split; [exact He |].
  split; [by rewrite contents_nonempty_deltas |].
  split; [intros ->; exact He |].
  rewrite (pull_consume_of_list self chunks items) by done.
  by rewrite (consume_of_list self chunks items).
Qed.

Lemma C1_witness :
  exists self',
    BaseStream.consume (new_stream (of_list hello_chunks))
    = (self', BaseStream.Completed)
    /\ BaseStream.exposed_content self' = Some (VStr "Hello").
Proof.
  destruct (C1_content_is_concatenation unit
              (new_stream (of_list hello_chunks)) hello_chunks
              (inl <$> hello_chunks) eq_refl
              (parses_no_parser (new_stream (of_list hello_chunks))
                 hello_chunks eq_refl))
    as (self' & H1 & _ & H3 & _).
  exists self'. split; [exact H1 | exact H3].
Defined.

(** C2, as stated, fails on the scenario of the claim: the three chunks with
    the fragments of [get_weather] leave a message with no tool call, and the
    very object that three chunks with the fragments of another tool call
    leave: whatever is read from the consumed stream as its tool calls, it is
    not the concatenation of the fragments. *)
Lemma C2_counterexample :
  BaseStream.message_param
    (BaseStream.consume (new_stream (of_list weather_chunks))).1
  = Holds (assistant_message "")
  /\ assistant_message "" !! "tool_calls" = None
  /\ ~ exists tool_calls : BaseStream.t unit -> list ToolCall.t,
         (exists call,
            tool_calls
              (BaseStream.consume (new_stream (of_list weather_chunks))).1
            = [call]
            /\ ToolCall.name call = "get_weather"
            /\ ToolCall.arguments call = city_fragment +:+ nyc_fragment)
         /\ (exists call,
               tool_calls
                 (BaseStream.consume (new_stream (of_list alarm_chunks))).1
               = [call]
               /\ ToolCall.name call = "set_alarm"
               /\ ToolCall.arguments call = "{}").
Proof.
  split; [vm_compute; reflexivity |].
  split; [apply assistant_message_tool_calls |].
  intros (tool_calls & (call & H1 & Hn & _) & (call' & H2 & Hn' & _)).
  assert (E : (BaseStream.consume (new_stream (of_list weather_chunks))).1
              = (BaseStream.consume (new_stream (of_list alarm_chunks))).1)
    by (vm_compute; reflexivity).
  rewrite E, H2 in H1. injection H1 as ->.
  rewrite Hn in Hn'. discriminate Hn'.
Qed.

(** C2 (amended): [__iter__] keeps no tool-call state.  Whatever tool-call
    deltas the chunks carry, every chunk is yielded with the tool [None], the
    assembled message has the two keys [role] and [content] (or [message])
    and no [tool_calls] entry, and chunks that differ only in what [__iter__]
    does not read, such as the deltas, leave the same object.  From a
    message without this entry [construct_call_response] makes a message
    with an empty list of tool calls. *)
Theorem C2_tool_fragments_not_accumulated (O : Type) (self : BaseStream.t O)
    (chunks : list Chunk.t) (items : list (Chunk.t + O)) :
  BaseStream.stream self = of_list chunks ->
  BaseStream.parses self chunks items ->
  exists self' yields mp,
    BaseStream.pull (S (length chunks)) self BaseStream.Created
    = (self', BaseStream.Closed, yields, Some BaseStream.StopIteration)
    /\ length yields = length chunks
    /\ Forall (fun pair => pair.2 = None) yields
    /\ BaseStream.consume self = (self', BaseStream.Completed)
    /\ BaseStream.message_param self' = Holds mp
    /\ dom mp = ({[ "role"; BaseStream.content_key self ]} : gset string)
    /\ mp !! "tool_calls" = None
    /\ (forall chunks' items',
          Forall2 alike chunks chunks' ->
          BaseStream.parses self chunks' items' ->
          BaseStream.consume (BaseStream.set_stream self (of_list chunks'))
          = (self', BaseStream.Completed))
    /\ (forall s : GroqStream.t,
          GroqStream.message_param s = Holds mp ->
          exists m,
            GroqStream.message s = inr m
            /\ m !! "tool_calls" = Some (VToolCalls [])).
Proof.
  intros Hs Hp.
  destruct (assembled_message_keys self (contents chunks))
    as (Hdom & Htools & Hrole & _).
  exists (BaseStream.assemble (BaseStream.after self chunks Exhausted)
            (contents chunks)),
    (BaseStream.yielded <$> items),
    (<[BaseStream.content_key self := VStr (contents chunks)]>
       ({[ "role" := VStr "assistant" ]} : param)).
  split.
  { rewrite (pull_consume_of_list self chunks items) by done.
    rewrite (consume_of_list self chunks items) by done. reflexivity. }
  split; [by rewrite length_fmap, (parses_length self chunks) |].
  split; [by apply Forall_fmap, Forall_forall |].
  split; [by eapply consume_of_list |].
  split; [by rewrite assemble_content_key |].
  split; [exact Hdom |].
  split; [exact Htools |].
  split.
  - intros chunks' items' Ha Hp'.
    rewrite <- (consume_alike self chunks chunks' items items') by done.
    rewrite (consume_of_list _ chunks items) by done.
    reflexivity.
  - intros s Hm.
    destruct (message_holds s _ _ Hm Hrole) as (m & Hmsg & _ & _ & Ht & _).
    exists m. split; [exact Hmsg |].
    exact (eq_trans Ht
             (f_equal (fun o => Some (default (VToolCalls []) o)) Htools)).
Qed.

Lemma C2_witness :
  exists self' mp,
    BaseStream.consume (new_stream (of_list weather_chunks))
    = (self', BaseStream.Completed)
    /\ BaseStream.message_param self' = Holds mp
    /\ mp !! "tool_calls" = None.
Proof.
  destruct (C2_tool_fragments_not_accumulated unit
              (new_stream (of_list weather_chunks)) weather_chunks
              (inl <$> weather_chunks) eq_refl
              (parses_no_parser (new_stream (of_list weather_chunks))
                 weather_chunks eq_refl))
    as (self' & yields & mp & _ & _ & _ & H1 & H2 & _ & H3 & _).
  exists self', mp. split; [exact H1 |]. split; [exact H2 | exact H3].
Defined.

(** C3, as stated, fails: called on a stream whose [message_param] is
    [None], [construct_call_response] raises the [ValueError] of its guard,
    and on a stream whose [message_param] was never assigned it raises
    [AttributeError]; neither is an [EmptyStreamError]. *)
Lemma C3_counterexample :
  exists e1 e2,
    GroqStream.construct_call_response sample_classes
      (groq_stream IsNone None None None) = inl e1
    /\ e1 = ValueError
              "No stream response, check if the stream has been consumed."
    /\ class_name e1 <> "EmptyStreamError"
    /\ GroqStream.construct_call_response sample_classes
         (groq_stream Unassigned None None None) = inl e2
    /\ e2 = AttributeError "message_param"
    /\ class_name e2 <> "EmptyStreamError".
Proof.
  eexists _, _.
  split; [reflexivity |]. split; [reflexivity |].
  split; [discriminate |].
  split; [reflexivity |]. split; [reflexivity | discriminate].
Qed.

(** C3 (amended): [construct_call_response] fails when [message_param] is
    [None], with the [ValueError] of its guard, and when [message_param] was
    never assigned, with [AttributeError], whatever the classes of the
    response are.  The guard looks at [message_param] only: it raises exactly
    when that is [None], and with a message that has a role it lets the call
    through, which then returns the response as soon as the four
    constructors accept what they are given. *)
Theorem C3_build_needs_message_param (Message Choice Completion Response : Type)
    (classes : Classes.t Message Choice Completion Response)
    (s : GroqStream.t) :
  (GroqStream.message_param s = Unassigned ->
   GroqStream.construct_call_response classes s
   = inl (AttributeError "message_param"))
  /\ (GroqStream.message_param s = IsNone ->
      GroqStream.construct_call_response classes s
      = inl (ValueError
               "No stream response, check if the stream has been consumed."))
  /\ (GroqStream.message s
      = inl (ValueError
               "No stream response, check if the stream has been consumed.")
      <-> GroqStream.message_param s = IsNone)
  /\ (forall mp,
        GroqStream.message_param s = Holds mp ->
        is_Some (mp !! "role") ->
        exists m, GroqStream.message s = inr m)
  /\ (forall m validated choice completion r,
        GroqStream.message s = inr m ->
        Classes.model_validate classes m = inr validated ->
        Classes.new_choice classes (GroqStream.choice_kwargs s validated)
        = inr choice ->
        Classes.new_completion classes
          (GroqStream.completion_kwargs s choice) = inr completion ->
        Classes.new_response classes
          (GroqStream.response_kwargs s completion) = inr r ->
        GroqStream.construct_call_response classes s = inr r).
Proof.
  split; [| split; [| split; [| split]]].
  - intros H. unfold GroqStream.construct_call_response, GroqStream.message.
    by rewrite H.
  - intros H. unfold GroqStream.construct_call_response, GroqStream.message.
    by rewrite H.
  - split.
    + intros H. apply message_inl in H as [[H _]|[[_ H]|[H _]]]; done.
    + intros H. unfold GroqStream.message. by rewrite H.
  - intros mp Hm [role Hrole].
    destruct (message_holds s mp role Hm Hrole) as (m & Hmsg & _).
    by exists m.
  - intros m validated choice completion r H1 H2 H3 H4 H5.
    apply construct_call_response_inr.
    by exists m, validated, choice, completion.
Qed.

Lemma C3_witness :
  GroqStream.construct_call_response sample_classes
    (groq_stream IsNone (Some ["stop"]) (Some 3%Z) (Some 2%Z))
  = inl (ValueError
           "No stream response, check if the stream has been consumed.")
  /\ exists m,
       GroqStream.message
         (groq_stream (Holds (assistant_message "")) None None None) = inr m.
Proof.
  split.
  - exact (proj1 (proj2 (C3_build_needs_message_param _ _ _ _ sample_classes
                           (groq_stream IsNone (Some ["stop"]) (Some 3%Z)
                              (Some 2%Z)))) eq_refl).
  - exact (proj1 (proj2 (proj2 (proj2
                    (C3_build_needs_message_param _ _ _ _ sample_classes
                       (groq_stream (Holds (assistant_message "")) None None
                          None)))))
             (assistant_message "") eq_refl
             (ex_intro _ _ (assistant_message_role ""))).
Defined.

(** C4, as stated, fails: of two chunks that carry different user messages,
    the stream is left with the second one. *)
Lemma C4_counterexample :
  BaseStream.user_message_param
    (BaseStream.consume (new_stream (of_list two_user_chunks))).1
  = Chunk.user_message_param (user_chunk "second question" "b")
  /\ BaseStream.user_message_param
       (BaseStream.consume (new_stream (of_list two_user_chunks))).1
     <> Chunk.user_message_param (user_chunk "first question" "a").
Proof.
  split; [reflexivity |].
  intros H.
  apply (f_equal (fun o : option param => o ≫= (.!! "content"))) in H.
  vm_compute in H. discriminate H.
Qed.

(** C4 (amended): every chunk overwrites [user_message_param] with its own
    (also with [None]), before the output parser is called; so after any
    positive number of chunks the stream holds the user message of the last
    chunk taken, also when the output parser raises on that chunk; a stream
    that yields no chunk leaves it as it was. *)
Theorem C4_user_message_is_latest (O : Type) (self : BaseStream.t O) :
  (forall rest content chunk,
     BaseStream.user_message_param
       (BaseStream.loop_body (BaseStream.set_stream self rest) content chunk).1.1
     = Chunk.user_message_param chunk)
  /\ (forall pre chunk g items,
        BaseStream.stream self = script (pre ++ [chunk]) g ->
        BaseStream.parses self pre items ->
        BaseStream.user_message_param
          (BaseStream.pull (length (pre ++ [chunk])) self
             BaseStream.Created).1.1.1
        = Chunk.user_message_param chunk)
  /\ (forall pre chunk items,
        BaseStream.stream self = of_list (pre ++ [chunk]) ->
        BaseStream.parses self pre items ->
        BaseStream.user_message_param (BaseStream.consume self).1
        = Chunk.user_message_param chunk)
  /\ (BaseStream.stream self = of_list [] ->
      BaseStream.user_message_param (BaseStream.consume self).1
      = BaseStream.user_message_param self).
Proof.
  split; [| split; [| split]].
  - intros rest content chunk. by rewrite loop_body_after.
  - intros pre chunk g items Hs Hp.
    rewrite script_app in Hs. cbn [script] in Hs.
    rewrite length_app, Nat.add_1_r.
    rewrite (pull_script_snoc self pre chunk g items) by done.
    cbn [BaseStream.after BaseStream.user_message_param].
    apply latest_user_message_snoc.
  - intros pre chunk items Hs Hp.
    by destruct (consume_snoc self pre chunk items Hp Hs) as [H _].
  - intros Hs. by rewrite (consume_of_list self [] []); [| constructor |].
Qed.

Lemma C4_witness :
  BaseStream.user_message_param
    (BaseStream.consume (new_stream (of_list two_user_chunks))).1
  = Chunk.user_message_param (user_chunk "second question" "b")
  /\ BaseStream.user_message_param
       (BaseStream.consume (new_stream (of_list []))).1
     = None.
Proof.
  split.
  - exact (proj1 (proj2 (proj2 (C4_user_message_is_latest unit
                    (new_stream (of_list two_user_chunks)))))
             [user_chunk "first question" "a"]
             (user_chunk "second question" "b")
             [inl (user_chunk "first question" "a")] eq_refl
             (parses_no_parser (new_stream (of_list two_user_chunks))
                [user_chunk "first question" "a"] eq_refl)).
  - exact (proj2 (proj2 (proj2 (C4_user_message_is_latest unit
                    (new_stream (of_list []))))) eq_refl).
Defined.

(** C5, as stated, fails: when the underlying stream raises after the two
    chunks [Hel] and [lo], the object exposes no content, neither after the
    second chunk nor after the error. *)
Lemma C5_counterexample :
  BaseStream.exposed_content
    (BaseStream.pull 2
       (new_stream (raising_after [text_chunk "Hel"; text_chunk "lo"]
                      (TransportError "connection lost")))
       BaseStream.Created).1.1.1
  <> Some (VStr "Hello")
  /\ (BaseStream.consume
        (new_stream (raising_after [text_chunk "Hel"; text_chunk "lo"]
                       (TransportError "connection lost")))).2
     = BaseStream.Propagated (TransportError "connection lost")
  /\ BaseStream.exposed_content
       (BaseStream.consume
          (new_stream (raising_after [text_chunk "Hel"; text_chunk "lo"]
                         (TransportError "connection lost")))).1
     <> Some (VStr "Hello").
Proof.
  split; [| split].
  - intros H. vm_compute in H. discriminate H.
  - reflexivity.
  - intros H. vm_compute in H. discriminate H.
Qed.

(** C5 (amended): after each chunk the stream object exposes the cost and the
    user message as updated by the chunks consumed so far, and the consumer
    has received each of these chunks (as the output parser returned them);
    the concatenation of their deltas is the local [content] of the suspended
    generator, and [message_param] is not assigned before the stream is
    exhausted.  When the underlying stream then raises, or when the output
    parser raises on the next chunk, the error reaches the consumer, the
    generator is closed and [message_param] is left as it was: the partial
    content is not exposed. *)
Theorem C5_partial_state (O : Type) (self : BaseStream.t O)
    (pre : list Chunk.t) (g : generator Chunk.t)
    (items : list (Chunk.t + O)) :
  BaseStream.stream self = script pre g ->
  BaseStream.parses self pre items ->
  exists self' fr,
    BaseStream.pull (length pre) self BaseStream.Created
    = (self', fr, BaseStream.yielded <$> items, None)
    /\ fr <> BaseStream.Closed
    /\ BaseStream.local_content fr = contents pre
    /\ BaseStream.cost self' = latest_cost (BaseStream.cost self) pre
    /\ BaseStream.user_message_param self'
       = latest_user_message (BaseStream.user_message_param self) pre
    /\ BaseStream.message_param self' = BaseStream.message_param self
    /\ BaseStream.exposed_content self' = BaseStream.exposed_content self
    /\ (forall e, g = Raises e ->
        exists self'',
          BaseStream.next self' fr = (self'', BaseStream.Closed, BaseStream.Raise e)
          /\ BaseStream.message_param self'' = BaseStream.message_param self
          /\ BaseStream.exposed_content self''
             = BaseStream.exposed_content self)
    /\ (forall bad rest e,
          g = Yields bad rest ->
          BaseStream.parsed self bad = inl e ->
          exists self'',
            BaseStream.next self' fr
            = (self'', BaseStream.Closed, BaseStream.Raise e)
            /\ BaseStream.message_param self'' = BaseStream.message_param self
            /\ BaseStream.exposed_content self''
               = BaseStream.exposed_content self).
Proof.
  intros Hs Hp. eexists _, _.
  split; [by apply (pull_script pre g) |].
  split; [by destruct pre |].
  split; [by destruct pre |].
  do 4 (split; [reflexivity |]).
  split.
  - intros e ->. exists (BaseStream.after self pre Exhausted).
    split; [| split; reflexivity].
    by destruct pre.
  - intros bad rest e -> Hbad.
    exists (BaseStream.after self (pre ++ [bad]) rest).
    split; [| split; reflexivity].
    assert (Hn : forall content,
              BaseStream.resume (BaseStream.after self pre (Yields bad rest))
                content
              = (BaseStream.after self (pre ++ [bad]) rest,
                 BaseStream.Closed, BaseStream.Raise e)).
    { intros content. unfold BaseStream.resume.
      change (BaseStream.stream
                (BaseStream.after self pre (Yields bad rest)))
        with (@Yields Chunk.t bad rest).
      cbv iota. rewrite loop_body_after.
      change (BaseStream.parsed
                (BaseStream.after self pre (Yields bad rest)) bad)
        with (BaseStream.parsed self bad).
      by rewrite Hbad, after_snoc. }
    destruct pre; cbn [BaseStream.next]; apply Hn.
Qed.

Lemma C5_witness :
  exists self' fr,
    BaseStream.pull 2
      (new_stream (raising_after [text_chunk "Hel"; text_chunk "lo"]
                     (TransportError "connection lost")))
      BaseStream.Created
    = (self', fr,
       BaseStream.yielded <$> [inl (text_chunk "Hel"); inl (text_chunk "lo")],
       None)
    /\ BaseStream.local_content fr = "Hello"
    /\ BaseStream.message_param self' = Unassigned.
Proof.
  destruct (C5_partial_state unit
              (new_stream (raising_after [text_chunk "Hel"; text_chunk "lo"]
                             (TransportError "connection lost")))
              [text_chunk "Hel"; text_chunk "lo"]
              (Raises (TransportError "connection lost"))
              [inl (text_chunk "Hel"); inl (text_chunk "lo")] eq_refl
              (parses_no_parser
                 (new_stream (raising_after [text_chunk "Hel"; text_chunk "lo"]
                                (TransportError "connection lost")))
                 [text_chunk "Hel"; text_chunk "lo"] eq_refl))
    as (self' & fr & H1 & _ & H2 & _ & _ & H3 & _).
  exists self', fr. split; [exact H1 |]. split; [exact H2 | exact H3].
Defined.

(** C6, as stated, fails: a stream that yields nothing has an empty content
    and no tool call, and the content of the assembled message is the empty
    string, not [None]; so is the content of the message that
    [construct_call_response] makes of such a message, and of the response
    that the classes of the examples make of it. *)
Lemma C6_counterexample :
  BaseStream.exposed_content
    (BaseStream.consume (new_stream (of_list []))).1 = Some (VStr "")
  /\ BaseStream.exposed_content
       (BaseStream.consume (new_stream (of_list []))).1 <> Some VNone
  /\ exists m r,
       GroqStream.message
         (groq_stream (Holds (assistant_message "")) None None None) = inr m
       /\ m !! "content" = Some (VStr "")
       /\ GroqStream.construct_call_response sample_classes
            (groq_stream (Holds (assistant_message "")) None None None)
          = inr r
       /\ ChatCompletionMessage.content <$> message_of r = Some (VStr "")
       /\ ChatCompletionMessage.content <$> message_of r <> Some VNone.
Proof.
  split; [vm_compute; reflexivity |].
  split; [intros H; vm_compute in H; discriminate H |].
  destruct (message_holds
              (groq_stream (Holds (assistant_message "")) None None None)
              (assistant_message "") _ eq_refl (assistant_message_role ""))
    as (m & Hmsg & _ & Hc & _).
  destruct (sample_response_of
              (groq_stream (Holds (assistant_message "")) None None None)
              (assistant_message "") eq_refl (assistant_message_role ""))
    as (r & Hr & Hm & _); [set_solver |].
  exists m, r. split; [exact Hmsg |].
  rewrite assistant_message_content in Hc, Hm.
  split; [exact Hc |]. split; [exact Hr |].
  rewrite Hm. split; [reflexivity | discriminate].
Qed.

(** C6 (amended): when the accumulated content is empty (and, as always, no
    tool call is stored), the content of the assembled message is the empty
    string, and so is the content of the message that
    [construct_call_response] makes of it, of a message without content, and
    of a message that [_construct_message_param] made with the empty
    content. *)
Theorem C6_empty_content_is_empty_string (O : Type) (self : BaseStream.t O)
    (chunks : list Chunk.t) (items : list (Chunk.t + O)) :
  BaseStream.stream self = of_list chunks ->
  BaseStream.parses self chunks items ->
  contents chunks = "" ->
  exists self' mp,
    BaseStream.consume self = (self', BaseStream.Completed)
    /\ BaseStream.message_param self' = Holds mp
    /\ mp !! BaseStream.content_key self = Some (VStr "")
    /\ BaseStream.exposed_content self' = Some (VStr "")
    /\ (forall s : GroqStream.t,
          GroqStream.message_param s = Holds mp ->
          exists m,
            GroqStream.message s = inr m
            /\ m !! "content" = Some (VStr "")
            /\ m !! "tool_calls" = Some (VToolCalls []))
    /\ (forall (s : GroqStream.t) other role,
          GroqStream.message_param s = Holds other ->
          other !! "role" = Some role ->
          other !! "content" = None ->
          exists m,
            GroqStream.message s = inr m /\ m !! "content" = Some (VStr ""))
    /\ (forall (s : GroqStream.t) tool_calls,
          GroqStream.message_param s
          = Holds (GroqStream._construct_message_param tool_calls (Some "")) ->
          exists m,
            GroqStream.message s = inr m /\ m !! "content" = Some (VStr "")).
Proof.
  intros Hs Hp Hc.
  destruct (assembled_message_keys self (contents chunks))
    as (_ & Htools & Hrole & Hcontent).
  exists (BaseStream.assemble (BaseStream.after self chunks Exhausted)
            (contents chunks)),
    (<[BaseStream.content_key self := VStr (contents chunks)]>
       ({[ "role" := VStr "assistant" ]} : param)).
  split; [by eapply consume_of_list |].
  split; [by rewrite assemble_content_key |].
  split; [by rewrite lookup_insert_eq, Hc |].
  split; [by rewrite exposed_content_assemble, Hc |].
  split; [| split].
  - intros s Hm.
    destruct (message_holds s _ _ Hm Hrole) as (m & Hmsg & _ & Hmc & Ht & _).
    exists m. split; [exact Hmsg |].
    split.
    + rewrite Hmc, Hcontent, Hc. by destruct (bool_decide _).
    + exact (eq_trans Ht
               (f_equal (fun o => Some (default (VToolCalls []) o)) Htools)).
  - intros s other role Hm Hr Hnone.
    destruct (message_holds s _ _ Hm Hr) as (m & Hmsg & _ & Hmc & _).
    exists m. split; [exact Hmsg |]. by rewrite Hmc, Hnone.
  - intros s tool_calls Hm.
    destruct (constructed_message_lookup tool_calls (Some ""))
      as (Hr & Hmc & _).
    destruct (message_holds s _ _ Hm Hr) as (m & Hmsg & _ & Hmc' & _).
    exists m. split; [exact Hmsg |]. by rewrite Hmc', Hmc.
Qed.

Lemma C6_witness :
  exists self' mp,
    BaseStream.consume
      (new_stream (of_list [text_chunk ""; usage_chunk 3 2]))
    = (self', BaseStream.Completed)
    /\ BaseStream.message_param self' = Holds mp
    /\ BaseStream.exposed_content self' = Some (VStr "").
Proof.
  destruct (C6_empty_content_is_empty_string unit
              (new_stream (of_list [text_chunk ""; usage_chunk 3 2]))
              [text_chunk ""; usage_chunk 3 2]
              [inl (text_chunk ""); inl (usage_chunk 3 2)] eq_refl
              (parses_no_parser
                 (new_stream (of_list [text_chunk ""; usage_chunk 3 2]))
                 [text_chunk ""; usage_chunk 3 2] eq_refl)
              eq_refl)
    as (self' & mp & H1 & H2 & _ & H3 & _).
  exists self', mp. split; [exact H1 |]. split; [exact H2 | exact H3].
Defined.




(** C8, as stated, fails for the usage: the chunks with the usages (10, 5)
    and (10, 8) leave the very object that the same chunks leave in the other
    order, so that whatever is read from the object as its output tokens, it
    is not the output tokens of the last chunk. *)
Lemma C8_counterexample :
  (BaseStream.consume (new_stream (of_list usage_chunks))).1
  = (BaseStream.consume
       (new_stream (of_list [usage_chunk 10 8; usage_chunk 10 5]))).1
  /\ ~ exists output_tokens : BaseStream.t unit -> option Z,
         output_tokens (BaseStream.consume (new_stream (of_list usage_chunks))).1
         = Some 8%Z
         /\ output_tokens
              (BaseStream.consume
                 (new_stream (of_list [usage_chunk 10 8; usage_chunk 10 5]))).1
            = Some 5%Z.
Proof.
  assert (E : (BaseStream.consume (new_stream (of_list usage_chunks))).1
              = (BaseStream.consume
                   (new_stream
                      (of_list [usage_chunk 10 8; usage_chunk 10 5]))).1)
    by (vm_compute; reflexivity).
  split; [exact E |].
  intros (output_tokens & H1 & H2).
  rewrite E, H2 in H1. discriminate H1.
Qed.

(** C8 (amended): the cost is last-write-wins.  A chunk that carries a cost
    overwrites the cost of the stream, a chunk that carries none leaves it as
    it is; so after the whole stream the cost is that of the last chunk that
    carried one, and the initial cost when no chunk did.  [__iter__] does not
    read the usage of a chunk: chunks that differ only in their usage (or in
    anything but their user message, content and cost) leave the same
    object. *)
Theorem C8_cost_last_write_wins (O : Type) (self : BaseStream.t O) :
  (forall rest content chunk c,
     Chunk.cost chunk = Some c ->
     BaseStream.cost
       (BaseStream.loop_body (BaseStream.set_stream self rest) content chunk).1.1
     = Some c)
  /\ (forall rest content chunk,
        Chunk.cost chunk = None ->
        BaseStream.cost
          (BaseStream.loop_body (BaseStream.set_stream self rest) content
             chunk).1.1
        = BaseStream.cost self)
  /\ (forall pre chunk post c items,
        BaseStream.stream self = of_list (pre ++ chunk :: post) ->
        BaseStream.parses self (pre ++ chunk :: post) items ->
        Chunk.cost chunk = Some c ->
        Forall (fun later => Chunk.cost later = None) post ->
        BaseStream.cost (BaseStream.consume self).1 = Some c)
  /\ (forall chunks items,
        BaseStream.stream self = of_list chunks ->
        BaseStream.parses self chunks items ->
        Forall (fun chunk => Chunk.cost chunk = None) chunks ->
        BaseStream.cost (BaseStream.consume self).1 = BaseStream.cost self)
  /\ (forall chunks chunks' items items',
        Forall2 alike chunks chunks' ->
        BaseStream.parses self chunks items ->
        BaseStream.parses self chunks' items' ->
        BaseStream.consume (BaseStream.set_stream self (of_list chunks))
        = BaseStream.consume (BaseStream.set_stream self (of_list chunks'))).
Proof.
  split; [| split; [| split; [| split]]].
  - intros rest content chunk c Hc. rewrite loop_body_after.
    cbn [fst BaseStream.after BaseStream.cost]. unfold latest_cost; simpl.
    by rewrite Hc.
  - intros rest content chunk Hc. rewrite loop_body_after.
    cbn [fst BaseStream.after BaseStream.cost]. unfold latest_cost; simpl.
    by rewrite Hc.
  - intros pre chunk post c items Hs Hp Hc Hpost.
    rewrite (consume_of_list self (pre ++ chunk :: post) items) by done.
    cbn [fst BaseStream.assemble BaseStream.set_message_param
           BaseStream.after BaseStream.cost].
    rewrite latest_cost_app.
    change (chunk :: post) with ([chunk] ++ post)%list.
    rewrite latest_cost_app, latest_cost_silent by done.
    unfold latest_cost at 1; simpl. by rewrite Hc.
  - intros chunks items Hs Hp Hnone.
    rewrite (consume_of_list self chunks items) by done.
    cbn [fst BaseStream.assemble BaseStream.set_message_param
           BaseStream.after BaseStream.cost].
    by apply latest_cost_silent.
  - intros chunks chunks' items items'. apply consume_alike.
Qed.

Lemma C8_witness :
  BaseStream.cost (BaseStream.consume (new_stream (of_list cost_chunks))).1
  = Some 0.5%float.
Proof.
  refine (proj1 (proj2 (proj2 (C8_cost_last_write_wins unit
                   (new_stream (of_list cost_chunks)))))
            [cost_chunk "a" (Some 0.25%float); cost_chunk "b" None]
            (cost_chunk "c" (Some 0.5%float)) [cost_chunk "d" None]
            0.5%float (inl <$> cost_chunks) eq_refl
            (parses_no_parser (new_stream (of_list cost_chunks)) cost_chunks
               eq_refl)
            eq_refl _).
  repeat constructor.
Defined.

(** C9, as stated, fails on the example of the claim: when the slots 2 and 0
    are first seen in this order, the assembled message has no tool call at
    all, and the object is the very object that the same chunks leave in the
    other order: whatever list of tool calls is read from it, its order is
    not the order in which the slots were first seen. *)
Lemma C9_counterexample :
  BaseStream.message_param
    (BaseStream.consume (new_stream (of_list out_of_order_chunks))).1
  = Holds (assistant_message "")
  /\ assistant_message "" !! "tool_calls" = None
  /\ ~ exists tool_call_ids : BaseStream.t unit -> list string,
         tool_call_ids
           (BaseStream.consume (new_stream (of_list out_of_order_chunks))).1
         = ["call_b"; "call_a"]
         /\ tool_call_ids
              (BaseStream.consume
                 (new_stream (of_list (reverse out_of_order_chunks)))).1
            = ["call_a"; "call_b"].
Proof.
  split; [vm_compute; reflexivity |].
  split; [apply assistant_message_tool_calls |].
  intros (tool_call_ids & H1 & H2).
  assert (E : (BaseStream.consume
                 (new_stream (of_list out_of_order_chunks))).1
              = (BaseStream.consume
                   (new_stream (of_list (reverse out_of_order_chunks)))).1)
    by (vm_compute; reflexivity).
  rewrite E, H2 in H1. discriminate H1.
Qed.

(** C9 (amended): the tool calls of the message that
    [construct_call_response] validates are the list stored under
    [tool_calls] in [message_param], in the order in which it is stored,
    whatever the tool calls are, and the empty list when there is no such
    entry; [_construct_message_param] stores a non-empty list as it is given.
    The [__iter__] of [base/stream.py] stores no tool call in the message it
    assembles. *)
Theorem C9_tool_calls_in_stored_order (s : GroqStream.t) :
  (forall mp role calls,
     GroqStream.message_param s = Holds mp ->
     mp !! "role" = Some role ->
     mp !! "tool_calls" = Some (VToolCalls calls) ->
     exists m,
       GroqStream.message s = inr m
       /\ m !! "tool_calls" = Some (VToolCalls calls))
  /\ (forall mp role,
        GroqStream.message_param s = Holds mp ->
        mp !! "role" = Some role ->
        mp !! "tool_calls" = None ->
        exists m,
          GroqStream.message s = inr m
          /\ m !! "tool_calls" = Some (VToolCalls []))
  /\ (forall call calls content,
        GroqStream._construct_message_param (Some (call :: calls)) content
          !! "tool_calls"
        = Some (VToolCalls (call :: calls))
        /\ GroqStream._construct_message_param (Some (call :: calls)) content
             !! "role"
           = Some (VStr "assistant"))
  /\ (forall content,
        GroqStream._construct_message_param None content !! "tool_calls" = None
        /\ GroqStream._construct_message_param (Some []) content
             !! "tool_calls" = None)
  /\ (forall tool_calls content,
        GroqStream.message_param s
        = Holds (GroqStream._construct_message_param tool_calls content) ->
        exists m,
          GroqStream.message s = inr m
          /\ m !! "tool_calls" = Some (VToolCalls (default [] tool_calls)))
  /\ (forall (O : Type) (self : BaseStream.t O) chunks items,
        BaseStream.stream self = of_list chunks ->
        BaseStream.parses self chunks items ->
        exists mp,
          BaseStream.message_param (BaseStream.consume self).1 = Holds mp
          /\ mp !! "tool_calls" = None).
Proof.
  split; [| split; [| split; [| split; [| split]]]].
  - intros mp role calls Hmp Hrole Hcalls.
    destruct (message_holds s mp role Hmp Hrole) as (m & Hmsg & _ & _ & Ht & _).
    exists m. split; [exact Hmsg |]. by rewrite Ht, Hcalls.
  - intros mp role Hmp Hrole Hcalls.
    destruct (message_holds s mp role Hmp Hrole) as (m & Hmsg & _ & _ & Ht & _).
    exists m. split; [exact Hmsg |]. by rewrite Ht, Hcalls.
  - intros call calls content. unfold GroqStream._construct_message_param.
    split; [apply lookup_insert_eq |].
    rewrite !lookup_insert_ne by done. apply lookup_singleton_eq.
  - intros content. unfold GroqStream._construct_message_param.
    split; rewrite lookup_insert_ne by done; by apply lookup_singleton_ne.
  - intros tool_calls content Hmp.
    destruct (constructed_message_lookup tool_calls content)
      as (Hrole & _ & Hcalls).
    destruct (message_holds s _ _ Hmp Hrole) as (m & Hmsg & _ & _ & Ht & _).
    exists m. split; [exact Hmsg |]. by rewrite Ht, Hcalls.
  - intros O self chunks items Hs Hp.
    rewrite (consume_of_list self chunks items) by done.
    rewrite assemble_content_key.
    destruct (assembled_message_keys self (contents chunks))
      as (_ & Htools & _).
    eexists. split; [reflexivity | exact Htools].
Qed.

Lemma C9_witness :
  exists m,
    GroqStream.message groq_stream_with_tool_calls = inr m
    /\ m !! "tool_calls" = Some (VToolCalls [second_call; first_call]).
Proof.
  exact (proj1 (proj2 (proj2 (proj2 (proj2
           (C9_tool_calls_in_stored_order groq_stream_with_tool_calls)))))
           (Some [second_call; first_call]) None eq_refl).
Defined.

(** C10: the cost that a [GroqStream] reports is [calculate_cost] of its
    input tokens, output tokens and model, in whatever state the stream is
    and whatever has changed its attributes; it depends on nothing else, so
    that two streams with the same token counts and model report the same
    cost.  (A cost taken from a chunk cannot be stored on a [GroqStream]:
    the property has no setter.) *)
Theorem C10_cost_is_calculate_cost
    (calculate_cost : option Z -> option Z -> string -> option float)
    (s1 s2 : GroqStream.t) :
  GroqStream.cost calculate_cost s1
  = calculate_cost (GroqStream.input_tokens s1) (GroqStream.output_tokens s1)
      (GroqStream.model s1)
  /\ (forall update : GroqStream.t -> GroqStream.t,
        GroqStream.cost calculate_cost (update s1)
        = calculate_cost (GroqStream.input_tokens (update s1))
            (GroqStream.output_tokens (update s1))
            (GroqStream.model (update s1)))
  /\ (GroqStream.input_tokens s1 = GroqStream.input_tokens s2 ->
      GroqStream.output_tokens s1 = GroqStream.output_tokens s2 ->
      GroqStream.model s1 = GroqStream.model s2 ->
      GroqStream.cost calculate_cost s1 = GroqStream.cost calculate_cost s2).
Proof.
  split; [reflexivity |].
  split; [reflexivity |].
  intros Hi Ho Hm. unfold GroqStream.cost. by rewrite Hi, Ho, Hm.
Qed.

Lemma C10_witness :
  GroqStream.cost sample_calculate_cost
    (groq_stream (Holds (assistant_message "Hello")) (Some ["stop"])
       (Some 10%Z) (Some 8%Z))
  = GroqStream.cost sample_calculate_cost
      (groq_stream Unassigned None (Some 10%Z) (Some 8%Z)).
Proof.
  exact (proj2 (proj2 (C10_cost_is_calculate_cost sample_calculate_cost
                  (groq_stream (Holds (assistant_message "Hello"))
                     (Some ["stop"]) (Some 10%Z) (Some 8%Z))
                  (groq_stream Unassigned None (Some 10%Z) (Some 8%Z))))
           eq_refl eq_refl eq_refl).
Defined.

(** ** Further properties of the streams *)

(** X1: consuming a stream a second time yields no chunk and assembles the
    message again, now with the empty content: the content that the first
    consumption accumulated is overwritten, while the cost and the user
    message stay as the first consumption left them. *)
Theorem X1_second_consumption_resets_content (O : Type)
    (self : BaseStream.t O) (chunks : list Chunk.t)
    (items : list (Chunk.t + O)) :
  BaseStream.stream self = of_list chunks ->
  BaseStream.parses self chunks items ->
  exists once twice,
    BaseStream.consume self = (once, BaseStream.Completed)
    /\ BaseStream.exposed_content once = Some (VStr (contents chunks))
    /\ BaseStream.pull 1 once BaseStream.Created
       = (twice, BaseStream.Closed, [], Some BaseStream.StopIteration)
    /\ BaseStream.consume once = (twice, BaseStream.Completed)
    /\ BaseStream.exposed_content twice = Some (VStr "")
    /\ BaseStream.cost twice = BaseStream.cost once
    /\ BaseStream.user_message_param twice
       = BaseStream.user_message_param once.
Proof.
  intros Hs Hp.
  exists (BaseStream.assemble
            (BaseStream.after self chunks Exhausted) (contents chunks)).
  eexists.
  split; [by eapply consume_of_list |].
  split; [apply exposed_content_assemble |].
  split; [reflexivity |].
  split; [reflexivity |].
  split; [apply exposed_content_assemble |].
  split; reflexivity.
Qed.

Lemma X1_witness :
  exists once twice,
    BaseStream.consume (new_stream (of_list hello_chunks))
    = (once, BaseStream.Completed)
    /\ BaseStream.exposed_content once = Some (VStr "Hello")
    /\ BaseStream.consume once = (twice, BaseStream.Completed)
    /\ BaseStream.exposed_content twice = Some (VStr "").
Proof.
  destruct (X1_second_consumption_resets_content unit
              (new_stream (of_list hello_chunks)) hello_chunks
              (inl <$> hello_chunks) eq_refl
              (parses_no_parser (new_stream (of_list hello_chunks))
                 hello_chunks eq_refl))
    as (once & twice & H1 & H2 & _ & H3 & H4 & _).
  exists once, twice.
  split; [exact H1 |]. split; [exact H2 |]. split; [exact H3 | exact H4].
Defined.

(** X2: when the underlying stream raises after some chunks, the consumption
    ends with that error and [message_param] is left as it was; the stream
    object can nevertheless be consumed again, which completes at once and
    assembles a message with the empty content: the chunks received before
    the error are not in it, while the cost and the user message taken from
    them are kept. *)
Theorem X2_consumption_after_error (O : Type) (self : BaseStream.t O)
    (chunks : list Chunk.t) (items : list (Chunk.t + O)) (e : exn) :
  BaseStream.stream self = raising_after chunks e ->
  BaseStream.parses self chunks items ->
  exists failed again,
    BaseStream.consume self = (failed, BaseStream.Propagated e)
    /\ BaseStream.message_param failed = BaseStream.message_param self
    /\ BaseStream.stream failed = Exhausted
    /\ BaseStream.pull 1 failed BaseStream.Created
       = (again, BaseStream.Closed, [], Some BaseStream.StopIteration)
    /\ BaseStream.consume failed = (again, BaseStream.Completed)
    /\ BaseStream.exposed_content again = Some (VStr "")
    /\ BaseStream.cost again = latest_cost (BaseStream.cost self) chunks
    /\ BaseStream.user_message_param again
       = latest_user_message (BaseStream.user_message_param self) chunks.
Proof.
  intros Hs Hp.
  exists (BaseStream.after self chunks Exhausted). eexists.
  split; [by eapply consume_raising_after |].
  split; [reflexivity |]. split; [reflexivity |].
  split; [reflexivity |]. split; [reflexivity |].
  split; [apply exposed_content_assemble |].
  split; reflexivity.
Qed.

Lemma X2_witness :
  exists failed again,
    BaseStream.consume
      (new_stream (raising_after [text_chunk "Hel"; text_chunk "lo"]
                     (TransportError "connection lost")))
    = (failed, BaseStream.Propagated (TransportError "connection lost"))
    /\ BaseStream.message_param failed = Unassigned
    /\ BaseStream.consume failed = (again, BaseStream.Completed)
    /\ BaseStream.exposed_content again = Some (VStr "").
Proof.
  destruct (X2_consumption_after_error unit
              (new_stream (raising_after [text_chunk "Hel"; text_chunk "lo"]
                             (TransportError "connection lost")))
              [text_chunk "Hel"; text_chunk "lo"]
              [inl (text_chunk "Hel"); inl (text_chunk "lo")]
              (TransportError "connection lost") eq_refl
              (parses_no_parser
                 (new_stream (raising_after [text_chunk "Hel"; text_chunk "lo"]
                                (TransportError "connection lost")))
                 [text_chunk "Hel"; text_chunk "lo"] eq_refl))
    as (failed & again & H1 & H2 & _ & _ & H3 & H4 & _).
  exists failed, again.
  split; [exact H1 |]. split; [exact H2 |]. split; [exact H3 | exact H4].
Defined.

(** X3: [construct_call_response] returns a response exactly when
    [message_param] holds a dict with the key [role] and the four
    constructors accept what they are given.  Otherwise it raises:
    [AttributeError] when the attribute was never assigned, the [ValueError]
    of its guard when it is [None], [KeyError] for a message without role,
    and else the error of the first constructor that refuses, in the order
    [ChatCompletionMessage.model_validate], [Choice], [ChatCompletion],
    [GroqCallResponse]. *)
Theorem X3_response_iff_message_and_classes_accept
    (Message Choice Completion Response : Type)
    (classes : Classes.t Message Choice Completion Response)
    (s : GroqStream.t) :
  (forall r,
     GroqStream.construct_call_response classes s = inr r
     <-> exists mp role m validated choice completion,
           GroqStream.message_param s = Holds mp
           /\ mp !! "role" = Some role
           /\ GroqStream.message s = inr m
           /\ Classes.model_validate classes m = inr validated
           /\ Classes.new_choice classes
                (GroqStream.choice_kwargs s validated) = inr choice
           /\ Classes.new_completion classes
                (GroqStream.completion_kwargs s choice) = inr completion
           /\ Classes.new_response classes
                (GroqStream.response_kwargs s completion) = inr r)
  /\ (forall e,
        GroqStream.construct_call_response classes s = inl e ->
        (e = AttributeError "message_param"
         /\ GroqStream.message_param s = Unassigned)
        \/ (e = ValueError
                  "No stream response, check if the stream has been consumed."
            /\ GroqStream.message_param s = IsNone)
        \/ (e = KeyError "role"
            /\ exists mp,
                 GroqStream.message_param s = Holds mp
                 /\ mp !! "role" = None)
        \/ (exists m,
              GroqStream.message s = inr m
              /\ Classes.model_validate classes m = inl e)
        \/ (exists m validated,
              GroqStream.message s = inr m
              /\ Classes.model_validate classes m = inr validated
              /\ Classes.new_choice classes
                   (GroqStream.choice_kwargs s validated) = inl e)
        \/ (exists m validated choice,
              GroqStream.message s = inr m
              /\ Classes.model_validate classes m = inr validated
              /\ Classes.new_choice classes
                   (GroqStream.choice_kwargs s validated) = inr choice
              /\ Classes.new_completion classes
                   (GroqStream.completion_kwargs s choice) = inl e)
        \/ (exists m validated choice completion,
              GroqStream.message s = inr m
              /\ Classes.model_validate classes m = inr validated
              /\ Classes.new_choice classes
                   (GroqStream.choice_kwargs s validated) = inr choice
              /\ Classes.new_completion classes
                   (GroqStream.completion_kwargs s choice) = inr completion
              /\ Classes.new_response classes
                   (GroqStream.response_kwargs s completion) = inl e)).
Proof.
  split.
  - intros r. rewrite construct_call_response_inr. split.
    + intros (m & validated & choice & completion & H1 & H2 & H3 & H4 & H5).
      destruct (message_inr s m H1) as (mp & role & Hm & Hrole).
      by exists mp, role, m, validated, choice, completion.
    + intros (mp & role & m & validated & choice & completion & _ & _ & H).
      by exists m, validated, choice, completion.
  - intros e He. apply construct_call_response_inl in He as [He|He].
    + apply message_inl in He as [H|[H|H]]; tauto.
    + destruct He as (m & Hm & [H|(validated & Hv & H)]).
      { do 3 right. left. by exists m. }
      destruct H as [H|(choice & Hc & H)].
      { do 4 right. left. by exists m, validated. }
      destruct H as [H|(completion & Hk & H)].
      { do 5 right. left. by exists m, validated, choice. }
      do 6 right. by exists m, validated, choice, completion.
Qed.

Lemma X3_witness :
  exists r,
    GroqStream.construct_call_response sample_classes
      (groq_stream (Holds (assistant_message "Hello")) (Some ["stop"])
         (Some 3%Z) (Some 2%Z)) = inr r
    /\ exists mp,
         GroqStream.message_param
           (groq_stream (Holds (assistant_message "Hello")) (Some ["stop"])
              (Some 3%Z) (Some 2%Z)) = Holds mp
         /\ mp !! "role" = Some (VStr "assistant").
Proof.
  destruct (sample_response_of
              (groq_stream (Holds (assistant_message "Hello")) (Some ["stop"])
                 (Some 3%Z) (Some 2%Z))
              (assistant_message "Hello") eq_refl
              (assistant_message_role "Hello"))
    as (r & Hr & _); [set_solver |].
  exists r. split; [exact Hr |].
  destruct (proj1 (proj1 (X3_response_iff_message_and_classes_accept _ _ _ _
                            sample_classes
                            (groq_stream (Holds (assistant_message "Hello"))
                               (Some ["stop"]) (Some 3%Z) (Some 2%Z))) r) Hr)
    as (mp & role & m & _ & _ & _ & Hm & Hrole & _).
  exists mp. split; [exact Hm |].
  injection Hm as <-. apply assistant_message_role.
Defined.

(** X4: the message that [_construct_message_param] makes goes through
    [construct_call_response] unchanged: the dict that is validated has the
    role [assistant], the content as given ([None] stays [None]) and the
    tool calls as given, in their order (none when the list is [None] or
    empty); the call returns the response that the constructors make of it,
    and raises when one of them refuses. *)
Theorem X4_constructed_message_round_trip
    (Message Choice Completion Response : Type)
    (classes : Classes.t Message Choice Completion Response)
    (s : GroqStream.t)
    (tool_calls : option (list ToolCall.t)) (content : option string) :
  GroqStream.message_param s
  = Holds (GroqStream._construct_message_param tool_calls content) ->
  GroqStream.message s
  = inr (<["tool_calls" := VToolCalls (default [] tool_calls)]>
           (<["content" := from_option VStr VNone content]>
              ({[ "role" := VStr "assistant" ]} : param)))
  /\ (forall r,
        GroqStream.construct_call_response classes s = inr r
        <-> exists validated choice completion,
              Classes.model_validate classes
                (<["tool_calls" := VToolCalls (default [] tool_calls)]>
                   (<["content" := from_option VStr VNone content]>
                      ({[ "role" := VStr "assistant" ]} : param)))
              = inr validated
              /\ Classes.new_choice classes
                   (GroqStream.choice_kwargs s validated) = inr choice
              /\ Classes.new_completion classes
                   (GroqStream.completion_kwargs s choice) = inr completion
              /\ Classes.new_response classes
                   (GroqStream.response_kwargs s completion) = inr r).
Proof.
  intros Hm.
  destruct (constructed_message_lookup tool_calls content)
    as (Hrole & Hcontent & Hcalls).
  assert (Hmsg : GroqStream.message s
                 = inr (<["tool_calls" := VToolCalls (default [] tool_calls)]>
                          (<["content" := from_option VStr VNone content]>
                             ({[ "role" := VStr "assistant" ]} : param)))).
  { unfold GroqStream.message. by rewrite Hm, Hrole, Hcontent, Hcalls. }
  split; [exact Hmsg |].
  intros r. rewrite construct_call_response_inr. split.
  - intros (m & validated & choice & completion & H1 & H2 & H3 & H4 & H5).
    rewrite Hmsg in H1. injection H1 as <-.
    by exists validated, choice, completion.
  - intros (validated & choice & completion & H2 & H3 & H4 & H5).
    eexists _, validated, choice, completion. by split.
Qed.

Lemma X4_witness :
  exists r,
    GroqStream.construct_call_response sample_classes
      groq_stream_with_tool_calls = inr r
    /\ message_of r
       = Some (ChatCompletionMessage.mk (VStr "assistant") VNone
                 (VToolCalls [second_call; first_call])).
Proof.
  destruct (X4_constructed_message_round_trip _ _ _ _ sample_classes
              groq_stream_with_tool_calls (Some [second_call; first_call])
              None eq_refl) as [_ H].
  eexists. split.
  - apply H. eexists _, _, _.
    split; [vm_compute; reflexivity |].
    split; [vm_compute; reflexivity |]. split; reflexivity.
  - vm_compute. reflexivity.
Defined.

(** X5: a message made by [_construct_message_param] always has the keys
    [role] and [content], and has the key [tool_calls] exactly when it is
    given a non-empty list of tool calls: an empty list is never stored. *)
Theorem X5_constructed_message_keys (tool_calls : option (list ToolCall.t))
    (content : option string) :
  dom (GroqStream._construct_message_param tool_calls content)
  = (if decide (default [] tool_calls = [])
     then {[ "role"; "content" ]}
     else {[ "role"; "content"; "tool_calls" ]} : gset string)
  /\ GroqStream._construct_message_param tool_calls content !! "tool_calls"
     <> Some (VToolCalls []).
Proof.
  unfold GroqStream._construct_message_param.
  destruct tool_calls as [[|call calls]|]; simpl.
  - split; [| by rewrite !lookup_insert_ne, lookup_singleton_ne].
    rewrite dom_insert_L, dom_singleton_L. set_solver.
  - split; [| by rewrite lookup_insert_eq].
    rewrite !dom_insert_L, dom_singleton_L. set_solver.
  - split; [| by rewrite !lookup_insert_ne, lookup_singleton_ne].
    rewrite dom_insert_L, dom_singleton_L. set_solver.
Qed.

Lemma next_invariants {O} (self : BaseStream.t O) (fr : BaseStream.frame) :
  let '(self', fr', out) := BaseStream.next self fr in
  BaseStream.message_param_type self' = BaseStream.message_param_type self
  /\ BaseStream.output_parser self' = BaseStream.output_parser self
  /\ (is_Some (BaseStream.cost self) -> is_Some (BaseStream.cost self'))
  /\ (out <> BaseStream.StopIteration ->
      BaseStream.message_param self' = BaseStream.message_param self)
  /\ (forall item tool, out = BaseStream.Yield item tool -> tool = None).
Proof.
  assert (Hresume : forall content,
    let '(self', fr', out) := BaseStream.resume self content in
    BaseStream.message_param_type self' = BaseStream.message_param_type self
    /\ BaseStream.output_parser self' = BaseStream.output_parser self
    /\ (is_Some (BaseStream.cost self) -> is_Some (BaseStream.cost self'))
    /\ (out <> BaseStream.StopIteration ->
        BaseStream.message_param self' = BaseStream.message_param self)
    /\ (forall item tool, out = BaseStream.Yield item tool -> tool = None)).
  { intros content. unfold BaseStream.resume.
    destruct (BaseStream.stream self) as [|e|chunk rest].
    - unfold BaseStream.assemble. cbn. repeat split; try done.
    - cbn. repeat split; try done.
    - rewrite loop_body_after.
      assert (Hcost : is_Some (BaseStream.cost self) ->
                is_Some (BaseStream.cost
                           (BaseStream.after self [chunk] rest))).
      { cbn. unfold latest_cost. cbn. by destruct (Chunk.cost chunk). }
      destruct (BaseStream.parsed self chunk) as [e|item].
      + repeat split; try done.
      + repeat split; try done.
        intros item' tool H. by injection H as _ <-. }
  destruct fr as [|content|]; cbn [BaseStream.next];
    [apply Hresume | apply Hresume |].
  repeat split; done.
Qed.

(** X6: whatever the underlying stream and the output parser do and however
    many times [next] is called, the generator of [__iter__] never changes
    [message_param_type] or [output_parser], never yields a tool, yields at
    most one item for each call, and never takes a cost away: once the
    stream has a cost it keeps having one.  As long as no call has ended
    with [StopIteration], [message_param] is what it was. *)
Theorem X6_iteration_invariants (O : Type) (k : nat) :
  forall (self : BaseStream.t O) (fr : BaseStream.frame),
    exists self' fr' items last,
      BaseStream.pull k self fr = (self', fr', items, last)
      /\ BaseStream.message_param_type self'
         = BaseStream.message_param_type self
      /\ BaseStream.output_parser self' = BaseStream.output_parser self
      /\ (is_Some (BaseStream.cost self) -> is_Some (BaseStream.cost self'))
      /\ (last <> Some BaseStream.StopIteration ->
          BaseStream.message_param self' = BaseStream.message_param self)
      /\ length items <= k
      /\ Forall (fun pair => pair.2 = None) items.
Proof.
  induction k as [|k IH]; intros self fr.
  - eexists _, _, _, _. split; [reflexivity |].
    repeat split; done.
  - cbn [BaseStream.pull].
    pose proof (next_invariants self fr) as Hn.
    destruct (BaseStream.next self fr) as [[self1 fr1] out].
    destruct Hn as (Ht & Hp & Hc & Hm & Htool).
    destruct out as [item tool| |e].
    + destruct (IH self1 fr1)
        as (self' & fr' & items & last & Hpull & Ht' & Hp' & Hc' & Hm' & Hl & Hf).
      rewrite Hpull. eexists _, _, _, _. split; [reflexivity |].
      split; [congruence |]. split; [congruence |].
      split; [tauto |].
      split; [intros Hlast; rewrite Hm' by done; by apply Hm |].
      split; [simpl; lia |].
      constructor; [by apply (Htool item) | done].
    + eexists _, _, _, _. split; [reflexivity |].
      do 4 (split; [done |]).
      split; [simpl; lia | constructor].
    + eexists _, _, _, _. split; [reflexivity |].
      do 3 (split; [done |]).
      split; [intros _; by apply Hm |].
      split; [simpl; lia | constructor].
Qed.
(** ** [OpenAIChat]: [create] *)

Section OpenAIChatCreate.
Context {Raw : Type}.
Variable convert_tools_list_to_openai_tools :
  option (list tool_spec) -> option (list OpenAITool.t).
Variable patch_openai_kwargs :
  gmap string kwarg -> prompt_arg -> option (list OpenAITool.t) ->
  Exc.t + gmap string kwarg.
Variable api : nat -> Request.t -> Exc.t + Raw.
Variable now : nat -> float.
Variable client_create : string.

Local Abbreviation create :=
  (OpenAIChat.create convert_tools_list_to_openai_tools patch_openai_kwargs
     api now client_create).

Local Open Scope list_scope.

(** The model that [self] has after the first lines of [create]. *)
Lemma resolve_model self w prompt tools :
  OpenAIChat.model (OpenAIChat.resolve self w prompt tools).1.1
  = match prompt with
    | IsPrompt p => CallParams.model (Prompt._call_params p)
    | _ => OpenAIChat.model self
    end.
Proof. unfold OpenAIChat.resolve. by destruct prompt. Qed.

Lemma resolve_world self w prompt tools :
  World.requests (OpenAIChat.resolve self w prompt tools).1.2
  = World.requests w
  /\ World.infos (OpenAIChat.resolve self w prompt tools).1.2 = World.infos w
  /\ World.clock_reads (OpenAIChat.resolve self w prompt tools).1.2
     = World.clock_reads w.
Proof.
  unfold OpenAIChat.resolve.
  destruct tools, prompt; cbn; try case_bool_decide; done.
Qed.

Lemma create_spec self w prompt tools kwargs :
  exists self' w' result new,
    create self w prompt tools kwargs = (self', w', result)
    /\ OpenAIChat.model self'
       = match prompt with
         | IsPrompt p => CallParams.model (Prompt._call_params p)
         | _ => OpenAIChat.model self
         end
    /\ World.requests w' = World.requests w ++ new
    /\ length new <= 1
    /\ Forall (fun request =>
                 Request.stream request = false
                 /\ Request.model request = OpenAIChat.model self') new
    /\ ((exists completion, result = inr completion) -> length new = 1)
    /\ World.infos w' = World.infos w.
Proof.
  unfold OpenAIChat.create.
  pose proof (resolve_model self w prompt tools) as Hmodel.
  pose proof (resolve_world self w prompt tools) as (Hreq & Hinfo & _).
  destruct (OpenAIChat.resolve self w prompt tools) as [[self1 w1] tools1].
  cbn [fst snd] in Hmodel, Hreq, Hinfo.
  unfold OpenAIChat.timestamp_ms.
  destruct (patch_openai_kwargs kwargs prompt _) as [e|kwargs1].
  { exists self1, (World.tick w1), (inl e), [].
    split; [reflexivity |]. split; [exact Hmodel |].
    split; [by rewrite app_nil_r |]. split; [simpl; lia |].
    split; [constructor |].
    split; [by intros [c Hc] | done]. }
  destruct (duplicate_keyword _ kwargs1) as [keyword|].
  { exists self1, (World.tick w1),
      (inl (multiple_values client_create keyword)), [].
    split; [reflexivity |]. split; [exact Hmodel |].
    split; [by rewrite app_nil_r |]. split; [simpl; lia |].
    split; [constructor |].
    split; [by intros [c Hc] | done]. }
  cbn [World.tick World.requests].
  destruct (api _ _) as [e|raw].
  - eexists self1, _, (inl e), [_].
    split; [reflexivity |]. split; [exact Hmodel |].
    split; [cbn; by rewrite Hreq |]. split; [simpl; lia |].
    split; [by repeat constructor |].
    split; [done | done].
  - eexists self1, _, (inr _), [_].
    split; [reflexivity |]. split; [exact Hmodel |].
    split; [cbn; by rewrite Hreq |]. split; [simpl; lia |].
    split; [by repeat constructor |].
    split; [done | done].
Qed.

(** The keyword that [duplicate_keyword] finds is one of the keywords of
    the call and a key of the keyword arguments. *)
Lemma duplicate_keyword_Some keywords (kwargs : gmap string kwarg) keyword :
  duplicate_keyword keywords kwargs = Some keyword ->
  keyword ∈ keywords /\ is_Some (kwargs !! keyword).
Proof.
  unfold duplicate_keyword. intros H.
  apply head_Some_elem_of in H. by apply list_elem_of_filter in H as [? ?].
Qed.

Lemma duplicate_keyword_is_Some keywords (kwargs : gmap string kwarg) keyword :
  keyword ∈ keywords ->
  is_Some (kwargs !! keyword) ->
  is_Some (duplicate_keyword keywords kwargs).
Proof.
  intros Hin Hk. unfold duplicate_keyword.
  assert (H : keyword ∈ filter (fun keyword => is_Some (kwargs !! keyword))
                         keywords)
    by (by apply list_elem_of_filter).
  destruct (filter _ keywords) as [|first others]; [| by eexists].
  by apply elem_of_nil in H.
Qed.



Lemma warnings_differ :
  OpenAIChat.tools_deprecated <> OpenAIChat.model_ignored.
Proof.
  intros H. apply (f_equal Warning.message) in H.
  vm_compute in H. discriminate H.
Qed.

(** The warnings of the first lines of [create]. *)
Lemma resolve_warnings self w prompt tools :
  World.warnings (OpenAIChat.resolve self w prompt tools).1.2
  = World.warnings w
    ++ (match tools with
        | Some _ => [OpenAIChat.tools_deprecated]
        | None => []
        end)
    ++ (match prompt with
        | IsPrompt _ =>
            if bool_decide (OpenAIChat.model self <> "gpt-3.5-turbo")
            then [OpenAIChat.model_ignored]
            else []
        | _ => []
        end).
Proof.
  unfold OpenAIChat.resolve.
  destruct tools, prompt; cbn; try case_bool_decide; cbn;
    by rewrite <- ?app_assoc, ?app_nil_r.
Qed.

Lemma create_warnings self w prompt tools kwargs :
  World.warnings (create self w prompt tools kwargs).1.2
  = World.warnings (OpenAIChat.resolve self w prompt tools).1.2.
Proof.
  unfold OpenAIChat.create.
  destruct (OpenAIChat.resolve self w prompt tools) as [[self1 w1] tools1].
  unfold OpenAIChat.timestamp_ms.
  destruct (patch_openai_kwargs kwargs prompt _) as [e|kwargs1]; [done |].
  destruct (duplicate_keyword _ kwargs1) as [keyword|]; [done |].
  by destruct (api _ _).
Qed.


(** X10: when the [Prompt] has tools of its own, the tools given as the
    argument [tools] are not used: any two lists give the same requests, the
    same warnings and the same result. *)
Theorem X10_prompt_tools_take_precedence self w p tools1 tools2 kwargs
    prompt_tools :
  CallParams.tools (Prompt._call_params p) = Some prompt_tools ->
  create self w (IsPrompt p) (Some tools1) kwargs
  = create self w (IsPrompt p) (Some tools2) kwargs.
Proof.
  intros Hp. unfold OpenAIChat.create, OpenAIChat.resolve.
  by rewrite Hp.
Qed.

End OpenAIChatCreate.
(** ** [OpenAIChat]: [extract] *)

Section OpenAIChatExtract.
Context {Raw Schema ToolInstance Model : Type}.
Variable convert_tools_list_to_openai_tools :
  option (list tool_spec) -> option (list OpenAITool.t).
Variable patch_openai_kwargs :
  gmap string kwarg -> prompt_arg -> option (list OpenAITool.t) ->
  Exc.t + gmap string kwarg.
Variable convert_base_model_to_openai_tool : Schema -> OpenAITool.t.
Variable api : nat -> Request.t -> Exc.t + Raw.
Variable now : nat -> float.
Variable tool : OpenAIChatCompletion.t Raw -> Exc.t + option ToolInstance.
Variable model_dump : ToolInstance -> gmap string kwarg.
Variable instantiate : Schema -> gmap string kwarg -> Exc.t + Model.
Variable client_create : string.
Variable self_create : string.

Local Abbreviation create :=
  (OpenAIChat.create convert_tools_list_to_openai_tools patch_openai_kwargs
     api now client_create).
Local Abbreviation extracted :=
  (OpenAIChat.extracted tool model_dump instantiate).
Local Abbreviation extract :=
  (OpenAIChat.extract convert_tools_list_to_openai_tools
     patch_openai_kwargs convert_base_model_to_openai_tool api now tool
     model_dump instantiate client_create self_create).

(** The call of [create] that an attempt of [extract] makes. *)
Local Abbreviation attempt self w schema prompt kwargs :=
  (create self w prompt
     (Some [ToolClass (convert_base_model_to_openai_tool schema)])
     (<["tool_choice" :=
          OpenAIChat.tool_choice (convert_base_model_to_openai_tool schema)]>
        kwargs)).

(** The keyword arguments of the request of an attempt that is made with the
    keyword arguments [kwargs]: what [patch_openai_kwargs] makes of them. *)
Local Abbreviation patched self w schema prompt kwargs :=
  (patch_openai_kwargs
     (<["tool_choice" :=
          OpenAIChat.tool_choice (convert_base_model_to_openai_tool schema)]>
        kwargs)
     prompt
     (convert_tools_list_to_openai_tools
        (OpenAIChat.resolve self w prompt
           (Some [ToolClass (convert_base_model_to_openai_tool schema)])).2)).

(** An error that [extract] catches. *)
Local Abbreviation caught e :=
  (Exc.isinstance e "AttributeError" || Exc.isinstance e "ValidationError").

Local Open Scope list_scope.
Local Open Scope Z_scope.

(** One call of [extract], with the retry as a call one level deeper. *)
Lemma extract_unfold depth self w schema prompt retries kwargs :
  extract depth self w schema prompt retries kwargs
  = match duplicate_keyword ["tools"; "tool_choice"] kwargs with
    | Some keyword => (self, w, inl (multiple_values self_create keyword))
    | None =>
        match attempt self w schema prompt kwargs with
        | (self, w, inl e) => (self, w, inl e)
        | (self, w, inr completion) =>
            match extracted schema completion with
            | inr result => (self, w, inr result)
            | inl e =>
                if caught e
                then
                  if 0 <? retries
                  then
                    match depth with
                    | S depth =>
                        extract depth self
                          (World.info w
                             ("Retrying due to exception: " +:+ Exc.message e))
                          schema prompt (retries - 1) ∅
                    | O =>
                        (self,
                         World.info w
                           ("Retrying due to exception: " +:+ Exc.message e),
                         inl recursion_error)
                    end
                  else (self, w, inl e)
                else (self, w, inl e)
            end
        end
    end.
Proof. by destruct depth. Qed.

(** The tools that [create] uses do not depend on the object. *)
Lemma resolve_tools self w self0 w0 prompt tools :
  (OpenAIChat.resolve self w prompt tools).2
  = (OpenAIChat.resolve self0 w0 prompt tools).2.
Proof. unfold OpenAIChat.resolve. by destruct prompt. Qed.

(** X11: [extract] retries only the validation of the result, and only when
    [retries] is positive.  An error of [create] (of the API call, of
    [patch_openai_kwargs]) is passed on at once, also when it is an
    [AttributeError] or a [ValidationError]; so is an error of the validation
    that is of another class, and any error when [retries] is not
    positive.  Nothing is logged in these cases. *)
Theorem X11_what_extract_does_not_retry depth self w schema prompt retries
    kwargs :
  duplicate_keyword ["tools"; "tool_choice"] kwargs = None ->
  (forall self1 w1 e,
     attempt self w schema prompt kwargs = (self1, w1, inl e) ->
     extract depth self w schema prompt retries kwargs = (self1, w1, inl e))
  /\ (forall self1 w1 completion e,
        attempt self w schema prompt kwargs = (self1, w1, inr completion) ->
        extracted schema completion = inl e ->
        caught e = false \/ retries <= 0 ->
        extract depth self w schema prompt retries kwargs
        = (self1, w1, inl e))
  /\ (forall self1 w1 completion result,
        attempt self w schema prompt kwargs = (self1, w1, inr completion) ->
        extracted schema completion = inr result ->
        extract depth self w schema prompt retries kwargs
        = (self1, w1, inr result)).
Proof.
  intros Hdup. rewrite extract_unfold, Hdup.
  split; [| split].
  - intros self1 w1 e Hc. by rewrite Hc.
  - intros self1 w1 completion e Hc He Hno. rewrite Hc, He.
    destruct Hno as [-> | Hle]; [done |].
    assert (Hz : (0 <? retries) = false) by (apply Z.ltb_ge; lia).
    rewrite Hz. by destruct (caught e).
  - intros self1 w1 completion result Hc He. by rewrite Hc, He.
Qed.

(** The request of a call of [create] has the keyword arguments that
    [patch_openai_kwargs] made. *)
Lemma create_request self w prompt tools kwargs self' w' result new :
  create self w prompt tools kwargs = (self', w', result) ->
  World.requests w' = World.requests w ++ new ->
  Forall (fun request =>
            forall self0 w0,
              patch_openai_kwargs kwargs prompt
                (convert_tools_list_to_openai_tools
                   (OpenAIChat.resolve self0 w0 prompt tools).2)
              = inr (Request.kwargs request)) new.
Proof.
  unfold OpenAIChat.create. intros Hc Hreq.
  pose proof (resolve_world self w prompt tools) as (Hw & _).
  pose proof (fun self0 w0 => resolve_tools self w self0 w0 prompt tools)
    as Htools.
  destruct (OpenAIChat.resolve self w prompt tools) as [[self1 w1] tools1].
  cbn [fst snd] in Hw, Htools. unfold OpenAIChat.timestamp_ms in Hc.
  destruct (patch_openai_kwargs kwargs prompt _) as [e|kwargs1] eqn:Hp.
  { injection Hc as <- <- <-. cbn in Hreq. rewrite Hw in Hreq.
    assert (new = []) as ->; [| constructor].
    apply (app_inv_head (World.requests w)). by rewrite <- Hreq, app_nil_r. }
  destruct (duplicate_keyword _ kwargs1) as [keyword|].
  { injection Hc as <- <- <-. cbn in Hreq. rewrite Hw in Hreq.
    assert (new = []) as ->; [| constructor].
    apply (app_inv_head (World.requests w)). by rewrite <- Hreq, app_nil_r. }
  cbn [World.tick World.requests] in Hc.
  assert (Hnew : new = [Request.mk (OpenAIChat.model self1) false kwargs1]).
  { destruct (api _ _); injection Hc as <- <- <-; cbn in Hreq;
      rewrite Hw in Hreq; by apply app_inv_head in Hreq. }
  rewrite Hnew. constructor; [| constructor].
  intros self0 w0. cbn. by rewrite <- Htools.
Qed.

(** The requests of a call of [extract]: the first has the keyword arguments
    of the caller, as patched, and the later ones those of a call without
    keyword arguments. *)
Lemma extract_requests (depth : nat) :
  forall self w schema prompt retries kwargs,
  exists self' w' result new,
    extract depth self w schema prompt retries kwargs = (self', w', result)
    /\ World.requests w' = World.requests w ++ new
    /\ match new with
       | [] => True
       | first :: later =>
           (forall self0 w0,
              patched self0 w0 schema prompt kwargs
              = inr (Request.kwargs first))
           /\ Forall (fun request =>
                        forall self0 w0,
                          patched self0 w0 schema prompt ∅
                          = inr (Request.kwargs request)) later
       end.
Proof.
  induction depth as [|depth IH]; intros self w schema prompt retries kwargs.
  all: rewrite extract_unfold.
  all: destruct (duplicate_keyword ["tools"; "tool_choice"] kwargs)
         as [keyword|];
       [ exists self, w, (inl (multiple_values self_create keyword)), [];
         by rewrite app_nil_r | ].
  all: destruct (create_spec convert_tools_list_to_openai_tools
                   patch_openai_kwargs api now client_create self w prompt
                   (Some [ToolClass (convert_base_model_to_openai_tool schema)])
                   (<["tool_choice" :=
                        OpenAIChat.tool_choice
                          (convert_base_model_to_openai_tool schema)]> kwargs))
         as (self1 & w1 & r1 & new1 & Hc & _ & Hreq & Hlen & _ & Hone & _).
  all: pose proof (create_request _ _ _ _ _ _ _ _ _ Hc Hreq) as Hk.
  all: rewrite Hc.
  all: assert (Hshape : match new1 with
                        | [] => True
                        | first :: later =>
                            (forall self0 w0,
                               patched self0 w0 schema prompt kwargs
                               = inr (Request.kwargs first))
                            /\ Forall (fun request =>
                                         forall self0 w0,
                                           patched self0 w0 schema prompt ∅
                                           = inr (Request.kwargs request))
                                 later
                        end)
         by (destruct new1 as [|first [|second later]];
             [done | split; [by inversion Hk | constructor]
             | simpl in Hlen; lia]).
  all: destruct r1 as [e|completion];
       [ by exists self1, w1, (inl e), new1 | ].
  all: destruct (extracted schema completion) as [e|value];
       [ | by exists self1, w1, (inr value), new1 ].
  all: destruct (caught e); [ | by exists self1, w1, (inl e), new1 ].
  all: destruct (0 <? retries); [ | by exists self1, w1, (inl e), new1 ].
  - by eexists self1, _, (inl recursion_error), new1.
  - destruct (IH self1
                (World.info w1
                   ("Retrying due to exception: " +:+ Exc.message e))
                schema prompt (retries - 1) ∅)
      as (self' & w' & result & new2 & He & Hreq2 & Hshape2).
    rewrite He. exists self', w', result, (new1 ++ new2).
    split; [reflexivity |].
    cbn [World.info World.requests] in Hreq2.
    split; [by rewrite Hreq2, Hreq, app_assoc |].
    assert (Hall2 : Forall (fun request =>
                              forall self0 w0,
                                patched self0 w0 schema prompt ∅
                                = inr (Request.kwargs request)) new2).
    { destruct new2 as [|first later]; [constructor |].
      destruct Hshape2 as [Hf Hl]. by constructor. }
    assert (Hlen1 : length new1 = 1%nat) by (apply Hone; by eexists).
    destruct new1 as [|first [|second later]]; [done | | done].
    destruct Hshape as [Hf _]. by split.
Qed.

(** X12: the keyword arguments of the caller reach the first attempt only.
    Of the requests that a call of [extract] sends, the first has the
    keyword arguments that [patch_openai_kwargs] makes of those of the
    caller (with [tool_choice]); every later one, sent by a retry, has those
    that it makes of [tool_choice] alone. *)
Theorem X12_retry_drops_keyword_arguments depth self w schema prompt retries
    kwargs self' w' result first later :
  extract depth self w schema prompt retries kwargs = (self', w', result) ->
  World.requests w' = World.requests w ++ first :: later ->
  (forall self0 w0,
     patched self0 w0 schema prompt kwargs = inr (Request.kwargs first))
  /\ Forall (fun request =>
               forall self0 w0,
                 patched self0 w0 schema prompt ∅
                 = inr (Request.kwargs request)) later.
Proof.
  intros He Hreq.
  destruct (extract_requests depth self w schema prompt retries kwargs)
    as (self1 & w1 & result1 & new & He1 & Hreq1 & Hshape).
  rewrite He in He1. injection He1 as <- <- <-.
  rewrite Hreq in Hreq1. apply app_inv_head in Hreq1 as <-.
  exact Hshape.
Qed.

Lemma extract_effects (depth : nat) :
  forall self w schema prompt retries kwargs,
  exists self' w' result new_requests new_infos,
    extract depth self w schema prompt retries kwargs = (self', w', result)
    /\ World.requests w' = World.requests w ++ new_requests
    /\ World.infos w' = World.infos w ++ new_infos
    /\ (length new_infos <= Z.to_nat retries)%nat
    /\ (length new_infos <= S depth)%nat
    /\ (length new_requests <= S (length new_infos))%nat
    /\ (length new_requests <= S depth)%nat
    /\ Forall (fun request => Request.stream request = false) new_requests
    /\ ((exists value, result = inr value) ->
        length new_requests = S (length new_infos)).
Proof.
  induction depth as [|depth IH]; intros self w schema prompt retries kwargs.
  all: rewrite extract_unfold.
  all: destruct (duplicate_keyword ["tools"; "tool_choice"] kwargs)
         as [keyword|];
       [ exists self, w, (inl (multiple_values self_create keyword)), [], [];
         rewrite !app_nil_r; repeat split; try done; try (simpl; lia);
         by intros [value Hv] | ].
  all: destruct (create_spec convert_tools_list_to_openai_tools
                   patch_openai_kwargs api now client_create self w prompt
                   (Some [ToolClass (convert_base_model_to_openai_tool schema)])
                   (<["tool_choice" :=
                        OpenAIChat.tool_choice
                          (convert_base_model_to_openai_tool schema)]> kwargs))
         as (self1 & w1 & r1 & new1 & Hc & _ & Hreq & Hlen & Hall & Hone & Hinfo).
  all: rewrite Hc.
  all: assert (Hstream : Forall (fun request => Request.stream request = false)
                           new1)
         by (eapply Forall_impl; [exact Hall | by intros request [H _]]).
  all: destruct r1 as [e|completion];
       [ exists self1, w1, (inl e), new1, [];
         rewrite app_nil_r; repeat split; try done; try (simpl; lia);
         by intros [value Hv] | ].
  all: assert (Hlen1 : length new1 = 1%nat) by (apply Hone; by eexists).
  all: destruct (extracted schema completion) as [e|value];
       [ | exists self1, w1, (inr value), new1, [];
           rewrite app_nil_r; repeat split; try done; simpl; lia ].
  all: destruct (caught e);
       [ | exists self1, w1, (inl e), new1, [];
           rewrite app_nil_r; repeat split; try done; try (simpl; lia);
           by intros [value Hv] ].
  all: destruct (0 <? retries) eqn:Hpos;
       [ apply Z.ltb_lt in Hpos
       | exists self1, w1, (inl e), new1, [];
         rewrite app_nil_r; repeat split; try done; try (simpl; lia);
         by intros [value Hv] ].
  - eexists self1, _, (inl recursion_error), new1, [_].
    split; [reflexivity |]. cbn [World.info World.requests World.infos].
    rewrite Hinfo. repeat split; try done; try (simpl; lia).
    by intros [value Hv].
  - destruct (IH self1
                (World.info w1
                   ("Retrying due to exception: " +:+ Exc.message e))
                schema prompt (retries - 1) ∅)
      as (self' & w' & result & new2 & infos2 & He & Hreq2 & Hinfo2 & Hb1
          & Hd1 & Hb2 & Hd2 & Hs2 & Hok).
    rewrite He.
    exists self', w', result, (new1 ++ new2),
      (("Retrying due to exception: " +:+ Exc.message e) :: infos2)%list.
    split; [reflexivity |].
    cbn [World.info World.requests World.infos] in Hreq2, Hinfo2.
    split; [by rewrite Hreq2, Hreq, app_assoc |].
    split; [by rewrite Hinfo2, Hinfo, <- app_assoc |].
    split; [simpl; lia |].
    split; [simpl; lia |].
    split; [rewrite length_app; simpl; lia |].
    split; [rewrite length_app; simpl; lia |].
    split; [by apply Forall_app |].
    intros Hv. rewrite length_app. simpl. specialize (Hok Hv). lia.
Qed.

(** X13: [extract] sends at most [retries + 1] requests to the API (one when
    [retries] is not positive), all with [stream=False], and logs at most
    [retries] retries, whatever the recursion limit allows; when it returns a
    result it has sent exactly one request more than it has logged
    retries. *)
Theorem X13_extract_attempts_are_bounded depth self w schema prompt retries
    kwargs :
  exists self' w' result new_requests new_infos,
    extract depth self w schema prompt retries kwargs = (self', w', result)
    /\ World.requests w' = World.requests w ++ new_requests
    /\ World.infos w' = World.infos w ++ new_infos
    /\ (length new_infos <= Z.to_nat retries)%nat
    /\ (length new_requests <= S (Z.to_nat retries))%nat
    /\ (length new_requests <= S depth)%nat
    /\ Forall (fun request => Request.stream request = false) new_requests
    /\ ((exists value, result = inr value) ->
        length new_requests = S (length new_infos)).
Proof.
  destruct (extract_effects depth self w schema prompt retries kwargs)
    as (self' & w' & result & new_requests & new_infos & He & Hreq & Hinfo
        & Hb1 & Hd1 & Hb2 & Hd2 & Hs & Hok).
  exists self', w', result, new_requests, new_infos.
  split; [exact He |]. repeat split; try done. lia.
Qed.

(** When [patch_openai_kwargs] succeeds with keyword arguments that hold
    neither [model] nor [stream] and the API answers, [create] returns the
    completion made from this answer. *)
Lemma create_returns self w prompt tools kwargs kwargs' :
  patch_openai_kwargs kwargs prompt
    (convert_tools_list_to_openai_tools
       (OpenAIChat.resolve self w prompt tools).2) = inr kwargs' ->
  duplicate_keyword ["model"; "stream"] kwargs' = None ->
  (exists raw,
     api (length (World.requests w))
       (Request.mk (OpenAIChat.model
                      (OpenAIChat.resolve self w prompt tools).1.1)
          false kwargs') = inr raw) ->
  exists self' w' completion,
    create self w prompt tools kwargs = (self', w', inr completion)
    /\ World.requests w'
       = World.requests w
         ++ [Request.mk (OpenAIChat.model
                           (OpenAIChat.resolve self w prompt tools).1.1)
               false kwargs']
    /\ api (length (World.requests w))
         (Request.mk (OpenAIChat.model
                        (OpenAIChat.resolve self w prompt tools).1.1)
            false kwargs')
       = inr (OpenAIChatCompletion.completion completion)
    /\ World.infos w' = World.infos w.
Proof.
  intros Hpatch Hdup [raw Hapi]. unfold OpenAIChat.create.
  pose proof (resolve_world self w prompt tools) as (Hreq & Hinfo & _).
  destruct (OpenAIChat.resolve self w prompt tools) as [[self1 w1] tools1].
  cbn [fst snd] in *. unfold OpenAIChat.timestamp_ms.
  rewrite Hpatch, Hdup. cbn [World.tick World.requests].
  rewrite Hreq, Hapi.
  eexists _, _, _. split; [reflexivity |].
  cbn. by rewrite Hreq, Hinfo.
Qed.

Section AllFail.
Variables (schema : Schema) (prompt : prompt_arg) (kwargs : gmap string kwarg).

(** [patch_openai_kwargs] succeeds on the keyword arguments of the caller
    and on none, the API always answers, and the validation of every
    completion fails with an error that [extract] catches. *)
Hypothesis Hpatch : forall self w kwargs0,
  kwargs0 = kwargs \/ kwargs0 = ∅ ->
  exists kwargs',
    patched self w schema prompt kwargs0 = inr kwargs'
    /\ duplicate_keyword ["model"; "stream"] kwargs' = None.
Hypothesis Hapi : forall n request, exists raw, api n request = inr raw.
Hypothesis Hfail : forall completion,
  exists e, extracted schema completion = inl e /\ caught e = true.

(** One attempt under these hypotheses. *)
Lemma failed_attempt self w kwargs0 :
  kwargs0 = kwargs \/ kwargs0 = ∅ ->
  exists self1 w1 completion e request,
    attempt self w schema prompt kwargs0 = (self1, w1, inr completion)
    /\ World.requests w1 = World.requests w ++ [request]
    /\ World.infos w1 = World.infos w
    /\ api (length (World.requests w)) request
       = inr (OpenAIChatCompletion.completion completion)
    /\ extracted schema completion = inl e
    /\ caught e = true.
Proof.
  intros Hk.
  destruct (Hpatch self w kwargs0 Hk) as (kwargs' & Hp & Hd).
  destruct (create_returns self w prompt _ _ kwargs' Hp Hd (Hapi _ _))
    as (self1 & w1 & completion & Hc & Hreq & Hraw & Hinfo).
  destruct (Hfail completion) as (e & He & Hcaught).
  by eexists self1, w1, completion, e, _.
Qed.

(** With enough room under the recursion limit, [extract] makes
    [n + 1] attempts when [retries] is [n]. *)
Lemma extract_all_fail (n : nat) :
  forall depth self w kwargs0,
    (n <= depth)%nat ->
    kwargs0 = kwargs \/ kwargs0 = ∅ ->
    duplicate_keyword ["tools"; "tool_choice"] kwargs0 = None ->
    exists self' w' e completion request,
      extract depth self w schema prompt (Z.of_nat n) kwargs0
      = (self', w', inl e)
      /\ length (World.requests w') = (length (World.requests w) + n + 1)%nat
      /\ length (World.infos w') = (length (World.infos w) + n)%nat
      /\ caught e = true
      /\ last (World.requests w') = Some request
      /\ api (pred (length (World.requests w'))) request
         = inr (OpenAIChatCompletion.completion completion)
      /\ extracted schema completion = inl e.
Proof.
  induction n as [|n IH]; intros depth self w kwargs0 Hdepth Hk Hdup.
  all: rewrite extract_unfold, Hdup.
  all: destruct (failed_attempt self w kwargs0 Hk)
         as (self1 & w1 & completion & e & request & Hc & Hreq & Hinfo & Hraw
             & He & Hcaught).
  all: rewrite Hc, He, Hcaught.
  - cbn. exists self1, w1, e, completion, request.
    split; [reflexivity |].
    rewrite Hreq, Hinfo, length_app, last_snoc. cbn.
    split; [lia |]. split; [lia |]. split; [done |]. split; [done |].
    split; [| done].
    by replace (pred (length (World.requests w) + 1))
      with (length (World.requests w)) by lia.
  - assert (Hpos : (0 <? Z.of_nat (S n)) = true) by (apply Z.ltb_lt; lia).
    rewrite Hpos.
    destruct depth as [|depth]; [lia |].
    replace (Z.of_nat (S n) - 1) with (Z.of_nat n) by lia.
    destruct (IH depth self1
                (World.info w1
                   ("Retrying due to exception: " +:+ Exc.message e)) ∅)
      as (self' & w' & e' & completion' & request' & Hx & Hr & Hi & Hcaught'
          & Hlast & Hraw' & He'); [lia | by right | done |].
    exists self', w', e', completion', request'.
    split; [exact Hx |].
    cbn [World.info World.requests World.infos] in Hr, Hi.
    rewrite Hreq, length_app in Hr. rewrite Hinfo in Hi.
    cbn in Hr, Hi. rewrite length_app in Hi. cbn in Hi.
    split; [lia |]. split; [lia |]. done.
Qed.

(** With more retries than the recursion limit leaves room for, [extract]
    ends with [RecursionError]. *)
Lemma extract_recursion_error (depth : nat) :
  forall self w retries kwargs0,
    Z.of_nat depth < retries ->
    kwargs0 = kwargs \/ kwargs0 = ∅ ->
    duplicate_keyword ["tools"; "tool_choice"] kwargs0 = None ->
    exists self' w',
      extract depth self w schema prompt retries kwargs0
      = (self', w', inl recursion_error)
      /\ length (World.requests w')
         = (length (World.requests w) + depth + 1)%nat.
Proof.
  induction depth as [|depth IH]; intros self w retries kwargs0 Hlt Hk Hdup.
  all: rewrite extract_unfold, Hdup.
  all: destruct (failed_attempt self w kwargs0 Hk)
         as (self1 & w1 & completion & e & request & Hc & Hreq & Hinfo & Hraw
             & He & Hcaught).
  all: rewrite Hc, He, Hcaught.
  all: assert (Hpos : (0 <? retries) = true) by (apply Z.ltb_lt; lia).
  all: rewrite Hpos.
  - eexists self1, _. split; [reflexivity |].
    cbn [World.info World.requests]. rewrite Hreq, length_app. cbn. lia.
  - destruct (IH self1
                (World.info w1
                   ("Retrying due to exception: " +:+ Exc.message e))
                (retries - 1) ∅)
      as (self' & w' & Hx & Hr); [lia | by right | done |].
    exists self', w'. split; [exact Hx |].
    cbn [World.info World.requests] in Hr.
    rewrite Hreq, length_app in Hr. cbn in Hr. lia.
Qed.

End AllFail.


End OpenAIChatExtract.

(** ** [OpenAIChat]: [stream] *)

Section OpenAIChatStream.
Context {Raw : Type}.
Variable convert_tools_list_to_openai_tools :
  option (list tool_spec) -> option (list OpenAITool.t).
Variable patch_openai_kwargs :
  gmap string kwarg -> prompt_arg -> option (list OpenAITool.t) ->
  Exc.t + gmap string kwarg.
Variable api_stream : nat -> Request.t -> Exc.t + RawStream.t Raw.
Variable client_create : string.

Local Abbreviation stream_next :=
  (OpenAIChat.stream_next convert_tools_list_to_openai_tools
     patch_openai_kwargs api_stream client_create).
Local Abbreviation stream_pull :=
  (OpenAIChat.stream_pull convert_tools_list_to_openai_tools
     patch_openai_kwargs api_stream client_create).

Local Open Scope list_scope.

(** How the generator of [stream] ends on the answer [answer]. *)
Local Abbreviation ending answer :=
  (match RawStream.failure answer with
   | Some e => OpenAIChat.Raise e
   | None => OpenAIChat.StopIteration
   end).

Lemma stream_pull_yield k self w fr self' w' fr' item :
  stream_next self w fr = (self', w', fr', OpenAIChat.Yield item) ->
  stream_pull (S k) self w fr
  = (let '(self'', w'', fr'', items, last) := stream_pull k self' w' fr' in
     (self'', w'', fr'', item :: items, last)).
Proof. intros H. cbn [OpenAIChat.stream_pull]. by rewrite H. Qed.

Lemma stream_pull_iterating (chunks : list Raw) :
  forall self w failure openai_tools tools,
    stream_pull (S (length chunks)) self w
      (OpenAIChat.Iterating (RawStream.mk chunks failure) openai_tools tools)
    = (self, w, OpenAIChat.Closed,
       (fun chunk =>
          OpenAIChatCompletionChunk.mk chunk
            (if OpenAIChat.nonempty tools then openai_tools else None))
       <$> chunks,
       Some (ending (RawStream.mk chunks failure))).
Proof.
  induction chunks as [|chunk chunks IH];
    intros self w failure openai_tools tools.
  - cbn. by destruct failure.
  - cbn [length].
    erewrite stream_pull_yield by reflexivity.
    by rewrite IH.
Qed.


End OpenAIChatStream.

(** ** [Requests.call] *)

(** X16: [call] makes one request, with the method, the URL, the data as
    JSON, the headers and the timeout of the configuration, and never lets an
    instance of [Exception] escape.  It returns the text of the response when
    the request succeeds and [raise_for_status] does not raise; for an
    exception of the request or of [raise_for_status] it returns the type of
    the exception followed by [: Failed to extract content from URL] and the
    URL; only an exception that is not an [Exception] goes through. *)
Theorem X16_call_catches_every_exception
    (request : HttpCall.t -> Exc.t + HttpResponse.t)
    (_config : RequestsConfig.t) (self : Requests.t) :
  let sent :=
    HttpCall.mk (Requests.method_name (Requests.method self))
      (Requests.url self) (Requests.data self) (Requests.headers self)
      (RequestsConfig.timeout _config) in
  (forall e,
     Requests.call request _config self = inl e ->
     Exc.isinstance e "Exception" = false)
  /\ (forall text,
        Requests.call request _config self = inr text ->
        (exists response,
           request sent = inr response
           /\ HttpResponse.raise_for_status response = None
           /\ text = HttpResponse.text response)
        \/ (exists e,
              (request sent = inl e
               \/ exists response,
                    request sent = inr response
                    /\ HttpResponse.raise_for_status response = Some e)
              /\ Exc.isinstance e "Exception" = true
              /\ text = Exc.type_repr e
                        +:+ ": Failed to extract content from URL "
                        +:+ Requests.url self))
  /\ ((forall e, request sent = inl e -> Exc.isinstance e "Exception" = true)
      -> (forall response e,
            request sent = inr response ->
            HttpResponse.raise_for_status response = Some e ->
            Exc.isinstance e "Exception" = true)
      -> exists text, Requests.call request _config self = inr text).
Proof.
  intros sent. unfold Requests.call. fold sent.
  destruct (request sent) as [e|response] eqn:Hr.
  - unfold Requests.handle.
    destruct (Exc.isinstance e "Exception") eqn:He.
    + split; [intros e' H; discriminate |].
      split.
      * intros text H. injection H as <-. right. exists e.
        split; [by left | done].
      * intros _ _. by eexists.
    + split; [intros e' H; by injection H as <- |].
      split; [intros text H; discriminate |].
      intros H _. specialize (H e eq_refl). congruence.
  - destruct (HttpResponse.raise_for_status response) as [e|] eqn:Hs.
    + unfold Requests.handle.
      destruct (Exc.isinstance e "Exception") eqn:He.
      * split; [intros e' H; discriminate |].
        split.
        -- intros text H. injection H as <-. right. exists e.
           split; [right; by exists response | done].
        -- intros _ _. by eexists.
      * split; [intros e' H; by injection H as <- |].
        split; [intros text H; discriminate |].
        intros _ H. specialize (H response e eq_refl Hs). congruence.
    + split; [intros e' H; discriminate |].
      split.
      * intros text H. injection H as <-. left. by exists response.
      * intros _ _. by eexists.
Qed.

(** ** [WandbPrompt._trace_error] *)

Lemma inputs_from_lookup messages : forall inputs result role,
  WandbPrompt.inputs_from messages inputs = inr result ->
  result !! role
  = match last (filter (fun message : gmap string string =>
                          message !! "role" = Some role) messages) with
    | Some message => message !! "content"
    | None => inputs !! role
    end.
Proof.
  induction messages as [|message messages IH]; intros inputs result role H.
  - cbn in H. by injection H as <-.
  - cbn [WandbPrompt.inputs_from] in H.
    destruct (message !! "role") as [r|] eqn:Hrole; [| discriminate].
    destruct (message !! "content") as [c|] eqn:Hcontent; [| discriminate].
    rewrite (IH _ _ role H). rewrite filter_cons.
    destruct (decide (message !! "role" = Some role)) as [Heq|Hne].
    + rewrite last_cons.
      destruct (last (filter _ messages)); [done |].
      assert (r = role) as -> by congruence.
      by rewrite lookup_insert_eq.
    + destruct (last (filter _ messages)); [done |].
      rewrite lookup_insert_ne; [done | congruence].
Qed.

Lemma inputs_from_fails messages : forall inputs,
  (exists e, WandbPrompt.inputs_from messages inputs = inl e)
  <-> Exists (fun message : gmap string string =>
                message !! "role" = None \/ message !! "content" = None)
        messages.
Proof.
  induction messages as [|message messages IH]; intros inputs.
  - cbn. split; [intros [e H]; discriminate | intros H; inversion H].
  - cbn [WandbPrompt.inputs_from]. rewrite Exists_cons.
    destruct (message !! "role") as [r|];
      [| split; [intros _; left; by left | intros _; by eexists]].
    destruct (message !! "content") as [c|];
      [| split; [intros _; left; by right | intros _; by eexists]].
    rewrite IH. split; [by right |]. by intros [[H|H]|H].
Qed.

Lemma inputs_from_error messages : forall inputs e,
  WandbPrompt.inputs_from messages inputs = inl e ->
  e = key_error "role" \/ e = key_error "content".
Proof.
  induction messages as [|message messages IH]; intros inputs e H;
    [discriminate |].
  cbn [WandbPrompt.inputs_from] in H.
  destruct (message !! "role"); [| injection H as <-; by left].
  destruct (message !! "content"); [| injection H as <-; by right].
  exact (IH _ e H).
Qed.

(** X17: the inputs of the error span hold one entry for each role, with the
    content of the last message of that role: an earlier message of the same
    role is not traced.  [_trace_error] raises [KeyError] exactly when a
    message has no role or no content; otherwise the span is an error span
    with the message of the error, no outputs and no children, and the
    parent gets it as its last child and keeps the children it had. *)
Theorem X17_error_span_inputs (self : WandbPrompt.t) (error : Exc.t)
    (parent : Trace.t) (now_ms : Z) :
  ((exists e, WandbPrompt._trace_error self error parent now_ms = inl e)
   <-> Exists (fun message : gmap string string =>
                 message !! "role" = None \/ message !! "content" = None)
         (WandbPrompt.messages self))
  /\ (forall e,
        WandbPrompt._trace_error self error parent now_ms = inl e ->
        e = key_error "role" \/ e = key_error "content")
  /\ (forall span parent',
        WandbPrompt._trace_error self error parent now_ms
        = inr (span, parent') ->
        (forall role,
           Trace.inputs span !! role
           = last (filter (fun message : gmap string string =>
                             message !! "role" = Some role)
                     (WandbPrompt.messages self))
             ≫= (.!! "content"))
        /\ Trace.status_code span = "error"
        /\ Trace.status_message span = Some (Exc.message error)
        /\ Trace.outputs span = None
        /\ Trace.children span = []
        /\ Trace.start_time_ms span = WandbPrompt._creation_time_ms self
        /\ Trace.end_time_ms span = now_ms
        /\ Trace.children parent' = (Trace.children parent ++ [span])%list).
Proof.
  unfold WandbPrompt._trace_error. split; [| split].
  - rewrite <- (inputs_from_fails (WandbPrompt.messages self) ∅).
    destruct (WandbPrompt.inputs_from (WandbPrompt.messages self) ∅);
      split; intros [e' H]; try discriminate; by eexists.
  - intros e H.
    destruct (WandbPrompt.inputs_from (WandbPrompt.messages self) ∅)
      as [e'|inputs] eqn:Hi; [| discriminate].
    injection H as <-. by apply (inputs_from_error _ _ _ Hi).
  - intros span parent' H.
    destruct (WandbPrompt.inputs_from (WandbPrompt.messages self) ∅)
      as [e|inputs] eqn:Hi; [discriminate |].
    injection H as <- <-. cbn.
    split; [| done].
    intros role. rewrite (inputs_from_lookup _ _ _ role Hi).
    by destruct (last _).
Qed.

(** ** The self-ask example *)

Lemma example_prompts_cons example examples :
  example_prompts (example :: examples)
  = (FewShotExample.messages example).1
    :: (FewShotExample.messages example).2
    :: example_prompts examples.
Proof. reflexivity. Qed.

(** X18: the computed field [example_prompts] holds two messages for each
    example, in the order of the examples: the question as a user message,
    then the answer as an assistant message; no example gives no message. *)
Theorem X18_example_prompts (examples : list FewShotExample.t) :
  length (example_prompts examples) = 2 * length examples
  /\ (forall i example,
        examples !! i = Some example ->
        example_prompts examples !! (2 * i)
        = Some (<["content" := FewShotExample.question example]>
                  {[ "role" := "user" ]})
        /\ example_prompts examples !! (2 * i + 1)
           = Some (<["content" := FewShotExample.answer example]>
                     {[ "role" := "assistant" ]}))
  /\ (forall more,
        example_prompts (examples ++ more)
        = (example_prompts examples ++ example_prompts more)%list).
Proof.
  split; [| split].
  - induction examples as [|example examples IH]; [done |].
    rewrite example_prompts_cons. cbn [length]. rewrite IH. lia.
  - induction examples as [|first examples IH]; intros i example Hi;
      [done |].
    rewrite example_prompts_cons.
    destruct i as [|i].
    + injection Hi as ->. done.
    + cbn in Hi. destruct (IH i example Hi) as [H1 H2].
      replace (2 * S i) with (S (S (2 * i))) by lia.
      replace (S (S (2 * i)) + 1) with (S (S (2 * i + 1))) by lia.
      done.
  - intros more. unfold example_prompts. by rewrite bind_app.
Qed.

(** ** [call_async_decorator] *)

Section CallAsyncProperties.
Context {Args Raw FnReturn : Type}.
Variable fn : Args -> Exc.t + FnReturn.
Variable bind : Args -> Exc.t + gmap string kwarg.
Variable setup_call :
  gmap string kwarg -> FnReturn -> Exc.t + CallAsync.setup.
Variable api : nat -> Request.t -> list (gmap string kwarg) -> Exc.t + Raw.
Variable now : nat -> float.
Variable openai_api_calculate_cost : Raw -> option float.
Variable client_create : string.

Local Abbreviation inner_async :=
  (CallAsync.inner_async fn bind setup_call api now
     openai_api_calculate_cost client_create).

Local Open Scope list_scope.

Lemma is_user_spec role : CallAsync.is_user role = true <-> role = KStr "user".
Proof.
  destruct role as [s| |]; cbn; [| by split | by split].
  rewrite bool_decide_eq_true. split; [by intros -> | by intros [= ->]].
Qed.

(** X19: when the decorated call returns a response, exactly one request was
    sent, with the model of the decorator, [stream=False] and the keyword
    arguments that the response records as [call_params]; there was at least
    one message, and [user_message_param] is the last message when the role
    of that message is [user] and [None] otherwise: a user message that is
    not the last one is never reported. *)
Theorem X19_user_message_is_the_last_message model w args w' r :
  inner_async model w args = (w', inr r) ->
  World.requests w'
  = World.requests w
    ++ [Request.mk model false (OpenAICallResponse.call_params r)]
  /\ World.clock_reads w' = S (S (World.clock_reads w))
  /\ exists message role,
       last (OpenAICallResponse.messages r) = Some message
       /\ message !! "role" = Some role
       /\ OpenAICallResponse.user_message_param r
          = (if CallAsync.is_user role then Some message else None)
       /\ (forall m,
             OpenAICallResponse.user_message_param r = Some m <->
             m = message /\ role = KStr "user").
Proof.
  unfold CallAsync.inner_async. intros H.
  destruct (bind args) as [e|fn_args]; [by injection H |].
  destruct (fn args) as [e|fn_return]; [by injection H |].
  destruct (setup_call fn_args fn_return)
    as [e|[prompt_template messages tool_types call_kwargs]];
    [by injection H |].
  destruct (duplicate_keyword _ call_kwargs); [by injection H |].
  cbn [World.tick World.requests World.clock_reads World.send] in H.
  destruct (api _ _ _) as [e|response]; [by injection H |].
  unfold CallAsync.last_user_message in H.
  destruct (last messages) as [message|] eqn:Hlast; [| by injection H].
  destruct (message !! "role") as [role|] eqn:Hrole; [| by injection H].
  injection H as <- <-. cbn.
  split; [done |]. split; [done |].
  exists message, role. split; [done |]. split; [done |]. split; [done |].
  intros m. destruct (CallAsync.is_user role) eqn:Hu.
  - apply is_user_spec in Hu. split; [by intros [= ->] | by intros [-> _]].
  - split; [done |]. intros [_ Hr]. apply is_user_spec in Hr. congruence.
Qed.


End CallAsyncProperties.
(** ** Instances of the properties above *)

Lemma triple_eta {A B C} (x : A * B * C) : x = (x.1.1, x.1.2, x.2).
Proof. by destruct x as [[a b] c]. Qed.

Lemma sample_attempt_returns :
  sample_attempt
  = (sample_attempt.1.1, sample_attempt.1.2,
     inr (OpenAIChatCompletion.mk 0%nat (Some [OpenAITool.mk "Book"])
            (1.5 * 1000)%float (1.5 * 1000)%float)).
Proof. vm_compute. reflexivity. Qed.

Lemma no_tool_is_caught :
  Exc.isinstance (none_has_no_attribute "model_dump") "AttributeError"
  || Exc.isinstance (none_has_no_attribute "model_dump") "ValidationError"
  = true.
Proof. vm_compute. reflexivity. Qed.

Lemma X10_witness :
  OpenAIChat.create sample_convert sample_patch sample_api sample_now
    sample_client_create
    (OpenAIChat.__init__ OpenAIChat.default_model) World.empty
    (IsPrompt gpt4_prompt) (Some []) ∅
  = OpenAIChat.create sample_convert sample_patch sample_api sample_now
      sample_client_create
      (OpenAIChat.__init__ OpenAIChat.default_model) World.empty
      (IsPrompt gpt4_prompt) (Some [Function "other"]) ∅.
Proof.
  exact (X10_prompt_tools_take_precedence sample_convert sample_patch
           sample_api sample_now sample_client_create
           (OpenAIChat.__init__ OpenAIChat.default_model) World.empty
           gpt4_prompt [] [Function "other"] ∅ [Function "format_book"]
           eq_refl).
Defined.

Lemma X11_witness :
  OpenAIChat.extract sample_convert sample_patch sample_schema_tool
    sample_api sample_now sample_tool sample_model_dump sample_instantiate
    sample_client_create sample_self_create 3
    (OpenAIChat.__init__ OpenAIChat.default_model) World.empty tt
    (Text "Recommend a fantasy book.") 0 ∅
  = (sample_attempt.1.1, sample_attempt.1.2,
     inl (none_has_no_attribute "model_dump")).
Proof.
  refine (proj1 (proj2 (X11_what_extract_does_not_retry sample_convert
                          sample_patch sample_schema_tool sample_api
                          sample_now sample_tool sample_model_dump
                          sample_instantiate sample_client_create
                          sample_self_create 3
                          (OpenAIChat.__init__ OpenAIChat.default_model)
                          World.empty tt (Text "Recommend a fantasy book.")
                          0 ∅ _))
            _ _ _ _ sample_attempt_returns eq_refl (or_intror _)).
  - vm_compute. reflexivity.
  - lia.
Defined.

Lemma X12_witness :
  World.requests sample_retry.1.2 = [first_request; second_request]
  /\ Request.kwargs first_request !! "temperature" = Some (KStr "0.2")
  /\ Request.kwargs second_request !! "temperature" = None
  /\ sample_patch
       (<["tool_choice" := OpenAIChat.tool_choice (sample_schema_tool tt)]>
          temperature_kwargs)
       (Text "Recommend a fantasy book.")
       (sample_convert (Some [ToolClass (sample_schema_tool tt)]))
     = inr (Request.kwargs first_request)
  /\ sample_patch
       (<["tool_choice" := OpenAIChat.tool_choice (sample_schema_tool tt)]> ∅)
       (Text "Recommend a fantasy book.")
       (sample_convert (Some [ToolClass (sample_schema_tool tt)]))
     = inr (Request.kwargs second_request).
Proof.
  assert (Hreq : World.requests sample_retry.1.2
                 = (World.requests World.empty
                    ++ first_request :: [second_request])%list)
    by (vm_compute; reflexivity).
  destruct (X12_retry_drops_keyword_arguments sample_convert sample_patch
              sample_schema_tool sample_api sample_now sample_tool
              sample_model_dump sample_instantiate sample_client_create
              sample_self_create 3
              (OpenAIChat.__init__ OpenAIChat.default_model) World.empty tt
              (Text "Recommend a fantasy book.") 1 temperature_kwargs
              sample_retry.1.1 sample_retry.1.2 sample_retry.2
              first_request [second_request]
              (triple_eta sample_retry) Hreq)
    as [Hfirst Hlater].
  split; [exact Hreq |].
  split; [vm_compute; reflexivity |].
  split; [vm_compute; reflexivity |].
  split.
  - exact (Hfirst (OpenAIChat.__init__ OpenAIChat.default_model) World.empty).
  - exact (Forall_inv Hlater (OpenAIChat.__init__ OpenAIChat.default_model)
             World.empty).
Defined.



Lemma sample_call_returns : sample_call = (sample_call.1, inr sample_response).
Proof. vm_compute. reflexivity. Qed.

Lemma X19_witness :
  World.requests sample_call.1 = [Request.mk "gpt-4o-mini" false ∅]
  /\ World.clock_reads sample_call.1 = 2%nat
  /\ exists message,
       last (OpenAICallResponse.messages sample_response) = Some message
       /\ OpenAICallResponse.user_message_param sample_response
          = Some message.
Proof.
  destruct (X19_user_message_is_the_last_message sample_fn sample_bind
              sample_setup_call sample_chat_api sample_now sample_cost
              sample_client_create
              "gpt-4o-mini" World.empty "fantasy" sample_call.1
              sample_response sample_call_returns)
    as (Hreq & Hclock & message & role & Hlast & Hrole & Hu & Hiff).
  split; [exact Hreq |]. split; [exact Hclock |].
  exists message. split; [exact Hlast |].
  apply Hiff. split; [reflexivity |].
  assert (Hm : message = sample_user_message) by (cbn in Hlast; congruence).
  rewrite Hm in Hrole. vm_compute in Hrole. congruence.
Defined.


(** ** The output parser of a stream *)

(** X21: the output parser of a stream changes what the consumer is given,
    and may end the iteration.  As long as it returns, the generator yields
    for every chunk what the parser returned, and two streams made by
    [__init__] over the same chunks with different parsers (also of
    different output types) end with the same message, cost and user
    message.  When it raises on a chunk, the iteration ends with its error
    after the items of the chunks before, the cost and the user message of
    that chunk have been taken, and [message_param] stays unassigned;
    [self.stream] keeps the chunks that follow, and consuming the object
    again assembles a message from the content of these chunks only. *)
Theorem X21_output_parser_changes_items_or_stops (O1 O2 : Type)
    (chunks : list Chunk.t) (message_param_type : MessageParamType.t)
    (parser1 : option (Chunk.t -> exn + O1))
    (parser2 : option (Chunk.t -> exn + O2)) :
  (forall items1 items2,
     BaseStream.parses
       (BaseStream.__init__ (of_list chunks) message_param_type parser1)
       chunks items1 ->
     BaseStream.parses
       (BaseStream.__init__ (of_list chunks) message_param_type parser2)
       chunks items2 ->
     (BaseStream.pull (S (length chunks))
        (BaseStream.__init__ (of_list chunks) message_param_type parser1)
        BaseStream.Created).1.2
     = BaseStream.yielded <$> items1
     /\ BaseStream.message_param
          (BaseStream.consume
             (BaseStream.__init__ (of_list chunks) message_param_type
                parser1)).1
        = BaseStream.message_param
            (BaseStream.consume
               (BaseStream.__init__ (of_list chunks) message_param_type
                  parser2)).1
     /\ BaseStream.cost
          (BaseStream.consume
             (BaseStream.__init__ (of_list chunks) message_param_type
                parser1)).1
        = BaseStream.cost
            (BaseStream.consume
               (BaseStream.__init__ (of_list chunks) message_param_type
                  parser2)).1
     /\ BaseStream.user_message_param
          (BaseStream.consume
             (BaseStream.__init__ (of_list chunks) message_param_type
                parser1)).1
        = BaseStream.user_message_param
            (BaseStream.consume
               (BaseStream.__init__ (of_list chunks) message_param_type
                  parser2)).1)
  /\ (forall pre bad post items e,
        chunks = (pre ++ bad :: post)%list ->
        BaseStream.parses
          (BaseStream.__init__ (of_list chunks) message_param_type parser1)
          pre items ->
        BaseStream.parsed
          (BaseStream.__init__ (of_list chunks) message_param_type parser1)
          bad = inl e ->
        exists failed,
          BaseStream.consume
            (BaseStream.__init__ (of_list chunks) message_param_type parser1)
          = (failed, BaseStream.Propagated e)
          /\ BaseStream.pull (S (length pre))
               (BaseStream.__init__ (of_list chunks) message_param_type
                  parser1)
               BaseStream.Created
             = (failed, BaseStream.Closed, BaseStream.yielded <$> items,
                Some (BaseStream.Raise e))
          /\ BaseStream.message_param failed = Unassigned
          /\ BaseStream.stream failed = of_list post
          /\ BaseStream.cost failed = latest_cost None (pre ++ [bad])
          /\ BaseStream.user_message_param failed
             = Chunk.user_message_param bad
          /\ (forall items',
                BaseStream.parses failed post items' ->
                BaseStream.exposed_content (BaseStream.consume failed).1
                = Some (VStr (contents post)))).
Proof.
  split.
  - intros items1 items2 Hp1 Hp2. split.
    + by rewrite (pull_consume_of_list _ chunks items1).
    + rewrite (consume_of_list _ chunks items1) by done.
      rewrite (consume_of_list _ chunks items2) by done.
      rewrite !assemble_content_key. by repeat split.
  - intros pre bad post items e -> Hp Hbad.
    assert (Hs : BaseStream.stream
                   (BaseStream.__init__ (of_list (pre ++ bad :: post))
                      message_param_type parser1)
                 = script pre (Yields bad (of_list post)))
      by (cbn; unfold of_list; by rewrite script_app).
    exists (BaseStream.after
              (BaseStream.__init__ (of_list (pre ++ bad :: post))
                 message_param_type parser1)
              (pre ++ [bad]) (of_list post)).
    split; [by apply (consume_parser_raises _ pre bad _ items) |].
    split.
    { rewrite (pull_parser_raises _ pre bad (of_list post) items e)
        by done.
      by rewrite (consume_parser_raises _ pre bad (of_list post) items e). }
    split; [reflexivity |]. split; [reflexivity |].
    split; [reflexivity |].
    split; [cbn; apply latest_user_message_snoc |].
    intros items' Hp'.
    rewrite (consume_of_list _ post items') by done.
    apply exposed_content_assemble.
Qed.

Lemma X21_witness :
  exists failed,
    BaseStream.consume
      (parsed_stream (of_list (hello_chunks ++ [text_chunk "!"])))
    = (failed, BaseStream.Propagated (ValueError "empty chunk"))
    /\ BaseStream.message_param failed = Unassigned
    /\ BaseStream.stream failed = of_list [text_chunk "!"]
    /\ BaseStream.exposed_content (BaseStream.consume failed).1
       = Some (VStr "!").
Proof.
  destruct (proj2 (X21_output_parser_changes_items_or_stops nat nat
                     (hello_chunks ++ [text_chunk "!"])
                     groq_message_param_type (Some length_parser) None)
              [text_chunk "Hel"; text_chunk "lo"]
              (Chunk.mk None "" None [] (Some "stop") (Some (Usage.mk 3 2)))
              [text_chunk "!"] [inr 3%nat; inr 2%nat]
              (ValueError "empty chunk") eq_refl
              ltac:(repeat constructor) eq_refl)
    as (failed & H1 & _ & H2 & H3 & _ & _ & H4).
  exists failed. split; [exact H1 |]. split; [exact H2 |].
  split; [exact H3 |].
  apply (H4 [inr 1%nat]).
  assert (Hparser : BaseStream.output_parser failed = Some length_parser).
  { apply (f_equal fst) in H1. cbn [fst] in H1. rewrite <- H1.
    vm_compute. reflexivity. }
  constructor; [| constructor].
  unfold BaseStream.parsed. rewrite Hparser. reflexivity.
Defined.
